(** * caddy-headless-proxy: a shallow embedding of the handler and its helpers

    The repository is one Go package, [headlessproxy].  The handler file
    (src/unnamed/part_000: the struct, Provision, the browser pool, the
    cache helpers and ServeHTTP) is embedded in [Handler] and [Server];
    the stand-alone cache file, which declares [getCacheKey],
    [getCachedResponse] and [setCachedResponse] a second time (it follows
    the tests in src/headlessproxy_test.go), is embedded in [CacheFile];
    the health file (same place, after the cache file) in [Health];
    src/utils.go in [Utils], with what it uses of strings and fmt in
    [Text].

    Go's [int] is modelled as [Z], strings and byte slices as [string],
    [map[string]T] as an optional [gmap string T] (the nil map apart),
    slices used as stacks as [list], a byte slice whose capacity matters
    as its backing array and a length, a prometheus counter as an
    optional float64 (the nil counter apart).  What the rendering engine,
    the clock and the hash functions answer is passed in explicitly. *)

From Stdlib Require Import PrimFloat.
From Stdlib Require Import ZArith String Ascii List Bool Lia DecimalString.
From stdpp Require Import base option list gmap strings.

Open Scope string_scope.
Open Scope list_scope.

(** ** Go runtime notions shared by the files *)

Module Go.

(** A call either comes back with a value or panics. *)
Inductive result (A : Type) : Type :=
| Done (a : A)
| Panic (msg : string).
Arguments Done {A} a.
Arguments Panic {A} msg.

(** [int64] wrap-around, used by [time.Duration] arithmetic. *)
Definition wrap64 (z : Z) : Z :=
  ((z + 2 ^ 63) mod 2 ^ 64 - 2 ^ 63)%Z.

(** Instants are nanoseconds on an unbounded line; [time.Second] is 10^9
    nanoseconds and [time.Duration(n) * time.Second] wraps at 64 bits. *)
Definition Second : Z := 1000000000.
Definition seconds (n : Z) : Z := wrap64 (wrap64 n * Second).
Definition Time_Add (t d : Z) : Z := (t + d)%Z.
Definition Time_Before (t u : Z) : bool := (t <? u)%Z.
Definition Time_After (t u : Z) : bool := (u <? t)%Z.

(** A [map[string]V] value: [None] is the nil map, which reads as empty,
    ignores [delete] and panics on assignment. *)
Abbreviation map V := (option (gmap string V)).

Definition map_get {V} (m : map V) (k : string) : option V :=
  match m with Some g => g !! k | None => None end.

Definition map_delete {V} (m : map V) (k : string) : map V :=
  match m with Some g => Some (delete k g) | None => None end.

Definition map_assign {V} (m : map V) (k : string) (v : V) : result (map V) :=
  match m with
  | Some g => Done (Some (<[k := v]> g))
  | None => Panic "assignment to entry in nil map"
  end.

Definition map_len {V} (m : map V) : Z :=
  match m with Some g => Z.of_nat (size g) | None => 0%Z end.

(** strings.HasPrefix, strings.HasSuffix, strings.Contains, strings.Join *)
Definition HasPrefix (s p : string) : bool := String.prefix p s.

Definition HasSuffix (s p : string) : bool :=
  let n := String.length s in
  let k := String.length p in
  (k <=? n)%nat && String.eqb (String.substring (n - k) k s) p.

Fixpoint Contains (s sub : string) : bool :=
  String.prefix sub s ||
  match s with
  | EmptyString => false
  | String _ rest => Contains rest sub
  end.

Fixpoint Join (parts : list string) (sep : string) : string :=
  match parts with
  | [] => ""
  | [p] => p
  | p :: rest => p +:+ sep +:+ Join rest sep
  end.

Definition hex_digit (n : nat) : ascii :=
  nth n (list_ascii_of_string "0123456789abcdef") "0"%char.

(** encoding/hex.EncodeToString *)
Fixpoint hex_EncodeToString (bytes : string) : string :=
  match bytes with
  | EmptyString => EmptyString
  | String c rest =>
      let n := nat_of_ascii c in
      String (hex_digit (n / 16)) (String (hex_digit (n mod 16))
        (hex_EncodeToString rest))
  end.

(** encoding/hex.DecodeString, on the output of EncodeToString. *)
Definition hex_value (c : ascii) : nat :=
  let n := nat_of_ascii c in
  if (97 <=? n)%nat then (n - 87)%nat else (n - 48)%nat.

Fixpoint hex_DecodeString (s : string) : string :=
  match s with
  | String hi (String lo rest) =>
      String (ascii_of_nat (16 * hex_value hi + hex_value lo))
             (hex_DecodeString rest)
  | _ => EmptyString
  end.

(** What a loop that appends [f x] for each [x] of [l] appends in all. *)
Fixpoint glue {A} (f : A -> string) (l : list A) : string :=
  match l with
  | [] => ""
  | x :: rest => f x +:+ glue f rest
  end.

End Go.

(** ** net/http and net/textproto, as far as the package uses them *)

Module Http.
Import Go.

Definition MethodGet := "GET".
Definition MethodPost := "POST".
Definition MethodPut := "PUT".
Definition MethodDelete := "DELETE".
Definition MethodPatch := "PATCH".

(** The four methods ServeHTTP forwards through the fetch script. *)
Definition mutating (m : string) : Prop :=
  m = MethodPost \/ m = MethodPut \/ m = MethodDelete \/ m = MethodPatch.

(** The methods the switch in ServeHTTP has no case for. *)
Definition unsupported (m : string) : Prop :=
  m <> MethodGet /\ m <> MethodPost /\ m <> MethodPut /\
  m <> MethodDelete /\ m <> MethodPatch.

Definition StatusOK : Z := 200.
Definition StatusMethodNotAllowed : Z := 405.
Definition StatusBadGateway : Z := 502.

Definition is_lower (c : ascii) : bool :=
  let n := nat_of_ascii c in (97 <=? n)%nat && (n <=? 122)%nat.
Definition is_upper (c : ascii) : bool :=
  let n := nat_of_ascii c in (65 <=? n)%nat && (n <=? 90)%nat.
Definition is_digit (c : ascii) : bool :=
  let n := nat_of_ascii c in (48 <=? n)%nat && (n <=? 57)%nat.
Definition to_upper (c : ascii) : ascii :=
  if is_lower c then ascii_of_nat (nat_of_ascii c - 32) else c.
Definition to_lower (c : ascii) : ascii :=
  if is_upper c then ascii_of_nat (nat_of_ascii c + 32) else c.

(** textproto.validHeaderFieldByte: the RFC 7230 token characters. *)
Definition validHeaderFieldByte (c : ascii) : bool :=
  is_lower c || is_upper c || is_digit c ||
  existsb (Ascii.eqb c)
    (list_ascii_of_string "!#$%&'*+-.^_`|~").

Fixpoint canonical_case (upper : bool) (s : string) : string :=
  match s with
  | EmptyString => EmptyString
  | String c rest =>
      let c' := if upper then to_upper c else to_lower c in
      String c' (canonical_case (Ascii.eqb c' "-"%char) rest)
  end.

(** textproto.CanonicalMIMEHeaderKey: a key made of token bytes gets its
    first letter and every letter after a hyphen in upper case and the
    others in lower case; any other key is returned as it is. *)
Definition CanonicalMIMEHeaderKey (s : string) : string :=
  if forallb validHeaderFieldByte (list_ascii_of_string s)
  then canonical_case true s else s.

(** http.Header is [map[string][]string]. *)
Abbreviation Header := (gmap string (list string)).

Definition Header_Get (hd : Header) (key : string) : string :=
  match hd !! CanonicalMIMEHeaderKey key with
  | Some (v :: _) => v
  | _ => ""
  end.

Definition Header_Set (hd : Header) (key value : string) : Header :=
  <[CanonicalMIMEHeaderKey key := [value]]> hd.

Definition Header_Add (hd : Header) (key value : string) : Header :=
  <[CanonicalMIMEHeaderKey key :=
      (default [] (hd !! CanonicalMIMEHeaderKey key) ++ [value])%list]> hd.

Record Cookie := mkCookie {
  Name : string;
  Value : string;
  Domain : string;
  Path : string
}.

(** url.URL; [String()] is taken as given, see [CacheFile]. *)
Record URL := mkURL {
  Scheme : string;
  Host : string;
  URL_Path : string;
  RawQuery : string
}.

(** An inbound *http.Request.  [Cookies] is what [r.Cookies()] parses out
    of the Cookie header, in header order; [Body] is what io.ReadAll of
    the body gives, [None] when reading fails. *)
Record Request := mkRequest {
  Method : string;
  Url : URL;
  Header_ : Header;
  Cookies : list Cookie;
  Body : option string
}.

(** What an http.ResponseWriter has received so far. *)
Record ResponseWriter := mkWriter {
  w_header : Header;
  w_status : option Z;
  w_body : string
}.

Definition newRecorder : ResponseWriter :=
  {| w_header := ∅; w_status := None; w_body := "" |}.

Definition add_all (key : string) (values : list string) (hd : Header) : Header :=
  fold_left (fun acc v => Header_Add acc key v) values hd.

(** [for key, values := range headers { for _, value := range values {
    w.Header().Add(key, value) } }] *)
Definition copy_headers (src : Header) (w : ResponseWriter) : ResponseWriter :=
  {| w_header := map_fold add_all (w_header w) src;
     w_status := w_status w;
     w_body := w_body w |}.

(** Sending the status line: the first status code sent stays. *)
Definition send_status (code : Z) (w : ResponseWriter) : ResponseWriter :=
  match w_status w with
  | Some _ => w
  | None => {| w_header := w_header w; w_status := Some code; w_body := w_body w |}
  end.

(** The codes net/http accepts in WriteHeader. *)
Definition valid_code (code : Z) : bool := (100 <=? code)%Z && (code <=? 999)%Z.

(** [w.WriteHeader(code)]: a second call is ignored; a first call with a
    code outside 100..999 panics. *)
Definition WriteHeader (code : Z) (w : ResponseWriter) : result ResponseWriter :=
  match w_status w with
  | Some _ => Done w
  | None =>
      if valid_code code then Done (send_status code w)
      else Panic "invalid WriteHeader code"
  end.

(** [w.Write(data)]: sends 200 first when no status was written; [ok]
    tells whether the connection accepted the bytes. *)
Definition Write (ok : bool) (data : string) (w : ResponseWriter)
  : ResponseWriter * bool :=
  let w1 := send_status StatusOK w in
  if ok
  then ({| w_header := w_header w1; w_status := w_status w1;
           w_body := w_body w1 +:+ data |}, true)
  else (w1, false).

End Http.

(** ** strings and fmt, as far as utils.go uses them *)

Module Text.
Import Go Http.

(** A byte below [utf8.RuneSelf]. *)
Definition is_ascii_byte (c : ascii) : bool := (nat_of_ascii c <? 128)%nat.

(** A string made of such bytes only, and a string changed byte by
    byte; [map_bytes to_lower s] is the lower-case form of an ASCII [s]. *)
Definition is_ascii (s : string) : bool :=
  forallb is_ascii_byte (list_ascii_of_string s).

Fixpoint map_bytes (f : ascii -> ascii) (s : string) : string :=
  match s with
  | EmptyString => EmptyString
  | String c rest => String (f c) (map_bytes f rest)
  end.

(** The string slice expression [s[:high]]: in range from 0 to the
    length, a run-time panic outside. *)
Definition string_to (s : string) (high : Z) : result string :=
  if (0 <=? high)%Z && (high <=? Z.of_nat (String.length s))%Z
  then Done (String.substring 0 (Z.to_nat high) s)
  else Panic "slice bounds out of range".

(** The verb [%d] of fmt.Sprintf on an int. *)
Definition itoa (n : Z) : string := NilZero.string_of_int (Z.to_int n).

(** What EqualFold's loop asks of two ASCII bytes to go on: that they be
    equal, or that the smaller be an upper-case letter and the larger its
    lower-case form. *)
Definition fold_step (sr tr : ascii) : bool :=
  Ascii.eqb tr sr ||
  (let lo := if (nat_of_ascii tr <? nat_of_ascii sr)%nat then tr else sr in
   let hi := if (nat_of_ascii tr <? nat_of_ascii sr)%nat then sr else tr in
   is_upper lo && (nat_of_ascii hi =? nat_of_ascii lo + 32)%nat).

Section Unicode.
(** The rune-by-rune comparison to which EqualFold falls, on what is
    left of both strings, when it meets a byte from 0x80 on. *)
Variable unicode_EqualFold : string -> string -> bool.

(** strings.EqualFold: byte by byte while both strings are ASCII; when
    one string ends before the other the answer is false. *)
Fixpoint EqualFold (s t : string) : bool :=
  match s, t with
  | EmptyString, EmptyString => true
  | String sr s', String tr t' =>
      if negb (is_ascii_byte sr) || negb (is_ascii_byte tr)
      then unicode_EqualFold s t
      else if fold_step sr tr then EqualFold s' t'
      else false
  | _, _ => false
  end.
End Unicode.

End Text.


(** ** The rendering engine (go-rod), seen from the package *)

Module Rod.

(** A *rod.Browser handle. *)
Definition Browser := nat.

(** What launching and connecting a browser comes to: [MustLaunch]
    panics when the launcher fails, [Connect] may return an error. *)
Inductive launch_outcome :=
| MustLaunch_panics
| Connect_fails
| Connected (b : Browser).

(** proto.NetworkCookie, the fields ServeHTTP reads. *)
Record NetworkCookie := mkNetworkCookie {
  nc_Name : string;
  nc_Value : string;
  nc_Domain : string;
  nc_Path : string;
  nc_Expires : Z;
  nc_Secure : bool;
  nc_HTTPOnly : bool
}.

(** The [map[string]interface{}] the fetch script evaluates to, after
    the type assertions ServeHTTP makes on it: a field is [None] when it
    is missing or of another type. *)
Record FetchResult := mkFetchResult {
  fr_error : option string;
  fr_headers : option (list (string * string));
  fr_status : option Z;
  fr_body : option string
}.

(** What the engine answers during one ServeHTTP call; [error_text] is
    what [err.Error()] reads for the call that fails. *)
Record Answers := mkAnswers {
  launch : launch_outcome;
  page_ok : bool;
  set_user_agent_ok : bool;
  eval_on_new_document_ok : bool;
  navigate_ok : bool;
  wait_navigation_ok : bool;
  html : option string;
  fetch : option FetchResult;
  page_cookies : option (list NetworkCookie);
  write_ok : bool;
  error_text : string
}.

End Rod.

(** ** The handler file: struct, Provision, browser pool, cache helpers *)

Module Handler.
Import Http Go Rod.

(** [type cacheEntry struct].  The cache file declares the same struct
    with the last field named [Expires]. *)
Record cacheEntry := mkEntry {
  Content : string;
  Headers : Header;
  StatusCode : Z;
  Expiration : Z
}.

(** [type HeadlessProxy struct]; the locks and the logger carry no data
    of their own in a sequential run. *)
Record HeadlessProxy := mkProxy {
  Upstream : string;
  Timeout : Z;
  UserAgent : string;
  EnableJS : bool;
  ForwardCookies : bool;
  ForwardHeaders : list string;
  CacheTTL : Z;
  MaxBrowsers : Z;
  OptimizeResources : bool;
  CompressImages : bool;
  MinifyContent : bool;
  browserPool : list Browser;
  cache : Go.map cacheEntry
}.

Definition set_browserPool (h : HeadlessProxy) (p : list Browser) : HeadlessProxy :=
  {| Upstream := Upstream h; Timeout := Timeout h; UserAgent := UserAgent h;
     EnableJS := EnableJS h; ForwardCookies := ForwardCookies h;
     ForwardHeaders := ForwardHeaders h; CacheTTL := CacheTTL h;
     MaxBrowsers := MaxBrowsers h; OptimizeResources := OptimizeResources h;
     CompressImages := CompressImages h; MinifyContent := MinifyContent h;
     browserPool := p; cache := cache h |}.

Definition set_cache (h : HeadlessProxy) (c : Go.map cacheEntry) : HeadlessProxy :=
  {| Upstream := Upstream h; Timeout := Timeout h; UserAgent := UserAgent h;
     EnableJS := EnableJS h; ForwardCookies := ForwardCookies h;
     ForwardHeaders := ForwardHeaders h; CacheTTL := CacheTTL h;
     MaxBrowsers := MaxBrowsers h; OptimizeResources := OptimizeResources h;
     CompressImages := CompressImages h; MinifyContent := MinifyContent h;
     browserPool := browserPool h; cache := c |}.

Definition default_user_agent : string :=
  "Mozilla/5.0 (Windows NT 10.0; Win64; x64) AppleWebKit/537.36 (KHTML, like Gecko) Chrome/91.0.4472.124 Safari/537.36".

(** [createBrowser]: nil when Connect fails. *)
Definition createBrowser (o : launch_outcome) : result (option Browser) :=
  match o with
  | MustLaunch_panics => Panic "launcher: MustLaunch"
  | Connect_fails => Done None
  | Connected b => Done (Some b)
  end.

(** [initBrowserPool] *)
Definition initBrowserPool (h : HeadlessProxy) (o : launch_outcome)
  : result HeadlessProxy :=
  match createBrowser o with
  | Panic msg => Panic msg
  | Done None => Done h
  | Done (Some browser) =>
      Done (set_browserPool h (browserPool h ++ [browser]))
  end.

(** [Provision]: defaults, cache map, empty pool, one warm browser. *)
Definition Provision (h : HeadlessProxy) (o : launch_outcome)
  : result HeadlessProxy :=
  let timeout := if (Timeout h <=? 0)%Z then 30%Z else Timeout h in
  let userAgent :=
    if String.eqb (UserAgent h) "" then default_user_agent else UserAgent h in
  let enableJS := if negb (EnableJS h) then true else EnableJS h in
  let maxBrowsers := if (MaxBrowsers h <=? 0)%Z then 5%Z else MaxBrowsers h in
  let cache' := if (0 <? CacheTTL h)%Z then Some ∅ else cache h in
  initBrowserPool
    {| Upstream := Upstream h; Timeout := timeout; UserAgent := userAgent;
       EnableJS := enableJS; ForwardCookies := ForwardCookies h;
       ForwardHeaders := ForwardHeaders h; CacheTTL := CacheTTL h;
       MaxBrowsers := maxBrowsers; OptimizeResources := OptimizeResources h;
       CompressImages := CompressImages h; MinifyContent := MinifyContent h;
       browserPool := []; cache := cache' |}
    o.

(** [getBrowser]: the last pooled browser, or a new one.  The launch
    outcome is consulted only when the pool is empty. *)
Definition getBrowser (h : HeadlessProxy) (o : launch_outcome)
  : HeadlessProxy * result (option Browser) :=
  if (0 <? Z.of_nat (length (browserPool h)))%Z then
    match last (browserPool h) with
    | Some browser =>
        (set_browserPool h (take (length (browserPool h) - 1) (browserPool h)),
         Done (Some browser))
    | None => (h, Panic "index out of range")
    end
  else (h, createBrowser o).

(** [returnBrowser]: the second component is the browser handed to the
    [go func() { browser.Close() }()] goroutine, if any. *)
Definition returnBrowser (h : HeadlessProxy) (browser : Browser)
  : HeadlessProxy * option Browser :=
  if (MaxBrowsers h <=? Z.of_nat (length (browserPool h)))%Z
  then (h, Some browser)
  else (set_browserPool h (browserPool h ++ [browser]), None).

(** [Cleanup]: closes every pooled browser and drops the pool. *)
Definition Cleanup (h : HeadlessProxy) : HeadlessProxy * list Browser :=
  (set_browserPool h [], browserPool h).

(** A caller's use of the pool: an acquire, with what launching a browser
    would come to, or a release of some browser. *)
Inductive PoolOp :=
| Acquire (o : launch_outcome)
| Release (browser : Browser).

Definition pool_step (h : HeadlessProxy) (op : PoolOp) : HeadlessProxy :=
  match op with
  | Acquire o => (getBrowser h o).1
  | Release browser => (returnBrowser h browser).1
  end.

Definition pool_run (h : HeadlessProxy) (ops : list PoolOp) : HeadlessProxy :=
  fold_left pool_step ops h.

Definition pool_size (h : HeadlessProxy) : Z := Z.of_nat (length (browserPool h)).

Section CacheHelpers.
(** crypto/sha256: the digest of the bytes written to the hasher. *)
Variable sha256_Sum : string -> string.

Definition forwarded_header (r : Request) (header : string) : string :=
  let value := Header_Get (Header_ r) header in
  if String.eqb value "" then "" else header +:+ ":" +:+ value.

Definition cookie_pair (c : Cookie) : string := Name c +:+ "=" +:+ Value c.

(** The bytes [getCacheKey] writes to the hasher, in order. *)
Definition key_material (h : HeadlessProxy) (r : Request) : string :=
  let hasher := Method r +:+ URL_Path (Url r) +:+ RawQuery (Url r) in
  let hasher :=
    fold_left (fun acc header => acc +:+ forwarded_header r header)
              (ForwardHeaders h) hasher in
  if ForwardCookies h
  then fold_left (fun acc c => acc +:+ cookie_pair c) (Cookies r) hasher
  else hasher.

(** [getCacheKey] *)
Definition getCacheKey (h : HeadlessProxy) (r : Request) : string :=
  hex_EncodeToString (sha256_Sum (key_material h r)).

(** The name/value pairs of the request's cookies, in request order. *)
Definition cookie_pairs (r : Request) : list (string * string) :=
  List.map (fun c => (Name c, Value c)) (Cookies r).

(** [getCachedResponse]; [now] is what time.Now() gives. *)
Definition getCachedResponse (h : HeadlessProxy) (now : Z) (r : Request)
  : HeadlessProxy * option (string * Header * Z) :=
  if (CacheTTL h <=? 0)%Z then (h, None)
  else
    let key := getCacheKey h r in
    match map_get (cache h) key with
    | Some entry =>
        if Time_Before now (Expiration entry)
        then (h, Some (Content entry, Headers entry, StatusCode entry))
        else (set_cache h (map_delete (cache h) key), None)
    | None => (h, None)
    end.

(** The sweep of expired entries. *)
Definition sweep (now : Z) (m : Go.map cacheEntry) : Go.map cacheEntry :=
  match m with
  | Some g =>
      Some (filter (fun kv : string * cacheEntry =>
                      Time_After now (Expiration kv.2) = false) g)
  | None => None
  end.

(** [setCachedResponse]; [now_sweep] and [now] are the two readings of
    the clock, the first one taken only when the sweep runs. *)
Definition setCachedResponse (h : HeadlessProxy) (now_sweep now : Z)
    (r : Request) (content : string) (headers : Header) (statusCode : Z)
  : result HeadlessProxy :=
  if (CacheTTL h <=? 0)%Z then Done h
  else
    let key := getCacheKey h r in
    let swept :=
      if (1000 <? map_len (cache h))%Z then sweep now_sweep (cache h)
      else cache h in
    match map_assign swept key
            {| Content := content; Headers := headers;
               StatusCode := statusCode;
               Expiration := Time_Add now (seconds (CacheTTL h)) |} with
    | Done c => Done (set_cache h c)
    | Panic msg => Panic msg
    end.
End CacheHelpers.

End Handler.

(** ** The cache file: the second declaration of the cache helpers *)

Module CacheFile.
Import Http Go Rod Handler.

(** The struct field this file calls [Expires]. *)
Definition Expires (e : cacheEntry) : Z := Expiration e.

(** What one header of the fixed list adds to the key string, and what
    the cookies add. *)
Definition header_part (r : Request) (headerKey : string) : string :=
  let value := Header_Get (Header_ r) headerKey in
  if String.eqb value "" then "" else "|" +:+ headerKey +:+ ":" +:+ value.

Definition cookies_part (h : HeadlessProxy) (r : Request) : string :=
  if ForwardCookies h then
    let cookies := List.map (fun c => Name c +:+ "=" +:+ Value c) (Cookies r) in
    if (0 <? Z.of_nat (length cookies))%Z
    then "|cookies:" +:+ Join cookies "&" else ""
  else "".

Section CacheHelpers.
(** crypto/md5 and the String method of url.URL. *)
Variable md5_Sum : string -> string.
Variable URL_String : URL -> string.

Definition headerKeys : list string := ["Accept-Language"; "User-Agent"].

Definition key_string (h : HeadlessProxy) (r : Request) : string :=
  let key := URL_String (Url r) in
  let key :=
    fold_left
      (fun key headerKey =>
         let value := Header_Get (Header_ r) headerKey in
         if String.eqb value "" then key
         else key +:+ "|" +:+ headerKey +:+ ":" +:+ value)
      headerKeys key in
  if ForwardCookies h then
    let cookies := List.map (fun c => Name c +:+ "=" +:+ Value c) (Cookies r) in
    if (0 <? Z.of_nat (length cookies))%Z
    then key +:+ "|cookies:" +:+ Join cookies "&"
    else key
  else key.

(** [getCacheKey]: the empty key marks a request that is not cached. *)
Definition getCacheKey (h : HeadlessProxy) (r : Request) : string :=
  if negb (String.eqb (Method r) MethodGet) then ""
  else hex_EncodeToString (md5_Sum (key_string h r)).

(** [getCachedResponse] *)
Definition getCachedResponse (h : HeadlessProxy) (now : Z) (r : Request)
  : HeadlessProxy * option (string * Header * Z) :=
  if (CacheTTL h <=? 0)%Z then (h, None)
  else
    let key := getCacheKey h r in
    if String.eqb key "" then (h, None)
    else
      match map_get (cache h) key with
      | None => (h, None)
      | Some entry =>
          if Time_After now (Expires entry) then (h, None)
          else (h, Some (Content entry, Headers entry, StatusCode entry))
      end.

(** [cleanupCache] *)
Definition cleanupCache (now : Z) (m : Go.map cacheEntry) : Go.map cacheEntry :=
  match m with
  | Some g =>
      Some (filter (fun kv : string * cacheEntry =>
                      Time_After now (Expires kv.2) = false) g)
  | None => None
  end.

(** [setCachedResponse]; [now] dates the entry, [now_sweep] is read by
    [cleanupCache] when it runs. *)
Definition setCachedResponse (h : HeadlessProxy) (now_sweep now : Z)
    (r : Request) (content : string) (headers : Header) (statusCode : Z)
  : result HeadlessProxy :=
  if (CacheTTL h <=? 0)%Z || (statusCode <? 200)%Z || (300 <=? statusCode)%Z
  then Done h
  else if negb (String.eqb (Method r) MethodGet) then Done h
  else
    let key := getCacheKey h r in
    if String.eqb key "" then Done h
    else
      let cacheControl := Header_Get headers "Cache-Control" in
      if negb (String.eqb cacheControl "") &&
         (Contains cacheControl "no-store" || Contains cacheControl "no-cache")
      then Done h
      else
        let headersCopy : Header := map_fold (fun k v acc => <[k := v]> acc) ∅ headers in
        match map_assign (cache h) key
                {| Content := content; Headers := headersCopy;
                   StatusCode := statusCode;
                   Expiration := Time_Add now (seconds (CacheTTL h)) |} with
        | Panic msg => Panic msg
        | Done c =>
            if (1000 <? map_len c)%Z
            then Done (set_cache h (cleanupCache now_sweep c))
            else Done (set_cache h c)
        end.
End CacheHelpers.

End CacheFile.

(** ** The health file *)

Module Health.
Import Http Go Rod Handler.

(** metrics.go: a [prometheus.Counter] is an interface value, nil until
    [initMetrics] has registered it, and a registered counter holds a
    float64.  [None] is the nil counter. *)
Definition Counter : Type := option float.

(** [type Metrics struct], the four counters the health file uses.  The
    zero value of the struct has every counter nil; [initMetrics], which
    no function of the package calls, registers them all. *)
Record Metrics := mkMetrics {
  cacheHits : Counter;
  cacheMisses : Counter;
  browserCreatedTotal : Counter;
  browserClosedTotal : Counter
}.

(** Every counter has been registered. *)
Definition registered (m : Metrics) : bool :=
  match cacheHits m, cacheMisses m, browserCreatedTotal m, browserClosedTotal m with
  | Some _, Some _, Some _, Some _ => true
  | _, _, _, _ => false
  end.

(** The panic of a method call on a nil interface value. *)
Definition nil_dereference : string :=
  "invalid memory address or nil pointer dereference".

(** [c.Inc()] *)
Definition Inc (c : Counter) : result Counter :=
  match c with
  | Some v => Done (Some (v + 1)%float)
  | None => Panic nil_dereference
  end.

(** [c.Value()], as the health file calls it: the counter's current
    value. *)
Definition Value (c : Counter) : result float :=
  match c with
  | Some v => Done v
  | None => Panic nil_dereference
  end.

(** The loop state of [checkBrowsersHealth]: the pool being patched, the
    two counts, the browsers closed and created on the way, and the
    metrics counters. *)
Record Sweep := mkSweep {
  pool : list Browser;
  healthyCount : Z;
  unhealthyCount : Z;
  closed : list Browser;
  created : list Browser;
  counters : Metrics
}.

(** [type BrowserPoolStatus struct] *)
Record BrowserPoolStatus := mkPoolStatus {
  Size : Z;
  MaxSize : Z;
  HealthyCount : Z;
  UnhealthyCount : Z
}.

(** [type CacheStatus struct] *)
Record CacheStatus := mkCacheStatus {
  Enabled : bool;
  cs_Size : Z;
  HitRate : float;
  TTL : Z
}.

(** [type HealthStatus struct], but for Uptime, SystemResources and
    Timestamp, which are read off the clock and the Go runtime. *)
Record HealthStatus := mkHealthStatus {
  Status : string;
  BrowserPool : BrowserPoolStatus;
  CacheStatus_ : CacheStatus;
  Version : string
}.

Definition StatusServiceUnavailable : Z := 503.

Section Probing.
(** [isBrowserHealthy]: opening a blank page and evaluating 1+1 is the
    engine's business; [probe b] is its verdict. *)
Variable probe : Browser -> bool.
(** The outcome of the createBrowser call made for index [i]. *)
Variable relaunch : nat -> launch_outcome.

Definition isBrowserHealthy (browser : Browser) : bool := probe browser.

(** One iteration of [for i, browser := range h.browserPool]: the loop
    state when the iteration is over, or when it panics. *)
Definition check_one (i : nat) (browser : Browser) (s : Sweep)
  : Sweep * result unit :=
  if isBrowserHealthy browser then
    ({| pool := pool s; healthyCount := healthyCount s + 1;
        unhealthyCount := unhealthyCount s;
        closed := closed s; created := created s; counters := counters s |},
     Done tt)
  else
    (* unhealthyCount++; browser.Close() *)
    let s := {| pool := pool s; healthyCount := healthyCount s;
                unhealthyCount := unhealthyCount s + 1;
                closed := closed s ++ [browser]; created := created s;
                counters := counters s |} in
    match Inc (browserClosedTotal (counters s)) with
    | Panic msg => (s, Panic msg)
    | Done closedTotal =>
        let s := {| pool := pool s; healthyCount := healthyCount s;
                    unhealthyCount := unhealthyCount s;
                    closed := closed s; created := created s;
                    counters :=
                      {| cacheHits := cacheHits (counters s);
                         cacheMisses := cacheMisses (counters s);
                         browserCreatedTotal := browserCreatedTotal (counters s);
                         browserClosedTotal := closedTotal |} |} in
        match createBrowser (relaunch i) with
        | Panic msg => (s, Panic msg)
        | Done None => (s, Done tt)
        | Done (Some newBrowser) =>
            (* h.browserPool[i] = newBrowser *)
            let s := {| pool := <[i := newBrowser]> (pool s);
                        healthyCount := healthyCount s;
                        unhealthyCount := unhealthyCount s;
                        closed := closed s;
                        created := created s ++ [newBrowser];
                        counters := counters s |} in
            match Inc (browserCreatedTotal (counters s)) with
            | Panic msg => (s, Panic msg)
            | Done createdTotal =>
                ({| pool := pool s; healthyCount := healthyCount s;
                    unhealthyCount := unhealthyCount s;
                    closed := closed s; created := created s;
                    counters :=
                      {| cacheHits := cacheHits (counters s);
                         cacheMisses := cacheMisses (counters s);
                         browserCreatedTotal := createdTotal;
                         browserClosedTotal := browserClosedTotal (counters s) |} |},
                 Done tt)
            end
        end
    end.

Fixpoint check_from (i : nat) (snapshot : list Browser) (s : Sweep)
  : Sweep * result unit :=
  match snapshot with
  | [] => (s, Done tt)
  | browser :: rest =>
      match check_one i browser s with
      | (s', Done _) => check_from (S i) rest s'
      | (s', Panic msg) => (s', Panic msg)
      end
  end.

(** [checkBrowsersHealth]: the handler afterwards and the loop state
    at exit, with the two counts it returns. *)
Definition checkBrowsersHealth (h : HeadlessProxy) (m : Metrics)
  : HeadlessProxy * Sweep * result (Z * Z) :=
  let '(s, r) :=
    check_from 0 (browserPool h)
      {| pool := browserPool h; healthyCount := 0; unhealthyCount := 0;
         closed := []; created := []; counters := m |} in
  (set_browserPool h (pool s), s,
   match r with
   | Done _ => Done (healthyCount s, unhealthyCount s)
   | Panic msg => Panic msg
   end).

(** What slot [i], holding [browser] before the check, holds after it
    when the counters are registered and no launch panics: the browser
    itself if it is healthy or if its replacement could not be connected
    to, the replacement otherwise. *)
Definition slot_after (i : nat) (browser : Browser) : Browser :=
  if isBrowserHealthy browser then browser
  else match relaunch i with
       | Connected newBrowser => newBrowser
       | _ => browser
       end.

(** The status word [getHealthStatus] derives from the two counts. *)
Definition overall_status (healthy unhealthy : Z) : string :=
  if (0 <? unhealthy)%Z && (healthy =? 0)%Z then "unhealthy"
  else if (0 <? unhealthy)%Z then "degraded"
  else "healthy".

(** The cache hit rate [getHealthStatus] computes: both counters are
    read before anything is compared. *)
Definition hit_rate (m : Metrics) : result float :=
  match Value (cacheHits m) with
  | Panic msg => Panic msg
  | Done hits =>
      match Value (cacheMisses m) with
      | Panic msg => Panic msg
      | Done misses =>
          Done (if (0 <? hits + misses)%float
                then (hits / (hits + misses))%float
                else 0%float)
      end
  end.

(** [getHealthStatus]: the pool size is read first, then the browsers
    are checked, then the hit rate is computed and the cache size is
    read. *)
Definition getHealthStatus (h : HeadlessProxy) (m : Metrics)
  : HeadlessProxy * Metrics * result HealthStatus :=
  let poolSize := Z.of_nat (length (browserPool h)) in
  let '(h', s, counts) := checkBrowsersHealth h m in
  match counts with
  | Panic msg => (h', counters s, Panic msg)
  | Done (healthy, unhealthy) =>
      match hit_rate (counters s) with
      | Panic msg => (h', counters s, Panic msg)
      | Done hitRate =>
          let cacheSize := map_len (cache h') in
          (h', counters s,
           Done {| Status := overall_status healthy unhealthy;
                   BrowserPool :=
                     {| Size := poolSize; MaxSize := MaxBrowsers h';
                        HealthyCount := healthy;
                        UnhealthyCount := unhealthy |};
                   CacheStatus_ :=
                     {| Enabled := (0 <? CacheTTL h')%Z; cs_Size := cacheSize;
                        HitRate := hitRate; TTL := CacheTTL h' |};
                   Version := "1.0.0" |})
      end
  end.

(** What [json.NewEncoder(w).Encode(status)] writes, and whether the
    connection takes it. *)
Variable encode : HealthStatus -> string.
Variable encode_ok : bool.

(** [handleHealthCheck] *)
Definition handleHealthCheck (h : HeadlessProxy) (m : Metrics)
    (w : ResponseWriter) : HeadlessProxy * Metrics * result ResponseWriter :=
  match getHealthStatus h m with
  | (h', m', Panic msg) => (h', m', Panic msg)
  | (h', m', Done status) =>
      let w :=
        {| w_header := Header_Set (w_header w) "Content-Type" "application/json";
           w_status := w_status w; w_body := w_body w |} in
      let sent :=
        if negb (String.eqb (Status status) "healthy")
        then WriteHeader StatusServiceUnavailable w else Done w in
      match sent with
      | Panic msg => (h', m', Panic msg)
      | Done w => (h', m', Done (Write encode_ok (encode status) w).1)
      end
  end.
End Probing.

End Health.

(** ** ServeHTTP *)

Module Server.
Import Http Go Rod Handler.

(** The package declares [getCachedResponse] and [setCachedResponse]
    once in the handler file and once in the cache file; ServeHTTP
    calls them by name, so it is embedded over either declaration. *)
Inductive Declaration := in_handler_file | in_cache_file.

(** What ServeHTTP asks of the engine and of the pool, in order. *)
Inductive Event :=
| EvCacheLookup
| EvCacheStore
| EvGetBrowser (got : option Browser)
| EvReturnBrowser (b : Browser)
| EvBrowserClose (b : Browser)
| EvPage (b : Browser)
| EvPageClose
| EvSetUserAgent (ua : string)
| EvEvalOnNewDocument
| EvSetCookies (c : Cookie)
| EvHijackRequests
| EvRouterStop
| EvNavigate (url : string)
| EvWaitNavigation
| EvWaitIdle
| EvOptimizePage
| EvHTML
| EvFetch (url method : string) (headers : gmap string string) (body : string)
| EvPageCookies
| EvCancel.

(** The calls a [defer] statement has registered. *)
Inductive Deferred :=
| D_returnBrowser (b : Browser)
| D_cancel
| D_pageClose
| D_routerStop.

(** How the function body is left. *)
Inductive Exit :=
| Return (err : option string)
| Panicking (msg : string).

(** The state one call runs in: the handler, the response writer, the
    events so far and the stack of deferred calls (latest first). *)
Record Frame := mkFrame {
  hp : HeadlessProxy;
  rw : ResponseWriter;
  trace : list Event;
  defers : list Deferred
}.

(** The three readings of the clock that reach the cache. *)
Record Clock := mkClock {
  t_lookup : Z;
  t_sweep : Z;
  t_store : Z
}.

(** A step either goes on with a value or leaves the body. *)
Definition M (A : Type) : Type := Frame -> Frame * (A + Exit).

#[export] Instance M_ret : MRet M := fun A a s => (s, inl a).
#[export] Instance M_bind : MBind M := fun A B f m s =>
  match m s with
  | (s', inl a) => f a s'
  | (s', inr e) => (s', inr e)
  end.

Definition leave {A} (e : Exit) : M A := fun s => (s, inr e).
Definition return_ {A} (err : option string) : M A := leave (Return err).

Definition emit (ev : Event) : M unit := fun s =>
  ({| hp := hp s; rw := rw s; trace := trace s ++ [ev]; defers := defers s |},
   inl tt).

Definition emit_all (evs : list Event) : M unit := fun s =>
  ({| hp := hp s; rw := rw s; trace := trace s ++ evs; defers := defers s |},
   inl tt).

Definition defer (d : Deferred) : M unit := fun s =>
  ({| hp := hp s; rw := rw s; trace := trace s; defers := d :: defers s |},
   inl tt).

Definition handler : M HeadlessProxy := fun s => (s, inl (hp s)).

Definition on_writer (f : ResponseWriter -> ResponseWriter) : M unit := fun s =>
  ({| hp := hp s; rw := f (rw s); trace := trace s; defers := defers s |},
   inl tt).

(** [w.WriteHeader(code)] *)
Definition write_header (code : Z) : M unit := fun s =>
  match WriteHeader code (rw s) with
  | Done w' =>
      ({| hp := hp s; rw := w'; trace := trace s; defers := defers s |}, inl tt)
  | Panic msg => (s, inr (Panicking msg))
  end.

(** [_, err := w.Write(data)] *)
Definition write (ok : bool) (data : string) : M bool := fun s =>
  let '(w', sent) := Http.Write ok data (rw s) in
  ({| hp := hp s; rw := w'; trace := trace s; defers := defers s |}, inl sent).

(** [fmt.Errorf(msg + ": %v", err)], as a text. *)
Definition Errorf (msg err : string) : string := msg +:+ ": " +:+ err.

(** [if err != nil { return fmt.Errorf(...) }] *)
Definition check (ok : bool) (msg : string) : M unit :=
  if ok then mret tt else return_ (Some msg).

Definition when (b : bool) (m : M unit) : M unit :=
  if b then m else mret tt.

Section Serving.
Variable sha256_Sum md5_Sum : string -> string.
Variable URL_String : URL -> string.
(** [time.Unix(sec, 0).Format(time.RFC1123)] *)
Variable format_RFC1123 : Z -> string.
Variable decl : Declaration.

(** [h.getCachedResponse(r)] and [h.setCachedResponse(...)], by the
    declaration that is meant. *)
Definition lookup (h : HeadlessProxy) (now : Z) (r : Request)
  : HeadlessProxy * option (string * Header * Z) :=
  match decl with
  | in_handler_file => Handler.getCachedResponse sha256_Sum h now r
  | in_cache_file => CacheFile.getCachedResponse md5_Sum URL_String h now r
  end.

Definition store (h : HeadlessProxy) (now_sweep now : Z) (r : Request)
    (content : string) (headers : Header) (statusCode : Z) : result HeadlessProxy :=
  match decl with
  | in_handler_file =>
      Handler.setCachedResponse sha256_Sum h now_sweep now r
        content headers statusCode
  | in_cache_file =>
      CacheFile.setCachedResponse md5_Sum URL_String h now_sweep now r
        content headers statusCode
  end.

Definition cache_lookup (now : Z) (r : Request)
  : M (option (string * Header * Z)) := fun s =>
  let '(h', hit) := lookup (hp s) now r in
  ({| hp := h'; rw := rw s; trace := trace s ++ [EvCacheLookup];
      defers := defers s |}, inl hit).

Definition cache_store (now_sweep now : Z) (r : Request)
    (content : string) (headers : Header) (statusCode : Z) : M unit := fun s =>
  let s' := {| hp := hp s; rw := rw s; trace := trace s ++ [EvCacheStore];
               defers := defers s |} in
  match store (hp s) now_sweep now r content headers statusCode with
  | Done h' =>
      ({| hp := h'; rw := rw s'; trace := trace s'; defers := defers s' |},
       inl tt)
  | Panic msg => (s', inr (Panicking msg))
  end.

(** [browser := h.getBrowser()] *)
Definition get_browser (o : launch_outcome) : M (option Browser) := fun s =>
  let '(h', got) := getBrowser (hp s) o in
  match got with
  | Done b =>
      ({| hp := h'; rw := rw s; trace := trace s ++ [EvGetBrowser b];
          defers := defers s |}, inl b)
  | Panic msg =>
      ({| hp := h'; rw := rw s; trace := trace s; defers := defers s |},
       inr (Panicking msg))
  end.

(** The target URL: upstream, a slash if neither side has one, the
    path, and the query after a question mark. *)
Definition target_url (h : HeadlessProxy) (r : Request) : string :=
  let targetURL := Upstream h in
  let targetURL :=
    if negb (HasSuffix targetURL "/") && negb (HasPrefix (URL_Path (Url r)) "/")
    then targetURL +:+ "/" else targetURL in
  let targetURL := targetURL +:+ URL_Path (Url r) in
  if negb (String.eqb (RawQuery (Url r)) "")
  then targetURL +:+ "?" +:+ RawQuery (Url r) else targetURL.

(** The Set-Cookie line built from one page cookie. *)
Definition cookie_line (c : NetworkCookie) : string :=
  let cookieStr := nc_Name c +:+ "=" +:+ nc_Value c in
  let cookieStr :=
    if negb (String.eqb (nc_Path c) "")
    then cookieStr +:+ "; Path=" +:+ nc_Path c else cookieStr in
  let cookieStr :=
    if negb (String.eqb (nc_Domain c) "")
    then cookieStr +:+ "; Domain=" +:+ nc_Domain c else cookieStr in
  let cookieStr :=
    if negb (nc_Expires c =? 0)%Z
    then cookieStr +:+ "; Expires=" +:+ format_RFC1123 (nc_Expires c)
    else cookieStr in
  let cookieStr :=
    if nc_Secure c then cookieStr +:+ "; Secure" else cookieStr in
  if nc_HTTPOnly c then cookieStr +:+ "; HttpOnly" else cookieStr.

(** The headers passed to the fetch script. *)
Definition fetch_headers (h : HeadlessProxy) (r : Request) : gmap string string :=
  fold_left
    (fun headers header =>
       let value := Header_Get (Header_ r) header in
       if String.eqb value "" then headers else <[header := value]> headers)
    (ForwardHeaders h)
    {[ "Content-Type" := Header_Get (Header_ r) "Content-Type" ]}.

(** [case http.MethodGet] *)
Definition serve_get (h : HeadlessProxy) (targetURL : string) (a : Answers)
  : M (Z * Header * string) :=
  emit EvHijackRequests;;
  defer D_routerStop;;
  emit (EvNavigate targetURL);;
  check (navigate_ok a)
    (Errorf ("failed to navigate to " +:+ targetURL) (error_text a));;
  emit EvWaitNavigation;;
  check (wait_navigation_ok a)
    (Errorf "failed to wait for navigation" (error_text a));;
  emit EvWaitIdle;;
  when (OptimizeResources h) (emit EvOptimizePage);;
  emit EvHTML;;
  match html a with
  | None => return_ (Some (Errorf "failed to get page HTML" (error_text a)))
  | Some content =>
      mret (StatusOK,
            Header_Set ∅ "Content-Type" "text/html; charset=utf-8",
            content)
  end.

(** [case http.MethodPost, http.MethodPut, http.MethodDelete,
    http.MethodPatch] *)
Definition serve_fetch (h : HeadlessProxy) (r : Request)
    (targetURL : string) (a : Answers) : M (Z * Header * string) :=
  match Body r with
  | None =>
      return_ (Some (Errorf "failed to read request body" (error_text a)))
  | Some body =>
      emit (EvFetch targetURL (Method r) (fetch_headers h r) body);;
      match fetch a with
      | None =>
          return_ (Some (Errorf "failed to execute fetch" (error_text a)))
      | Some result =>
          match fr_error result with
          | Some _ =>
              write_header StatusBadGateway;;
              sent ← write (write_ok a) "Error communicating with upstream server";
              return_ (if sent : bool then None else Some "write")
          | None =>
              let responseHeaders :=
                match fr_headers result with
                | Some headersMap =>
                    fold_left (fun acc kv => Header_Set acc kv.1 kv.2)
                              headersMap ∅
                | None => ∅
                end in
              let responseStatusCode := default StatusOK (fr_status result) in
              let responseContent := default "" (fr_body result) in
              mret (responseStatusCode, responseHeaders, responseContent)
          end
      end
  end.

Definition is_fetch_method (m : string) : bool :=
  String.eqb m MethodPost || String.eqb m MethodPut ||
  String.eqb m MethodDelete || String.eqb m MethodPatch.

(** [default:] of the method switch *)
Definition serve_other (a : Answers) : M (Z * Header * string) :=
  write_header StatusMethodNotAllowed;;
  sent ← write (write_ok a) "Method not allowed";
  return_ (if sent : bool then None else Some "write").

(** [switch r.Method] *)
Definition serve_method (h : HeadlessProxy) (r : Request)
    (targetURL : string) (a : Answers) : M (Z * Header * string) :=
  if String.eqb (Method r) MethodGet then serve_get h targetURL a
  else if is_fetch_method (Method r) then serve_fetch h r targetURL a
  else serve_other a.

(** The cookies of the page, added to the response headers. *)
Definition sync_cookies (h : HeadlessProxy) (a : Answers)
    (responseHeaders : Header) : M Header :=
  if ForwardCookies h then
    emit EvPageCookies;;
    match page_cookies a with
    | Some pageCookies =>
        mret (fold_left
                (fun acc c => Header_Add acc "Set-Cookie" (cookie_line c))
                pageCookies responseHeaders)
    | None => mret responseHeaders
    end
  else mret responseHeaders.

(** The body from the page creation on: what runs while the browser is
    checked out and its release is pending. *)
Definition session (browser : Browser) (r : Request) (clk : Clock)
    (a : Answers) : M unit :=
  h ← handler;
  let targetURL := target_url h r in
  emit (EvPage browser);;
  check (page_ok a) (Errorf "failed to create page" (error_text a));;
  defer D_pageClose;;
  emit (EvSetUserAgent (UserAgent h));;
  check (set_user_agent_ok a)
    (Errorf "failed to set user agent" (error_text a));;
  when (negb (EnableJS h))
    (emit EvEvalOnNewDocument;;
     check (eval_on_new_document_ok a)
       (Errorf "failed to set JavaScript settings" (error_text a)));;
  when (ForwardCookies h) (emit_all (List.map EvSetCookies (Cookies r)));;
  '(responseStatusCode, responseHeaders, responseContent) ←
    serve_method h r targetURL a;
  responseHeaders ← sync_cookies h a responseHeaders;
  cache_store (t_sweep clk) (t_store clk) r
    responseContent responseHeaders responseStatusCode;;
  on_writer (copy_headers responseHeaders);;
  write_header responseStatusCode;;
  sent ← write (write_ok a) responseContent;
  if sent : bool then return_ None
  else return_ (Some (Errorf "failed to write response" (error_text a))).

(** The function body, up to its [return]. *)
Definition body (r : Request) (clk : Clock) (a : Answers) : M unit :=
  hit ← cache_lookup (t_lookup clk) r;
  match hit with
  | Some (content, headers, statusCode) =>
      on_writer (copy_headers headers);;
      write_header statusCode;;
      sent ← write (write_ok a) content;
      return_ (if sent : bool then None else Some "write")
  | None =>
      got ← get_browser (launch a);
      match got with
      | None => return_ (Some "failed to get browser from pool")
      | Some browser =>
          defer (D_returnBrowser browser);;
          defer D_cancel;;
          session browser r clk a
      end
  end.

(** Running one deferred call. *)
Definition run_deferred (d : Deferred) (s : Frame) : Frame :=
  match d with
  | D_returnBrowser b =>
      let '(h', to_close) := returnBrowser (hp s) b in
      {| hp := h'; rw := rw s;
         trace := trace s ++ [EvReturnBrowser b] ++
                  match to_close with
                  | Some c => [EvBrowserClose c]
                  | None => []
                  end;
         defers := defers s |}
  | D_cancel =>
      {| hp := hp s; rw := rw s; trace := trace s ++ [EvCancel];
         defers := defers s |}
  | D_pageClose =>
      {| hp := hp s; rw := rw s; trace := trace s ++ [EvPageClose];
         defers := defers s |}
  | D_routerStop =>
      {| hp := hp s; rw := rw s; trace := trace s ++ [EvRouterStop];
         defers := defers s |}
  end.

(** Deferred calls run latest first, on a return and on a panic alike. *)
Definition run_defers (s : Frame) : Frame :=
  let s' := fold_left (fun acc d => run_deferred d acc) (defers s) s in
  {| hp := hp s'; rw := rw s'; trace := trace s'; defers := [] |}.

(** [ServeHTTP]: the frame at exit and how the call ended. *)
Definition ServeHTTP (h : HeadlessProxy) (w : ResponseWriter) (r : Request)
    (clk : Clock) (a : Answers) : Frame * Exit :=
  match body r clk a {| hp := h; rw := w; trace := []; defers := [] |} with
  | (s, inr e) => (run_defers s, e)
  | (s, inl _) => (run_defers s, Return None)
  end.
End Serving.

(** The browsers getBrowser handed out, those passed to returnBrowser and
    those sent to be closed, as a trace shows them. *)
Definition acquired (tr : list Event) : list Browser :=
  omap (fun ev => match ev with EvGetBrowser got => got | _ => None end) tr.

Definition released (tr : list Event) : list Browser :=
  omap (fun ev => match ev with EvReturnBrowser b => Some b | _ => None end) tr.

Definition closed (tr : list Event) : list Browser :=
  omap (fun ev => match ev with EvBrowserClose b => Some b | _ => None end) tr.

(** Events that do not concern the pool. *)
Definition off_pool (ev : Event) : Prop :=
  match ev with
  | EvGetBrowser _ | EvReturnBrowser _ | EvBrowserClose _ => False
  | _ => True
  end.

(** Deferred calls other than the release of the browser. *)
Definition minor (d : Deferred) : Prop :=
  match d with
  | D_returnBrowser _ => False
  | _ => True
  end.

(** [during P s s']: from frame [s] to frame [s'] the trace grew by
    events that satisfy [P], the deferred stack grew by minor calls, and
    the pool, MaxBrowsers and EnableJS stayed as they were. *)
Definition during (P : Event -> Prop) (s s' : Frame) : Prop :=
  (exists evs, trace s' = trace s ++ evs /\ Forall P evs) /\
  (exists ds, defers s' = ds ++ defers s /\ Forall minor ds) /\
  browserPool (hp s') = browserPool (hp s) /\
  MaxBrowsers (hp s') = MaxBrowsers (hp s) /\
  EnableJS (hp s') = EnableJS (hp s).

(** A step is steady when, started with EnableJS at [js], it leaves its
    frame [during P] of the frame it started in. *)
Definition steady {A} (js : bool) (P : Event -> Prop) (m : M A) : Prop :=
  forall s : Frame, EnableJS (hp s) = js -> during P s (m s).1.

(** Events other than the script that overrides the navigator object,
    which ServeHTTP installs when EnableJS is off. *)
Definition not_js_override (ev : Event) : Prop :=
  match ev with
  | EvEvalOnNewDocument => False
  | _ => True
  end.

(** Events off the pool that are not that script either, and events off
    the pool that are not that script when EnableJS is on. *)
Definition calm (ev : Event) : Prop := off_pool ev /\ not_js_override ev.

Definition settled (js : bool) (ev : Event) : Prop :=
  off_pool ev /\ (js = true -> not_js_override ev).

(** A step is polite when, unless it ends the call without an error or
    panics, it leaves the response writer and the cache as they were. *)
Definition polite {A} (m : M A) : Prop :=
  forall s : Frame,
    match (m s).2 with
    | inl _ | inr (Return (Some _)) =>
        rw (m s).1 = rw s /\ cache (hp (m s).1) = cache (hp s)
    | inr _ => True
    end.

(** Events other than setting a cookie on the page and reading the
    page's cookies. *)
Definition cookie_free (ev : Event) : Prop :=
  match ev with
  | EvSetCookies _ | EvPageCookies => False
  | _ => True
  end.

(** A step is closing when it ends the call, and not with an error. *)
Definition closing {A} (m : M A) : Prop :=
  forall s : Frame,
    (m s).2 = inr (Return None) \/ exists msg, (m s).2 = inr (Panicking msg).

End Server.

(** ** utils.go *)

Module Utils.
Import Go.

(** A [[]byte] value: the backing array from the slice's first element
    on, and the length.  The capacity is the length of [array]. *)
Record ByteSlice := mkSlice {
  array : string;
  len : nat
}.

Definition cap (s : ByteSlice) : nat := String.length (array s).

(** A slice value is well formed when its length is within its capacity. *)
Definition well_formed (s : ByteSlice) : Prop := (len s <= cap s)%nat.

(** The bytes of the slice, [s[0:len(s)]]. *)
Definition bytes (s : ByteSlice) : string := String.substring 0 (len s) (array s).

(** [s[0]], for a slice known to be non-empty. *)
Definition first_byte (s : ByteSlice) : option ascii :=
  if (0 <? len s)%nat then String.get 0 (array s) else None.

(** The slice expression [s[:high]]: in range up to the capacity, a
    run-time panic beyond. *)
Definition slice_to (s : ByteSlice) (high : nat) : result ByteSlice :=
  if (high <=? cap s)%nat then Done {| array := array s; len := high |}
  else Panic "slice bounds out of range".

Definition first_is (s : ByteSlice) (c : ascii) : bool :=
  match first_byte s with
  | Some b => Ascii.eqb b c
  | None => false
  end.

Definition text_plain : string := "text/plain; charset=utf-8".

Section Detect.
(** http.DetectContentType, the sniffing algorithm of net/http. *)
Variable DetectContentType : string -> string.

(** [detectContentType]: every [content[:100]] in one branch is the
    same expression on the same slice, so the first one decides
    whether the branch panics. *)
Definition detectContentType (content : ByteSlice) : result string :=
  let contentType := DetectContentType (bytes content) in
  if String.eqb contentType text_plain then
    if (0 <? len content)%nat && (first_is content "{" || first_is content "[")
    then Done "application/json; charset=utf-8"
    else if (0 <? len content)%nat && first_is content "<" then
      match slice_to content 100 with
      | Panic msg => Panic msg
      | Done head =>
          if Contains (bytes head) "<html" then Done "text/html; charset=utf-8"
          else Done "application/xml; charset=utf-8"
      end
    else
      match slice_to content 100 with
      | Panic msg => Panic msg
      | Done head =>
          if Contains (bytes head) "{" &&
             (Contains (bytes head) "body" || Contains (bytes head) "font" ||
              Contains (bytes head) "margin")
          then Done "text/css; charset=utf-8"
          else if Contains (bytes head) "function" ||
                  Contains (bytes head) "var " ||
                  Contains (bytes head) "const " ||
                  Contains (bytes head) "let "
          then Done "application/javascript; charset=utf-8"
          else Done contentType
      end
  else Done contentType.
End Detect.

(** [isHealthyStatusCode] *)
Definition isHealthyStatusCode (statusCode : Z) : bool :=
  (200 <=? statusCode)%Z && (statusCode <? 400)%Z.

(** [truncateString]: [maxLen-3] is an int subtraction, and the slice
    expression checks its bound. *)
Definition truncateString (s : string) (maxLen : Z) : result string :=
  if (Z.of_nat (String.length s) <=? maxLen)%Z then Done s
  else
    match Text.string_to s (wrap64 (maxLen - 3)) with
    | Done head => Done (head +:+ "...")
    | Panic msg => Panic msg
    end.

(** [formatDuration]; [/] and [%] truncate towards zero. *)
Definition formatDuration (seconds : Z) : string :=
  if (seconds <? 60)%Z then Text.itoa seconds +:+ "s"
  else if (seconds <? 3600)%Z then
    Text.itoa (Z.quot seconds 60) +:+ "m " +:+
    Text.itoa (Z.rem seconds 60) +:+ "s"
  else
    Text.itoa (Z.quot seconds 3600) +:+ "h " +:+
    Text.itoa (Z.quot (Z.rem seconds 3600) 60) +:+ "m " +:+
    Text.itoa (Z.rem seconds 60) +:+ "s".

Section Unicode.
Variable unicode_EqualFold : string -> string -> bool.

(** The test [sanitizeHeaders] makes on a key. *)
Definition sensitive (k : string) : bool :=
  Text.EqualFold unicode_EqualFold k "Authorization" ||
  Text.EqualFold unicode_EqualFold k "Cookie" ||
  Text.EqualFold unicode_EqualFold k "Set-Cookie".

(** [sanitizeHeaders]: the keys that pass the test, each with its
    values, in a new map. *)
Definition sanitizeHeaders (headers : Http.Header) : Http.Header :=
  filter (fun kv : string * list string => sensitive kv.1 = false) headers.
End Unicode.

End Utils.


(** ** Concrete handlers and requests used in the examples *)

Module Samples.
Import Http Go Rod Handler.

Definition plain_url (path query : string) : URL :=
  {| Scheme := ""; Host := ""; URL_Path := path; RawQuery := query |}.

(** A provisioned handler with caching on for a minute, room for two
    browsers and browser 1 waiting in the pool. *)
Definition caching_proxy : HeadlessProxy :=
  {| Upstream := "http://upstream.test"; Timeout := 30; UserAgent := "ua";
     EnableJS := true; ForwardCookies := false; ForwardHeaders := [];
     CacheTTL := 60; MaxBrowsers := 2; OptimizeResources := false;
     CompressImages := false; MinifyContent := false;
     browserPool := [1%nat]; cache := Some ∅ |}.

(** The same handler with an empty pool. *)
Definition cold_proxy : HeadlessProxy := set_browserPool caching_proxy [].

(** The same handler with a full pool. *)
Definition full_proxy : HeadlessProxy := set_browserPool caching_proxy [1%nat; 2%nat].

(** Releases and acquires on that handler: the pool fills up, is drained
    past empty, and fills up again. *)
Definition busy_hour : list PoolOp :=
  [Release 2%nat; Release 3%nat; Acquire Connect_fails; Acquire Connect_fails;
   Acquire Connect_fails; Acquire (Connected 4%nat); Release 4%nat;
   Release 5%nat; Release 6%nat].

Definition post_request : Request :=
  {| Method := "POST"; Url := plain_url "/orders" ""; Header_ := ∅;
     Cookies := []; Body := Some "{}" |}.

Definition get_request : Request :=
  {| Method := "GET"; Url := plain_url "/page" ""; Header_ := ∅;
     Cookies := []; Body := Some "" |}.

Definition trace_request : Request :=
  {| Method := "TRACE"; Url := plain_url "/page" ""; Header_ := ∅;
     Cookies := []; Body := Some "" |}.

(** A provisioned handler with room for five browsers whose warm-up
    browser could not be connected to, and three requests in flight at
    once: each launches a browser, and then each returns its own. *)
Definition roomy_proxy : HeadlessProxy :=
  {| Upstream := "http://upstream.test"; Timeout := 30; UserAgent := "ua";
     EnableJS := true; ForwardCookies := false; ForwardHeaders := [];
     CacheTTL := 60; MaxBrowsers := 5; OptimizeResources := false;
     CompressImages := false; MinifyContent := false;
     browserPool := []; cache := Some ∅ |}.

Definition three_in_flight : list PoolOp :=
  [Acquire (Connected 1%nat); Acquire (Connected 2%nat);
   Acquire (Connected 3%nat);
   Release 1%nat; Release 2%nat; Release 3%nat].

(** The pool those requests leave, browsers 1, 2 and 3, of which the
    second and the third fail the probe; relaunching works for the
    second slot only. *)
Definition three_browsers : HeadlessProxy := pool_run roomy_proxy three_in_flight.

(** The counters as the zero value of the struct has them, and as
    initMetrics registers them. *)
Definition no_counters : Health.Metrics :=
  {| Health.cacheHits := None; Health.cacheMisses := None;
     Health.browserCreatedTotal := None; Health.browserClosedTotal := None |}.

Definition fresh_counters : Health.Metrics :=
  {| Health.cacheHits := Some 0%float; Health.cacheMisses := Some 0%float;
     Health.browserCreatedTotal := Some 0%float;
     Health.browserClosedTotal := Some 0%float |}.

Definition probe_23_down (b : Browser) : bool := Nat.eqb b 1.

Definition relaunch_slot_1_only (i : nat) : launch_outcome :=
  if Nat.eqb i 1 then Connected 8%nat else Connect_fails.

(** The three bytes [abc] in a slice with no spare capacity, and in a
    slice cut from a 512-byte buffer, as io.ReadAll returns them. *)
Definition zeros (n : nat) : string :=
  string_of_list_ascii (repeat zero n).

Definition abc_exact : Utils.ByteSlice :=
  {| Utils.array := "abc"; Utils.len := 3 |}.

Definition abc_in_buffer : Utils.ByteSlice :=
  {| Utils.array := "abc" +:+ zeros 509; Utils.len := 3 |}.

(** A sniffer that calls everything plain text. *)
Definition sniff_plain (content : string) : string := Utils.text_plain.

(** Response headers that forbid storing. *)
Definition no_store_headers : Header := {[ "Cache-Control" := ["no-store"] ]}.

(** An engine on which every call succeeds; a mutating request is
    answered 201 with the body [created]. *)
Definition all_well : Answers :=
  {| launch := Connected 7%nat; page_ok := true; set_user_agent_ok := true;
     eval_on_new_document_ok := true; navigate_ok := true;
     wait_navigation_ok := true; html := Some "<html></html>";
     fetch := Some {| fr_error := None; fr_headers := None;
                      fr_status := Some 201%Z; fr_body := Some "created" |};
     page_cookies := Some []; write_ok := true;
     error_text := EmptyString |}.

(** An engine whose browser cannot be connected to. *)
Definition no_browser : Answers :=
  {| launch := Connect_fails; page_ok := true; set_user_agent_ok := true;
     eval_on_new_document_ok := true; navigate_ok := true;
     wait_navigation_ok := true; html := Some "<html></html>";
     fetch := None; page_cookies := Some []; write_ok := true;
     error_text := EmptyString |}.

(** Stand-ins for the digests, for url.URL's String and for the date
    format, where an example has to run: each returns its input's text. *)
Definition plain_digest (s : string) : string := s.
Definition url_text (u : URL) : string :=
  Scheme u +:+ Host u +:+ URL_Path u +:+ RawQuery u.
Definition no_date (t : Z) : string := "".

Definition noon : Server.Clock :=
  {| Server.t_lookup := 0; Server.t_sweep := 0; Server.t_store := 0 |}.

Definition a_moment_later : Server.Clock :=
  {| Server.t_lookup := 1; Server.t_sweep := 1; Server.t_store := 1 |}.

(** The entry a response stored at [noon] by [caching_proxy] becomes. *)
Definition entry_at_noon (content : string) (headers : Header) (status : Z)
  : cacheEntry :=
  {| Content := content; Headers := headers; StatusCode := status;
     Expiration := 60000000000 |}.

(** A handler that forwards two headers, and two requests that spread the
    same bytes over them differently. *)
Definition forwarding_proxy : HeadlessProxy :=
  {| Upstream := "http://upstream.test"; Timeout := 30; UserAgent := "ua";
     EnableJS := true; ForwardCookies := true; ForwardHeaders := ["X-A"; "X-B"];
     CacheTTL := 60; MaxBrowsers := 2; OptimizeResources := false;
     CompressImages := false; MinifyContent := false;
     browserPool := []; cache := Some ∅ |}.

Definition request_with (headers : Header) (cookies : list Cookie) : Request :=
  {| Method := "GET"; Url := plain_url "/page" ""; Header_ := headers;
     Cookies := cookies; Body := Some "" |}.

Definition glued_header : Request :=
  request_with {[ "X-A" := ["1X-B:2"] ]} [].

Definition split_headers : Request :=
  request_with {[ "X-A" := ["1"]; "X-B" := ["2"] ]} [].

(** Two requests that agree on what the keys are made of and differ in a
    header outside both lists and in a cookie's domain. *)
Definition first_visit : Request :=
  request_with {[ "X-A" := ["1"]; "Accept" := ["text/html"] ]}
    [{| Name := "sid"; Value := "42"; Domain := "a.test"; Path := "/" |}].

Definition second_visit : Request :=
  request_with {[ "X-A" := ["1"]; "Accept" := ["application/json"] ]}
    [{| Name := "sid"; Value := "42"; Domain := "b.test"; Path := "/" |}].

Definition cookie_a : Cookie := {| Name := "a"; Value := "1"; Domain := ""; Path := "/" |}.
Definition cookie_b : Cookie := {| Name := "b"; Value := "2"; Domain := ""; Path := "/" |}.

(** Two requests that differ only in the User-Agent and Accept-Language
    values, for the cache file's fixed header list. *)
Definition glued_language : Request :=
  request_with {[ "Accept-Language" := ["en|User-Agent:x"] ]} [].

Definition language_and_agent : Request :=
  request_with {[ "Accept-Language" := ["en"]; "User-Agent" := ["x"] ]} [].

(** An engine whose navigation fails, and one whose fetch script reports
    an error. *)
Definition lost_upstream : Answers :=
  {| launch := Connected 7%nat; page_ok := true; set_user_agent_ok := true;
     eval_on_new_document_ok := true; navigate_ok := false;
     wait_navigation_ok := true; html := None; fetch := None;
     page_cookies := Some []; write_ok := true;
     error_text := "net::ERR_CONNECTION_REFUSED" |}.

Definition failed_fetch : Answers :=
  {| launch := Connected 7%nat; page_ok := true; set_user_agent_ok := true;
     eval_on_new_document_ok := true; navigate_ok := true;
     wait_navigation_ok := true; html := None;
     fetch := Some {| fr_error := Some "TypeError: Failed to fetch";
                      fr_headers := None; fr_status := Some 500%Z;
                      fr_body := None |};
     page_cookies := Some []; write_ok := true;
     error_text := EmptyString |}.

(** An engine that cannot open a page. *)
Definition no_page : Answers :=
  {| launch := Connected 7%nat; page_ok := false; set_user_agent_ok := true;
     eval_on_new_document_ok := true; navigate_ok := true;
     wait_navigation_ok := true; html := None; fetch := None;
     page_cookies := Some []; write_ok := true;
     error_text := "context deadline exceeded" |}.

(** A cache that holds one entry, under a key no request hashes to. *)
Definition kept_entry : cacheEntry := entry_at_noon "old" ∅ 200.

Definition stocked_proxy : HeadlessProxy :=
  set_cache caching_proxy (Some {[ "k" := kept_entry ]}).

(** Headers with credentials among them, and a stand-in for the rune
    comparison of EqualFold, which no ASCII key reaches. *)
Definition with_credentials : Header :=
  {[ "AUTHORIZATION" := ["Bearer t"]; "Accept" := ["text/html"] ]}.

Definition no_rune_folds (s t : string) : bool := false.

(** A writer on which an earlier handler has set a Content-Type. *)
Definition typed_writer : ResponseWriter :=
  {| w_header := {[ "Content-Type" := ["text/plain"] ]}; w_status := None;
     w_body := "" |}.

(** A stand-in for the JSON encoder: the status word alone. *)
Definition status_word (status : Health.HealthStatus) : string :=
  Health.Status status.

End Samples.


(** * Properties *)

(** ** The browser pool *)

Section PoolProperties.
Import Http Go Rod Handler.

Lemma set_browserPool_same (h : HeadlessProxy) :
  set_browserPool h (browserPool h) = h.
Proof. destruct h; reflexivity. Qed.

Lemma set_browserPool_twice (h : HeadlessProxy) (p q : list Browser) :
  set_browserPool (set_browserPool h p) q = set_browserPool h q.
Proof. reflexivity. Qed.

Lemma last_snoc_take {A} (p : list A) (x : A) :
  last (p ++ [x]) = Some x /\ take (length (p ++ [x]) - 1) (p ++ [x]) = p.
Proof.
  split.
  - apply last_snoc.
  - rewrite length_app; simpl.
    replace (length p + 1 - 1)%nat with (length p) by lia.
    apply take_app_length.
Qed.

Lemma getBrowser_snoc (h : HeadlessProxy) (p : list Browser) (x : Browser)
    (o : launch_outcome) :
  browserPool h = p ++ [x] ->
  getBrowser h o = (set_browserPool h p, Done (Some x)).
Proof.
  intros Hp. unfold getBrowser. rewrite Hp.
  destruct (last_snoc_take p x) as [-> ->].
  rewrite length_app; simpl.
  destruct (0 <? Z.of_nat (length p + 1))%Z eqn:E; [reflexivity|].
  apply Z.ltb_ge in E. lia.
Qed.

Lemma getBrowser_empty (h : HeadlessProxy) (o : launch_outcome) :
  browserPool h = [] -> getBrowser h o = (h, createBrowser o).
Proof. intros Hp. unfold getBrowser. rewrite Hp. reflexivity. Qed.

Lemma getBrowser_pool (h : HeadlessProxy) (o : launch_outcome) :
  browserPool (getBrowser h o).1 =
  take (length (browserPool h) - 1) (browserPool h).
Proof.
  destruct (browserPool h) as [|b l] eqn:Hp using rev_ind.
  - rewrite getBrowser_empty by assumption. simpl. now rewrite Hp.
  - rewrite (getBrowser_snoc h l b o Hp). simpl.
    now destruct (last_snoc_take l b) as [_ ->].
Qed.

Lemma getBrowser_config (h : HeadlessProxy) (o : launch_outcome) :
  MaxBrowsers (getBrowser h o).1 = MaxBrowsers h.
Proof.
  unfold getBrowser.
  destruct (0 <? _)%Z; [destruct (last _)|]; reflexivity.
Qed.

Lemma returnBrowser_full (h : HeadlessProxy) (b : Browser) :
  (MaxBrowsers h <= pool_size h)%Z -> returnBrowser h b = (h, Some b).
Proof.
  intros H. unfold returnBrowser, pool_size in *.
  destruct (MaxBrowsers h <=? _)%Z eqn:E; [reflexivity|].
  apply Z.leb_gt in E. lia.
Qed.

Lemma returnBrowser_room (h : HeadlessProxy) (b : Browser) :
  (pool_size h < MaxBrowsers h)%Z ->
  returnBrowser h b = (set_browserPool h (browserPool h ++ [b]), None).
Proof.
  intros H. unfold returnBrowser, pool_size in *.
  destruct (MaxBrowsers h <=? _)%Z eqn:E; [|reflexivity].
  apply Z.leb_le in E. lia.
Qed.

Lemma returnBrowser_config (h : HeadlessProxy) (b : Browser) :
  MaxBrowsers (returnBrowser h b).1 = MaxBrowsers h.
Proof. unfold returnBrowser. destruct (_ <=? _)%Z; reflexivity. Qed.

Lemma pool_step_bound (h : HeadlessProxy) (op : PoolOp) :
  (pool_size h <= MaxBrowsers h)%Z ->
  (pool_size (pool_step h op) <= MaxBrowsers (pool_step h op))%Z /\
  MaxBrowsers (pool_step h op) = MaxBrowsers h.
Proof.
  intros Hb. destruct op as [o|b]; simpl.
  - rewrite getBrowser_config. split; [|reflexivity].
    unfold pool_size in *. rewrite getBrowser_pool, length_take. lia.
  - rewrite returnBrowser_config. split; [|reflexivity].
    destruct (Z_lt_le_dec (pool_size h) (MaxBrowsers h)) as [Hlt|Hge].
    + rewrite returnBrowser_room by assumption. unfold pool_size in *; simpl.
      rewrite length_app; simpl. lia.
    + rewrite returnBrowser_full by assumption. assumption.
Qed.

Lemma pool_run_bound (ops : list PoolOp) (h : HeadlessProxy) :
  (pool_size h <= MaxBrowsers h)%Z ->
  (pool_size (pool_run h ops) <= MaxBrowsers (pool_run h ops))%Z /\
  MaxBrowsers (pool_run h ops) = MaxBrowsers h.
Proof.
  revert h. induction ops as [|op ops IH]; intros h Hb; simpl.
  - split; [assumption|reflexivity].
  - destruct (pool_step_bound h op Hb) as [Hb' Hmax].
    destruct (IH _ Hb') as [Hb'' Hmax'].
    split; [assumption|congruence].
Qed.

(** C4: starting from a pool no larger than MaxBrowsers, after any sequence
    of getBrowser and returnBrowser calls the pool size is between 0 and
    MaxBrowsers, and a returnBrowser made while the pool holds MaxBrowsers
    browsers hands the browser to the closing goroutine and leaves the
    pool as it was. *)
Theorem pool_size_bounded (h : HeadlessProxy) (ops : list PoolOp) :
  (pool_size h <= MaxBrowsers h)%Z ->
  (0 <= pool_size (pool_run h ops) <= MaxBrowsers h)%Z /\
  (forall b : Browser,
     pool_size (pool_run h ops) = MaxBrowsers h ->
     returnBrowser (pool_run h ops) b = (pool_run h ops, Some b)).
Proof.
  intros Hb. destruct (pool_run_bound ops h Hb) as [Hle Hmax].
  split.
  - split; [unfold pool_size; lia | lia].
  - intros b Hfull. apply returnBrowser_full. lia.
Qed.

(** C4, on a concrete run: the handler with one pooled browser and room
    for two, through [busy_hour]. *)
Lemma pool_size_bounded_witness :
  (0 <= pool_size (pool_run Samples.caching_proxy Samples.busy_hour)
     <= MaxBrowsers Samples.caching_proxy)%Z /\
  (forall b : Browser,
     pool_size (pool_run Samples.caching_proxy Samples.busy_hour)
     = MaxBrowsers Samples.caching_proxy ->
     returnBrowser (pool_run Samples.caching_proxy Samples.busy_hour) b
     = (pool_run Samples.caching_proxy Samples.busy_hour, Some b)).
Proof.
  apply (pool_size_bounded Samples.caching_proxy). vm_compute. discriminate.
Defined.

(** C8: getBrowser takes the browser returnBrowser appended last.  With a
    non-empty pool it removes and returns the last browser and leaves the
    others in place; returning a browser below capacity and acquiring
    right after gives that browser back and the pool as it was before;
    with an empty pool it returns what createBrowser makes. *)
Theorem getBrowser_lifo (h : HeadlessProxy) (b : Browser) (o : launch_outcome) :
  (forall (p : list Browser) (x : Browser),
     browserPool h = p ++ [x] ->
     getBrowser h o = (set_browserPool h p, Done (Some x))) /\
  ((pool_size h < MaxBrowsers h)%Z ->
     returnBrowser h b = (set_browserPool h (browserPool h ++ [b]), None) /\
     getBrowser (returnBrowser h b).1 o = (h, Done (Some b))) /\
  (browserPool h = [] ->
     getBrowser h o = (h, createBrowser o) /\
     forall fresh : Browser,
       o = Connected fresh -> getBrowser h o = (h, Done (Some fresh))).
Proof.
  split; [|split].
  - intros p x Hp. now apply getBrowser_snoc.
  - intros Hroom. rewrite returnBrowser_room by assumption. split; [reflexivity|].
    simpl. rewrite (getBrowser_snoc _ (browserPool h) b o) by reflexivity.
    now rewrite set_browserPool_twice, set_browserPool_same.
  - intros Hempty. split.
    + now apply getBrowser_empty.
    + intros fresh ->. now rewrite getBrowser_empty.
Qed.

End PoolProperties.

(** ** The cache helpers *)

Section CacheProperties.
Import Http Go Rod Handler.

Variable sha256_Sum md5_Sum : string -> string.
Variable URL_String : URL -> string.

(** *** The handler file's helpers look at CacheTTL only *)

Lemma handler_store_enabled (h : HeadlessProxy) (g : gmap string cacheEntry)
    (now_sweep now : Z) (r : Request) (content : string) (headers : Header)
    (statusCode : Z) :
  (0 < CacheTTL h)%Z ->
  cache h = Some g ->
  (Z.of_nat (size g) <= 1000)%Z ->
  Handler.setCachedResponse sha256_Sum h now_sweep now r content headers statusCode =
  Done (set_cache h
          (Some (<[Handler.getCacheKey sha256_Sum h r :=
                     {| Content := content; Headers := headers;
                        StatusCode := statusCode;
                        Expiration := Time_Add now (seconds (CacheTTL h)) |}]> g))).
Proof.
  intros Httl Hc Hsize. unfold Handler.setCachedResponse.
  destruct (CacheTTL h <=? 0)%Z eqn:E; [apply Z.leb_le in E; lia|].
  rewrite Hc. unfold map_len.
  destruct (1000 <? Z.of_nat (size g))%Z eqn:E2; [apply Z.ltb_lt in E2; lia|].
  reflexivity.
Qed.

Lemma handler_lookup_hit (h : HeadlessProxy) (now : Z) (r : Request)
    (entry : cacheEntry) :
  (0 < CacheTTL h)%Z ->
  map_get (cache h) (Handler.getCacheKey sha256_Sum h r) = Some entry ->
  (now < Expiration entry)%Z ->
  Handler.getCachedResponse sha256_Sum h now r =
  (h, Some (Content entry, Headers entry, StatusCode entry)).
Proof.
  intros Httl Hget Hnow. unfold Handler.getCachedResponse.
  destruct (CacheTTL h <=? 0)%Z eqn:E; [apply Z.leb_le in E; lia|].
  rewrite Hget. unfold Time_Before.
  destruct (now <? Expiration entry)%Z eqn:E2; [reflexivity|].
  apply Z.ltb_ge in E2. lia.
Qed.

Lemma handler_lookup_disabled (h : HeadlessProxy) (now : Z) (r : Request) :
  (CacheTTL h <= 0)%Z ->
  Handler.getCachedResponse sha256_Sum h now r = (h, None).
Proof.
  intros H. unfold Handler.getCachedResponse.
  destruct (CacheTTL h <=? 0)%Z eqn:E; [reflexivity|]. apply Z.leb_gt in E. lia.
Qed.

Lemma handler_store_disabled (h : HeadlessProxy) (now_sweep now : Z)
    (r : Request) (content : string) (headers : Header) (statusCode : Z) :
  (CacheTTL h <= 0)%Z ->
  Handler.setCachedResponse sha256_Sum h now_sweep now r content headers statusCode
  = Done h.
Proof.
  intros H. unfold Handler.setCachedResponse.
  destruct (CacheTTL h <=? 0)%Z eqn:E; [reflexivity|]. apply Z.leb_gt in E. lia.
Qed.

(** *** The cache file's helpers guard on method, status and Cache-Control *)

Lemma mutating_not_get (m : string) : mutating m -> String.eqb m MethodGet = false.
Proof. intros [-> | [-> | [-> | ->]]]; reflexivity. Qed.

Lemma cache_file_key_of_other_method (h : HeadlessProxy) (r : Request) :
  String.eqb (Method r) MethodGet = false ->
  CacheFile.getCacheKey md5_Sum URL_String h r = "".
Proof. intros H. unfold CacheFile.getCacheKey. now rewrite H. Qed.

Lemma cache_file_lookup_other_method (h : HeadlessProxy) (now : Z) (r : Request) :
  String.eqb (Method r) MethodGet = false ->
  CacheFile.getCachedResponse md5_Sum URL_String h now r = (h, None).
Proof.
  intros H. unfold CacheFile.getCachedResponse.
  rewrite cache_file_key_of_other_method by assumption.
  destruct (CacheTTL h <=? 0)%Z; reflexivity.
Qed.

Lemma cache_file_lookup_keeps_handler (h : HeadlessProxy) (now : Z) (r : Request) :
  (CacheFile.getCachedResponse md5_Sum URL_String h now r).1 = h.
Proof.
  unfold CacheFile.getCachedResponse.
  repeat (case_match; simpl; try reflexivity).
Qed.

Lemma cache_file_store_other_method (h : HeadlessProxy) (now_sweep now : Z)
    (r : Request) (content : string) (headers : Header) (statusCode : Z) :
  String.eqb (Method r) MethodGet = false ->
  CacheFile.setCachedResponse md5_Sum URL_String h now_sweep now r
    content headers statusCode = Done h.
Proof.
  intros H. unfold CacheFile.setCachedResponse. rewrite H. simpl.
  destruct (_ || _ || _); reflexivity.
Qed.

(** X8: the cache file's setCachedResponse stores nothing and returns
    the handler as it is when caching is off, the method is not GET, the
    status is below 200 or from 300 up, or the response's Cache-Control
    contains no-store or no-cache. *)
Lemma cache_file_store_guard (h : HeadlessProxy) (now_sweep now : Z)
    (r : Request) (content : string) (headers : Header) (statusCode : Z) :
  (CacheTTL h <= 0)%Z \/ String.eqb (Method r) MethodGet = false \/
  (statusCode < 200)%Z \/ (300 <= statusCode)%Z \/
  Contains (Header_Get headers "Cache-Control") "no-store" = true \/
  Contains (Header_Get headers "Cache-Control") "no-cache" = true ->
  CacheFile.setCachedResponse md5_Sum URL_String h now_sweep now r
    content headers statusCode = Done h.
Proof.
  intros H. unfold CacheFile.setCachedResponse.
  destruct (CacheTTL h <=? 0)%Z eqn:E1; [reflexivity|].
  destruct (statusCode <? 200)%Z eqn:E2; [reflexivity|].
  destruct (300 <=? statusCode)%Z eqn:E3; [reflexivity|]. simpl.
  destruct (String.eqb (Method r) MethodGet) eqn:E4; [|reflexivity]. simpl.
  destruct (String.eqb (CacheFile.getCacheKey md5_Sum URL_String h r) "");
    [reflexivity|].
  apply Z.leb_gt in E1. apply Z.ltb_ge in E2. apply Z.leb_gt in E3.
  destruct H as [H|[H|[H|[H|[H|H]]]]]; try lia; try discriminate.
  - rewrite H.
    destruct (String.eqb (Header_Get headers "Cache-Control") "") eqn:E5.
    + apply String.eqb_eq in E5. rewrite E5 in H. discriminate.
    + reflexivity.
  - rewrite H, orb_true_r.
    destruct (String.eqb (Header_Get headers "Cache-Control") "") eqn:E5.
    + apply String.eqb_eq in E5. rewrite E5 in H. discriminate.
    + reflexivity.
Qed.

(** X9: the cache file's helpers never serve a POST, PUT, DELETE or
    PATCH request from the cache and never store its response. *)
Lemma cache_file_excludes_writes (h : HeadlessProxy) (now_sweep now : Z)
    (r : Request) (content : string) (headers : Header) (statusCode : Z) :
  mutating (Method r) ->
  CacheFile.getCachedResponse md5_Sum URL_String h now r = (h, None) /\
  CacheFile.setCachedResponse md5_Sum URL_String h now_sweep now r
    content headers statusCode = Done h.
Proof.
  intros Hm. apply mutating_not_get in Hm. split.
  - now apply cache_file_lookup_other_method.
  - now apply cache_file_store_other_method.
Qed.

End CacheProperties.

(** ** ServeHTTP: what happens while a browser is checked out *)

Section ServeProperties.
Import Http Go Rod Handler Server.

Variable sha256_Sum md5_Sum : string -> string.
Variable URL_String : URL -> string.
Variable format_RFC1123 : Z -> string.

Lemma during_refl P s : during P s s.
Proof.
  repeat split; try reflexivity.
  - exists []. now rewrite app_nil_r.
  - exists []. split; [reflexivity|constructor].
Qed.

Lemma during_trans P s1 s2 s3 : during P s1 s2 -> during P s2 s3 -> during P s1 s3.
Proof.
  intros ([e1 [T1 F1]] & [d1 [D1 M1]] & P1 & X1 & J1)
         ([e2 [T2 F2]] & [d2 [D2 M2]] & P2 & X2 & J2).
  repeat split; try congruence.
  - exists (e1 ++ e2). split.
    + rewrite T2, T1. now rewrite app_assoc.
    + now apply Forall_app.
  - exists (d2 ++ d1). split.
    + rewrite D2, D1. now rewrite app_assoc.
    + now apply Forall_app.
Qed.

Lemma steady_bind {A B} js P (m : M A) (k : A -> M B) :
  steady js P m -> (forall a, steady js P (k a)) -> steady js P (m ≫= k).
Proof.
  intros Hm Hk s Hjs. unfold mbind, M_bind.
  specialize (Hm s Hjs). destruct (m s) as [s' [a|e]]; simpl in *.
  - eapply during_trans; [exact Hm|]. apply Hk.
    destruct Hm as (_ & _ & _ & _ & J). congruence.
  - exact Hm.
Qed.

Lemma steady_ret {A} js P (a : A) : steady js P (mret a).
Proof. intros s _. apply during_refl. Qed.

Lemma steady_leave {A} js P e : steady js P (@leave A e).
Proof. intros s _. apply during_refl. Qed.

Lemma steady_emit_all js (P : Event -> Prop) evs : Forall P evs -> steady js P (emit_all evs).
Proof.
  intros HP s _. repeat split; simpl; try reflexivity.
  - exists evs. now split.
  - exists []. split; [reflexivity|constructor].
Qed.

Lemma steady_emit js (P : Event -> Prop) ev : P ev -> steady js P (emit ev).
Proof. intros HP. apply (steady_emit_all js P [ev]). now constructor. Qed.

Lemma steady_defer js P d : minor d -> steady js P (defer d).
Proof.
  intros Hd s _. repeat split; simpl; try reflexivity.
  - exists []. rewrite app_nil_r. split; [reflexivity|constructor].
  - exists [d]. split; [reflexivity|]. now constructor.
Qed.

Lemma steady_on_writer js P f : steady js P (on_writer f).
Proof.
  intros s _. repeat split; simpl; try reflexivity.
  - exists []. rewrite app_nil_r. split; [reflexivity|constructor].
  - exists []. split; [reflexivity|constructor].
Qed.

Lemma steady_write_header js P code : steady js P (write_header code).
Proof.
  intros s _. unfold write_header. destruct (WriteHeader code (rw s)) as [w'|msg].
  - repeat split; simpl; try reflexivity.
    + exists []. rewrite app_nil_r. split; [reflexivity|constructor].
    + exists []. split; [reflexivity|constructor].
  - apply during_refl.
Qed.

Lemma steady_write js P ok data : steady js P (write ok data).
Proof.
  intros s _. unfold write. destruct (Http.Write ok data (rw s)) as [w' sent].
  repeat split; simpl; try reflexivity.
  - exists []. rewrite app_nil_r. split; [reflexivity|constructor].
  - exists []. split; [reflexivity|constructor].
Qed.

Lemma steady_check js P ok msg : steady js P (check ok msg).
Proof. destruct ok; [apply steady_ret|apply steady_leave]. Qed.

Lemma steady_when js P b m : steady js P m -> steady js P (when b m).
Proof. destruct b; [auto|intros _; apply steady_ret]. Qed.


Lemma handler_store_settings h ns n r c hd st h' :
  Handler.setCachedResponse sha256_Sum h ns n r c hd st = Done h' ->
  exists c', h' = set_cache h c'.
Proof.
  unfold Handler.setCachedResponse. intros H.
  destruct (CacheTTL h <=? 0)%Z.
  - injection H as <-. exists (cache h). now destruct h.
  - destruct (map_assign _ _ _) as [c'|msg]; [|discriminate].
    injection H as <-. now exists c'.
Qed.

Lemma cache_file_store_settings h ns n r c hd st h' :
  CacheFile.setCachedResponse md5_Sum URL_String h ns n r c hd st = Done h' ->
  exists c', h' = set_cache h c'.
Proof.
  unfold CacheFile.setCachedResponse. intros H.
  assert (Hsame : exists c', h = set_cache h c') by (exists (cache h); now destruct h).
  repeat (case_match; try discriminate);
    try (injection H as <-; try exact Hsame; eauto).
Qed.

Lemma handler_lookup_settings h now r :
  exists c', (Handler.getCachedResponse sha256_Sum h now r).1 = set_cache h c'.
Proof.
  assert (Hsame : exists c', h = set_cache h c') by (exists (cache h); now destruct h).
  unfold Handler.getCachedResponse.
  repeat (case_match; simpl; try exact Hsame; eauto).
Qed.

Lemma cache_file_lookup_settings h now r :
  exists c', (CacheFile.getCachedResponse md5_Sum URL_String h now r).1 = set_cache h c'.
Proof.
  assert (Hsame : exists c', h = set_cache h c') by (exists (cache h); now destruct h).
  unfold CacheFile.getCachedResponse.
  repeat (case_match; simpl; try exact Hsame; eauto).
Qed.

Lemma store_settings decl h ns n r c hd st h' :
  store sha256_Sum md5_Sum URL_String decl h ns n r c hd st = Done h' ->
  exists c', h' = set_cache h c'.
Proof.
  destruct decl; [apply handler_store_settings|apply cache_file_store_settings].
Qed.

Lemma lookup_settings decl h now r :
  exists c', (lookup sha256_Sum md5_Sum URL_String decl h now r).1 = set_cache h c'.
Proof.
  destruct decl; [apply handler_lookup_settings|apply cache_file_lookup_settings].
Qed.

Lemma steady_cache_store js (P : Event -> Prop) decl ns n r c hd st :
  P EvCacheStore ->
  steady js P (cache_store sha256_Sum md5_Sum URL_String decl ns n r c hd st).
Proof.
  intros HP s _. unfold cache_store.
  assert (Hev : exists evs, trace s ++ [EvCacheStore] = trace s ++ evs /\ Forall P evs)
    by (exists [EvCacheStore]; split; [reflexivity|now constructor]).
  assert (Hds : exists ds, defers s = ds ++ defers s /\ Forall minor ds)
    by (exists []; split; [reflexivity|constructor]).
  destruct (store _ _ _ _ _ _ _ _ _ _ _) as [h'|msg] eqn:E; simpl.
  - apply store_settings in E as [c' ->]. repeat split; auto.
  - repeat split; auto.
Qed.

Lemma steady_handler_bind {B} js P (k : HeadlessProxy -> M B) :
  (forall h, EnableJS h = js -> steady js P (k h)) -> steady js P (handler ≫= k).
Proof.
  intros Hk s Hjs. unfold mbind, M_bind, handler. now apply Hk.
Qed.

Section Steps.
Variable js : bool.
Variable P : Event -> Prop.
Hypothesis HP : forall ev, off_pool ev -> not_js_override ev -> P ev.
Hypothesis HPjs : js = false -> P EvEvalOnNewDocument.

Ltac event := apply HP; exact I.
Ltac leaf :=
  first
    [ apply steady_ret | apply steady_leave | apply steady_check
    | apply steady_on_writer | apply steady_write_header | apply steady_write
    | apply steady_emit; event
    | apply steady_defer; exact I
    | apply steady_cache_store; event ].
Ltac steps := repeat first [ leaf | apply steady_bind; [leaf|intros ?] ].

Lemma steady_serve_get h url a : steady js P (serve_get h url a).
Proof.
  unfold serve_get. steps.
  apply steady_bind; [apply steady_when; leaf|intros _]. steps.
  destruct (html a); leaf.
Qed.

Lemma steady_serve_fetch h r url a : steady js P (serve_fetch h r url a).
Proof.
  unfold serve_fetch. destruct (Body r); steps.
  destruct (fetch a) as [result|]; steps.
  destruct (fr_error result); steps.
Qed.

Lemma steady_serve_other a : steady js P (serve_other a).
Proof. unfold serve_other. steps. Qed.

Lemma steady_serve_method h r url a : steady js P (serve_method h r url a).
Proof.
  unfold serve_method.
  destruct (String.eqb _ _); [apply steady_serve_get|].
  destruct (is_fetch_method _); [apply steady_serve_fetch|apply steady_serve_other].
Qed.

Lemma steady_sync_cookies h a hd : steady js P (sync_cookies format_RFC1123 h a hd).
Proof.
  unfold sync_cookies. destruct (ForwardCookies h); steps.
  destruct (page_cookies a); leaf.
Qed.

Lemma steady_session decl b r clk a :
  steady js P (session sha256_Sum md5_Sum URL_String format_RFC1123 decl b r clk a).
Proof.
  unfold session. apply steady_handler_bind. intros h Hh. steps.
  apply steady_bind; [|intros _].
  { rewrite Hh. destruct js; simpl; [leaf|].
    apply steady_bind; [apply steady_emit; now apply HPjs|intros _; leaf]. }
  apply steady_bind; [|intros _].
  { apply steady_when, steady_emit_all.
    induction (Cookies r); simpl; constructor; [event|assumption]. }
  apply steady_bind; [apply steady_serve_method|intros [[st hd] content]].
  apply steady_bind; [apply steady_sync_cookies|intros hd']. steps.
  match goal with |- steady _ _ (if ?b then _ else _) => destruct b end; leaf.
Qed.
End Steps.


Lemma getBrowser_set_cache h c o :
  getBrowser (set_cache h c) o =
  (set_cache (getBrowser h o).1 c, (getBrowser h o).2).
Proof.
  unfold getBrowser; simpl.
  destruct (0 <? _)%Z; [destruct (last _)|]; reflexivity.
Qed.

Lemma run_minor ds : Forall minor ds -> forall s,
  let s' := fold_left (fun acc d => run_deferred d acc) ds s in
  hp s' = hp s /\ rw s' = rw s /\
  exists evs, trace s' = trace s ++ evs /\ Forall calm evs.
Proof.
  induction 1 as [|d ds Hd Hds IH]; intros s; simpl.
  - split; [reflexivity|split; [reflexivity|]].
    exists []. rewrite app_nil_r. split; [reflexivity|constructor].
  - destruct (IH (run_deferred d s)) as (Hh & Hw & evs & Ht & Hc).
    destruct d; try contradiction; simpl in *;
      (split; [congruence|split; [congruence|]]);
      eexists (_ :: evs); (split; [rewrite Ht; simpl; rewrite <- app_assoc; reflexivity|]);
      (constructor; [split; exact I|assumption]).
Qed.

Lemma calm_settled js ev : calm ev -> settled js ev.
Proof. intros [H1 H2]. split; auto. Qed.

#[local] Arguments getBrowser : simpl never.
#[local] Arguments returnBrowser : simpl never.
#[local] Arguments session : simpl never.
#[local] Arguments Http.Write : simpl never.
#[local] Arguments WriteHeader : simpl never.
#[local] Arguments send_status : simpl never.
#[local] Arguments copy_headers : simpl never.

Abbreviation Serve := (ServeHTTP sha256_Sum md5_Sum URL_String format_RFC1123).
Abbreviation Lookup := (lookup sha256_Sum md5_Sum URL_String).

Lemma valid_code_sent (code : Z) (w : ResponseWriter) :
  valid_code code = true -> WriteHeader code w = Done (send_status code w).
Proof.
  intros H. unfold WriteHeader, send_status. rewrite H. now destruct (w_status w).
Qed.

Lemma serve_hit_any decl h w r clk a h1 c hd st :
  Lookup decl h (t_lookup clk) r = (h1, Some (c, hd, st)) ->
  trace (Serve decl h w r clk a).1 = [EvCacheLookup] /\
  hp (Serve decl h w r clk a).1 = h1 /\
  defers (Serve decl h w r clk a).1 = [].
Proof.
  intros H. unfold ServeHTTP, body, cache_lookup.
  unfold mbind, M_bind. simpl. rewrite H. simpl.
  unfold write_header, write. simpl.
  destruct (WriteHeader st (copy_headers hd w)) as [w1|msg]; simpl; [|auto].
  destruct (Http.Write _ _ _) as [w' sent]. auto.
Qed.

Lemma serve_hit decl h w r clk a h1 c hd st :
  Lookup decl h (t_lookup clk) r = (h1, Some (c, hd, st)) ->
  valid_code st = true ->
  Serve decl h w r clk a =
  ({| hp := h1;
      rw := (Http.Write (write_ok a) c (send_status st (copy_headers hd w))).1;
      trace := [EvCacheLookup]; defers := [] |},
   Return (if (Http.Write (write_ok a) c (send_status st (copy_headers hd w))).2
           then None else Some "write")).
Proof.
  intros H Hst. unfold ServeHTTP, body, cache_lookup.
  unfold mbind, M_bind. simpl. rewrite H. simpl.
  unfold write_header, write. simpl. rewrite (valid_code_sent st _ Hst).
  destruct (Http.Write _ _ _) as [w' sent]. reflexivity.
Qed.

Lemma serve_launch_panic decl h w r clk a h1 h2 m :
  Lookup decl h (t_lookup clk) r = (h1, None) ->
  getBrowser h1 (launch a) = (h2, Panic m) ->
  Serve decl h w r clk a =
  ({| hp := h2; rw := w; trace := [EvCacheLookup]; defers := [] |}, Panicking m).
Proof.
  intros H G. unfold ServeHTTP, body, cache_lookup, get_browser.
  unfold mbind, M_bind. simpl. rewrite H. simpl. rewrite G. reflexivity.
Qed.

Lemma serve_no_browser decl h w r clk a h1 h2 :
  Lookup decl h (t_lookup clk) r = (h1, None) ->
  getBrowser h1 (launch a) = (h2, Done None) ->
  Serve decl h w r clk a =
  ({| hp := h2; rw := w; trace := [EvCacheLookup; EvGetBrowser None];
      defers := [] |},
   Return (Some "failed to get browser from pool")).
Proof.
  intros H G. unfold ServeHTTP, body, cache_lookup, get_browser.
  unfold mbind, M_bind. simpl. rewrite H. simpl. rewrite G. reflexivity.
Qed.

Lemma body_session decl h w r clk a h1 h2 b :
  Lookup decl h (t_lookup clk) r = (h1, None) ->
  getBrowser h1 (launch a) = (h2, Done (Some b)) ->
  body sha256_Sum md5_Sum URL_String format_RFC1123 decl r clk a
    {| hp := h; rw := w; trace := []; defers := [] |} =
  session sha256_Sum md5_Sum URL_String format_RFC1123 decl b r clk a
    {| hp := h2; rw := w; trace := [EvCacheLookup; EvGetBrowser (Some b)];
       defers := [D_cancel; D_returnBrowser b] |}.
Proof.
  intros H G. unfold body, cache_lookup, get_browser, defer.
  unfold mbind, M_bind. simpl. rewrite H. simpl. rewrite G. reflexivity.
Qed.

Lemma run_defers_release (s : Frame) (ds : list Deferred) (b : Browser) :
  defers s = ds ++ [D_cancel; D_returnBrowser b] ->
  Forall minor ds ->
  exists evs,
    Forall calm evs /\
    trace (run_defers s) =
      trace s ++ evs ++ [EvReturnBrowser b] ++
      match (returnBrowser (hp s) b).2 with
      | Some c => [EvBrowserClose c]
      | None => []
      end /\
    hp (run_defers s) = (returnBrowser (hp s) b).1 /\
    rw (run_defers s) = rw s /\
    defers (run_defers s) = [].
Proof.
  intros Hd Hm. unfold run_defers. rewrite Hd, fold_left_app.
  destruct (run_minor ds Hm s) as (Hh & Hw & evs & Ht & Hc).
  set (s1 := fold_left _ ds s) in *. simpl.
  rewrite Hh. destruct (returnBrowser (hp s) b) as [h' cl]; simpl.
  exists (evs ++ [EvCancel]). split; [|split; [|split; [|split]]].
  - apply Forall_app. split; [assumption|]. constructor; [split; exact I|constructor].
  - rewrite Ht. rewrite <- !app_assoc. reflexivity.
  - reflexivity.
  - assumption.
  - reflexivity.
Qed.

Lemma serve_session decl h w r clk a h1 h2 b :
  Lookup decl h (t_lookup clk) r = (h1, None) ->
  getBrowser h1 (launch a) = (h2, Done (Some b)) ->
  exists evs h3,
    Forall (settled (EnableJS h2)) evs /\
    browserPool h3 = browserPool h2 /\
    MaxBrowsers h3 = MaxBrowsers h2 /\
    EnableJS h3 = EnableJS h2 /\
    trace (Serve decl h w r clk a).1 =
      [EvCacheLookup; EvGetBrowser (Some b)] ++ evs ++ [EvReturnBrowser b] ++
      match (returnBrowser h3 b).2 with
      | Some c => [EvBrowserClose c]
      | None => []
      end /\
    hp (Serve decl h w r clk a).1 = (returnBrowser h3 b).1 /\
    defers (Serve decl h w r clk a).1 = [].
Proof.
  intros H G. unfold ServeHTTP. rewrite (body_session decl h w r clk a h1 h2 b H G).
  set (s0 := {| hp := h2; rw := w; trace := [EvCacheLookup; EvGetBrowser (Some b)];
                defers := [D_cancel; D_returnBrowser b] |}).
  assert (Hst : during (settled (EnableJS h2)) s0
                  (session sha256_Sum md5_Sum URL_String format_RFC1123 decl b r clk a s0).1).
  { apply (steady_session (EnableJS h2)); [| |reflexivity].
    - intros ev H1 H2. split; auto.
    - intros Hjs. split; [exact I|]. intros Ht. congruence. }
  destruct (session _ _ _ _ _ _ _ _ _ s0) as [s1 res]. simpl in Hst.
  destruct Hst as ([evs [Ht Hev]] & [ds [Hd Hm]] & Hp & Hx & Hj).
  destruct (run_defers_release s1 ds b Hd Hm) as (evs' & Hc & Ht' & Hh' & _ & Hd').
  exists (evs ++ evs'), (hp s1).
  assert (Hgoal :
    Forall (settled (EnableJS h2)) (evs ++ evs') /\
    browserPool (hp s1) = browserPool h2 /\
    MaxBrowsers (hp s1) = MaxBrowsers h2 /\
    EnableJS (hp s1) = EnableJS h2 /\
    trace (run_defers s1) =
      [EvCacheLookup; EvGetBrowser (Some b)] ++ (evs ++ evs') ++ [EvReturnBrowser b] ++
      match (returnBrowser (hp s1) b).2 with
      | Some c => [EvBrowserClose c]
      | None => []
      end /\
    hp (run_defers s1) = (returnBrowser (hp s1) b).1 /\
    defers (run_defers s1) = []).
  { split; [|split; [|split; [|split; [|split; [|split]]]]]; try assumption.
    - apply Forall_app. split; [assumption|].
      eapply Forall_impl; [exact Hc|]. intros ev. apply calm_settled.
    - rewrite Ht', Ht. simpl. rewrite <- !app_assoc. reflexivity. }
  destruct res; exact Hgoal.
Qed.


Lemma settled_off_pool js evs :
  Forall (settled js) evs ->
  acquired evs = [] /\ released evs = [] /\ closed evs = [].
Proof.
  induction 1 as [|ev evs [Hoff _] _ (IH1 & IH2 & IH3)]; [now repeat split|].
  unfold acquired, released, closed in *.
  destruct ev; try contradiction; simpl; rewrite ?IH1, ?IH2, ?IH3; now repeat split.
Qed.


Lemma returnBrowser_cases (h : HeadlessProxy) (b : Browser) :
  returnBrowser h b = (h, Some b) \/
  returnBrowser h b = (set_browserPool h (browserPool h ++ [b]), None).
Proof. unfold returnBrowser. destruct (_ <=? _)%Z; auto. Qed.

Lemma getBrowser_settings (h : HeadlessProxy) (o : launch_outcome) :
  exists p, (getBrowser h o).1 = set_browserPool h p.
Proof.
  unfold getBrowser.
  destruct (0 <? _)%Z; [destruct (last _)|]; simpl; eauto;
    exists (browserPool h); now destruct h.
Qed.

(** C5: on every way out of ServeHTTP, whichever cache declaration is
    meant and whatever the engine answers (also when the body panics),
    the browsers passed to returnBrowser are exactly the browsers
    getBrowser handed out: none when the request is served from the cache
    or no browser could be had, the one acquired browser, once, otherwise.
    No deferred call is left pending, and the released browser is either
    the last one of the pool afterwards or the one sent to be closed. *)
Theorem session_released_once (decl : Declaration) (h : HeadlessProxy)
    (w : ResponseWriter) (r : Request) (clk : Clock) (a : Answers) :
  released (trace (Serve decl h w r clk a).1) =
    acquired (trace (Serve decl h w r clk a).1) /\
  (length (acquired (trace (Serve decl h w r clk a).1)) <= 1)%nat /\
  defers (Serve decl h w r clk a).1 = [] /\
  forall b : Browser,
    acquired (trace (Serve decl h w r clk a).1) = [b] ->
    (closed (trace (Serve decl h w r clk a).1) = [] /\
     last (browserPool (hp (Serve decl h w r clk a).1)) = Some b) \/
    closed (trace (Serve decl h w r clk a).1) = [b].
Proof.
  destruct (Lookup decl h (t_lookup clk) r) as [h1 [[[c hd] st]|]] eqn:HL.
  - destruct (serve_hit_any decl h w r clk a h1 c hd st HL) as (-> & _ & ->).
    simpl. repeat split; [lia|discriminate].
  - destruct (getBrowser h1 (launch a)) as [h2 [[b|]|m]] eqn:HG.
    + destruct (serve_session decl h w r clk a h1 h2 b HL HG)
        as (evs & h3 & Hev & Hp & Hx & Hj & -> & -> & ->).
      destruct (settled_off_pool _ _ Hev) as (Ha & Hr & Hc).
      unfold acquired, released, closed in *.
      rewrite !omap_app, Ha, Hr, Hc.
      destruct (returnBrowser_cases h3 b) as [->| ->]; simpl;
        (split; [reflexivity|split; [lia|split; [reflexivity|]]]);
        intros b' [= <-]; [now right|left].
      split; [reflexivity|apply last_snoc].
    + rewrite (serve_no_browser decl h w r clk a h1 h2 HL HG). simpl.
      repeat split; [lia|discriminate].
    + rewrite (serve_launch_panic decl h w r clk a h1 h2 m HL HG). simpl.
      repeat split; [lia|discriminate].
Qed.


Lemma unsupported_switch (m : string) :
  unsupported m ->
  String.eqb m MethodGet = false /\ is_fetch_method m = false.
Proof.
  intros (H1 & H2 & H3 & H4 & H5). unfold is_fetch_method.
  repeat match goal with H : m <> ?x |- _ => apply String.eqb_neq in H; rewrite H end.
  auto.
Qed.

(** What ServeHTTP comes to for a method outside the five, once the cache
    missed, a browser was had and the page was set up. *)
Lemma serve_unsupported decl h w r clk a h1 h2 b :
  unsupported (Method r) ->
  Lookup decl h (t_lookup clk) r = (h1, None) ->
  getBrowser h1 (launch a) = (h2, Done (Some b)) ->
  page_ok a = true ->
  set_user_agent_ok a = true ->
  (EnableJS h2 = false -> eval_on_new_document_ok a = true) ->
  Serve decl h w r clk a =
  ({| hp := (returnBrowser h2 b).1;
      rw := (Http.Write (write_ok a) "Method not allowed"
               (send_status StatusMethodNotAllowed w)).1;
      trace :=
        [EvCacheLookup; EvGetBrowser (Some b); EvPage b;
         EvSetUserAgent (UserAgent h2)] ++
        (if EnableJS h2 then [] else [EvEvalOnNewDocument]) ++
        (if ForwardCookies h2 then List.map EvSetCookies (Cookies r) else []) ++
        [EvPageClose; EvCancel; EvReturnBrowser b] ++
        match (returnBrowser h2 b).2 with
        | Some c => [EvBrowserClose c]
        | None => []
        end;
      defers := [] |},
   Return (if (Http.Write (write_ok a) "Method not allowed"
                 (send_status StatusMethodNotAllowed w)).2
           then None else Some "write")).
Proof.
  intros Hm HL HG Hpage Hua Hjs.
  destruct (unsupported_switch _ Hm) as [Hget Hfetch].
  unfold ServeHTTP. rewrite (body_session decl h w r clk a h1 h2 b HL HG).
  unfold session, serve_method, serve_other. rewrite Hget, Hfetch, Hpage, Hua.
  unfold mbind, M_bind, handler, emit, emit_all, check, defer, when, on_writer,
    write_header, write, return_, leave, mret, M_ret.
  simpl.
  destruct (EnableJS h2) eqn:Ejs; simpl; [|rewrite (Hjs eq_refl); simpl];
    (destruct (ForwardCookies h2); simpl;
     rewrite (valid_code_sent StatusMethodNotAllowed) by reflexivity; simpl;
     destruct (Http.Write _ _ _) as [w' sent]; simpl;
     unfold run_defers; simpl; destruct (returnBrowser h2 b) as [h' cl]; simpl;
     rewrite <- ?app_assoc; reflexivity).
Qed.


Lemma cookies_off_pool (cs : list Cookie) :
  acquired (List.map EvSetCookies cs) = [] /\
  released (List.map EvSetCookies cs) = [] /\
  ~ In EvCacheStore (List.map EvSetCookies cs).
Proof.
  induction cs as [|c cs (IH1 & IH2 & IH3)]; simpl.
  - repeat split; intros [].
  - repeat split; try assumption. intros [H|H]; [discriminate|auto].
Qed.

Lemma lookup_keeps_cache_on_miss decl h now r h1 :
  Lookup decl h now r = (h1, None) ->
  browserPool h1 = browserPool h /\ MaxBrowsers h1 = MaxBrowsers h.
Proof.
  intros H. destruct (lookup_settings decl h now r) as [c Hc].
  rewrite H in Hc. simpl in Hc. subst h1. split; reflexivity.
Qed.

(** C3 (amended): for a request whose method is none of GET, POST, PUT,
    DELETE and PATCH, ServeHTTP looks the request up in the cache first
    and, on a miss, takes a browser; when the browser is had, the page
    opens and the user agent (and, with EnableJS off, the navigator
    script) is set, it answers 405 with the body "Method not allowed",
    stores nothing in the cache and releases the browser it took, once. *)
Theorem unsupported_method_after_setup (decl : Declaration)
    (h : HeadlessProxy) (w : ResponseWriter) (r : Request) (clk : Clock)
    (a : Answers) (h1 h2 : HeadlessProxy) (b : Browser) :
  unsupported (Method r) ->
  Lookup decl h (t_lookup clk) r = (h1, None) ->
  getBrowser h1 (launch a) = (h2, Done (Some b)) ->
  page_ok a = true ->
  set_user_agent_ok a = true ->
  (EnableJS h2 = false -> eval_on_new_document_ok a = true) ->
  w_status w = None ->
  w_status (rw (Serve decl h w r clk a).1) = Some StatusMethodNotAllowed /\
  (write_ok a = true ->
     w_body (rw (Serve decl h w r clk a).1) = w_body w +:+ "Method not allowed" /\
     (Serve decl h w r clk a).2 = Return None) /\
  head (trace (Serve decl h w r clk a).1) = Some EvCacheLookup /\
  ~ In EvCacheStore (trace (Serve decl h w r clk a).1) /\
  acquired (trace (Serve decl h w r clk a).1) = [b] /\
  released (trace (Serve decl h w r clk a).1) = [b] /\
  cache (hp (Serve decl h w r clk a).1) = cache h1.
Proof.
  intros Hm HL HG Hpage Hua Hjs Hw.
  rewrite (serve_unsupported decl h w r clk a h1 h2 b Hm HL HG Hpage Hua Hjs).
  destruct (cookies_off_pool (Cookies r)) as (Hca & Hcr & Hcs).
  assert (Hcache : cache (returnBrowser h2 b).1 = cache h1).
  { destruct (getBrowser_settings h1 (launch a)) as [p Hp].
    rewrite HG in Hp. simpl in Hp. subst h2.
    destruct (returnBrowser_cases (set_browserPool h1 p) b) as [-> | ->]; reflexivity. }
  unfold Http.Write, send_status. rewrite Hw. simpl.
  split; [now destruct (write_ok a)|].
  split; [intros ->; split; reflexivity|].
  split; [reflexivity|].
  split; [|split; [|split]].
  - destruct (EnableJS h2), (ForwardCookies h2),
      (returnBrowser_cases h2 b) as [-> | ->]; simpl;
      rewrite ?in_app_iff; simpl; intuition (try discriminate).
  - unfold acquired in *.
    destruct (EnableJS h2), (ForwardCookies h2),
      (returnBrowser_cases h2 b) as [-> | ->]; simpl;
      rewrite ?omap_app, ?Hca; reflexivity.
  - unfold released in *.
    destruct (EnableJS h2), (ForwardCookies h2),
      (returnBrowser_cases h2 b) as [-> | ->]; simpl;
      rewrite ?omap_app, ?Hcr; reflexivity.
  - exact Hcache.
Qed.







(** C1: in the handler file a POST response is written to the cache and
    served from it.  On a provisioned handler with a one-minute TTL,
    setCachedResponse stores the response of a POST request under the
    request's key and getCachedResponse returns it a moment later; seen
    through ServeHTTP, the first POST runs the fetch script and stores,
    and the same POST again is answered from the cache with no browser
    involved. *)
Theorem handler_file_caches_post :
  let key := Handler.getCacheKey sha256_Sum Samples.caching_proxy Samples.post_request in
  let cached :=
    set_cache Samples.caching_proxy
      (Some {[ key := Samples.entry_at_noon "created" ∅ 201 ]}) in
  Handler.setCachedResponse sha256_Sum Samples.caching_proxy 0 0
    Samples.post_request "created" ∅ 201 = Done cached /\
  Handler.getCachedResponse sha256_Sum cached 1 Samples.post_request =
    (cached, Some ("created", ∅, 201%Z)) /\
  Serve in_handler_file Samples.caching_proxy newRecorder Samples.post_request
    Samples.noon Samples.all_well =
    ({| hp := cached;
        rw := {| w_header := ∅; w_status := Some 201%Z; w_body := "created" |};
        trace := [EvCacheLookup; EvGetBrowser (Some 1%nat); EvPage 1%nat;
                  EvSetUserAgent "ua";
                  EvFetch "http://upstream.test/orders" "POST"
                    {[ "Content-Type" := "" ]} "{}";
                  EvCacheStore; EvPageClose; EvCancel; EvReturnBrowser 1%nat];
        defers := [] |}, Return None) /\
  Serve in_handler_file cached newRecorder Samples.post_request
    Samples.a_moment_later Samples.no_browser =
    ({| hp := cached;
        rw := {| w_header := ∅; w_status := Some 201%Z; w_body := "created" |};
        trace := [EvCacheLookup]; defers := [] |}, Return None).
Proof.
  intros key cached.
  assert (Hstore :
    Handler.setCachedResponse sha256_Sum Samples.caching_proxy 0 0
      Samples.post_request "created" ∅ 201 = Done cached).
  { rewrite (handler_store_enabled sha256_Sum _ ∅);
      [|reflexivity|reflexivity|rewrite map_size_empty; lia].
    rewrite insert_empty. reflexivity. }
  assert (Hget :
    Handler.getCachedResponse sha256_Sum cached 1 Samples.post_request =
    (cached, Some ("created", ∅, 201%Z))).
  { apply (handler_lookup_hit sha256_Sum cached 1 Samples.post_request
             (Samples.entry_at_noon "created" ∅ 201)).
    - reflexivity.
    - simpl. apply lookup_singleton_eq.
    - reflexivity. }
  split; [exact Hstore|split; [exact Hget|split]].
  - unfold ServeHTTP.
    erewrite (body_session in_handler_file Samples.caching_proxy _ _ _ _
                Samples.caching_proxy
                (set_browserPool Samples.caching_proxy []) 1%nat).
    2: { unfold lookup, Handler.getCachedResponse. simpl.
         now rewrite lookup_empty. }
    2: { reflexivity. }
    unfold session, serve_method, serve_fetch, sync_cookies, cache_store, store.
    unfold mbind, M_bind, handler, emit, emit_all, check, defer, when,
      on_writer, write_header, write, return_, leave, mret, M_ret.
    simpl.
    rewrite (handler_store_enabled sha256_Sum _ ∅);
      [|reflexivity|reflexivity|rewrite map_size_empty; lia].
    rewrite insert_empty. reflexivity.
  - erewrite serve_hit; [|exact Hget|reflexivity]. reflexivity.
Qed.

(** C2: in the handler file setCachedResponse looks at CacheTTL only.  On
    the same handler a GET response with status 500 and the header
    Cache-Control: no-store is stored, and getCachedResponse returns it. *)
Theorem handler_file_stores_any_response :
  let key := Handler.getCacheKey sha256_Sum Samples.caching_proxy Samples.get_request in
  let cached :=
    set_cache Samples.caching_proxy
      (Some {[ key := Samples.entry_at_noon "oops" Samples.no_store_headers 500 ]}) in
  Header_Get Samples.no_store_headers "Cache-Control" = "no-store" /\
  Handler.setCachedResponse sha256_Sum Samples.caching_proxy 0 0
    Samples.get_request "oops" Samples.no_store_headers 500 = Done cached /\
  Handler.getCachedResponse sha256_Sum cached 1 Samples.get_request =
    (cached, Some ("oops", Samples.no_store_headers, 500%Z)).
Proof.
  intros key cached. split; [reflexivity|split].
  - rewrite (handler_store_enabled sha256_Sum _ ∅);
      [|reflexivity|reflexivity|rewrite map_size_empty; lia].
    rewrite insert_empty. reflexivity.
  - apply (handler_lookup_hit sha256_Sum cached 1 Samples.get_request
             (Samples.entry_at_noon "oops" Samples.no_store_headers 500)).
    + reflexivity.
    + simpl. apply lookup_singleton_eq.
    + reflexivity.
Qed.

End ServeProperties.

(** ** ServeHTTP on concrete requests *)

Section ServeExamples.
Import Http Go Rod Handler Server Samples.

Lemma trace_is_unsupported : unsupported (Method trace_request).
Proof. repeat split; discriminate. Qed.

(** A TRACE request on a cold pool: the cache is consulted, a browser is
    launched for it and ends up in the pool. *)
Lemma trace_on_cold_pool :
  ServeHTTP plain_digest plain_digest url_text no_date in_handler_file
    cold_proxy newRecorder trace_request noon all_well =
  ({| hp := set_browserPool caching_proxy [7%nat];
      rw := {| w_header := ∅; w_status := Some 405%Z;
               w_body := "Method not allowed" |};
      trace := [EvCacheLookup; EvGetBrowser (Some 7%nat); EvPage 7%nat;
                EvSetUserAgent "ua"; EvPageClose; EvCancel;
                EvReturnBrowser 7%nat];
      defers := [] |}, Return None).
Proof. vm_compute. reflexivity. Qed.

(** The same request when no browser can be had: no 405 at all. *)
Lemma trace_without_browser :
  ServeHTTP plain_digest plain_digest url_text no_date in_handler_file
    cold_proxy newRecorder trace_request noon no_browser =
  ({| hp := cold_proxy; rw := newRecorder;
      trace := [EvCacheLookup; EvGetBrowser None]; defers := [] |},
   Return (Some "failed to get browser from pool")).
Proof. vm_compute. reflexivity. Qed.

(** C3 as stated fails: it is not so that every request with a method
    outside the five gets its 405 with no browser acquired, the pool as
    it was and no cache lookup.  The TRACE request above is looked up in
    the cache and has a browser launched for it. *)
Lemma unsupported_method_takes_a_session :
  ~ (forall (sha md5 : string -> string) (url : URL -> string)
            (date : Z -> string) (decl : Declaration) (h : HeadlessProxy)
            (w : ResponseWriter) (r : Request) (clk : Clock) (a : Answers),
       unsupported (Method r) ->
       w_status w = None ->
       w_status (rw (ServeHTTP sha md5 url date decl h w r clk a).1)
         = Some StatusMethodNotAllowed /\
       acquired (trace (ServeHTTP sha md5 url date decl h w r clk a).1) = [] /\
       browserPool (hp (ServeHTTP sha md5 url date decl h w r clk a).1)
         = browserPool h /\
       ~ In EvCacheLookup (trace (ServeHTTP sha md5 url date decl h w r clk a).1) /\
       ~ In EvCacheStore (trace (ServeHTTP sha md5 url date decl h w r clk a).1)).
Proof.
  intros claim.
  destruct (claim plain_digest plain_digest url_text no_date in_handler_file
              cold_proxy newRecorder trace_request noon all_well
              trace_is_unsupported eq_refl) as (_ & Hacquired & _).
  rewrite trace_on_cold_pool in Hacquired. discriminate Hacquired.
Qed.

(** C3 (amended), on the TRACE request with browser 1 waiting in the
    pool. *)
Lemma unsupported_method_after_setup_witness :
  w_status (rw (ServeHTTP plain_digest plain_digest url_text no_date
                  in_handler_file caching_proxy newRecorder trace_request
                  noon all_well).1) = Some StatusMethodNotAllowed /\
  (write_ok all_well = true ->
     w_body (rw (ServeHTTP plain_digest plain_digest url_text no_date
                   in_handler_file caching_proxy newRecorder trace_request
                   noon all_well).1)
       = w_body newRecorder +:+ "Method not allowed" /\
     (ServeHTTP plain_digest plain_digest url_text no_date
        in_handler_file caching_proxy newRecorder trace_request
        noon all_well).2 = Return None) /\
  head (trace (ServeHTTP plain_digest plain_digest url_text no_date
                 in_handler_file caching_proxy newRecorder trace_request
                 noon all_well).1) = Some EvCacheLookup /\
  ~ In EvCacheStore
      (trace (ServeHTTP plain_digest plain_digest url_text no_date
                in_handler_file caching_proxy newRecorder trace_request
                noon all_well).1) /\
  acquired (trace (ServeHTTP plain_digest plain_digest url_text no_date
                     in_handler_file caching_proxy newRecorder trace_request
                     noon all_well).1) = [1%nat] /\
  released (trace (ServeHTTP plain_digest plain_digest url_text no_date
                     in_handler_file caching_proxy newRecorder trace_request
                     noon all_well).1) = [1%nat] /\
  cache (hp (ServeHTTP plain_digest plain_digest url_text no_date
               in_handler_file caching_proxy newRecorder trace_request
               noon all_well).1) = cache caching_proxy.
Proof.
  apply (unsupported_method_after_setup plain_digest plain_digest url_text
           no_date in_handler_file caching_proxy newRecorder trace_request
           noon all_well caching_proxy (set_browserPool caching_proxy []) 1%nat).
  - exact trace_is_unsupported.
  - vm_compute. reflexivity.
  - vm_compute. reflexivity.
  - reflexivity.
  - reflexivity.
  - intros _. reflexivity.
  - reflexivity.
Defined.

End ServeExamples.

(** ** The cache key *)

Section StringFacts.

Lemma append_nil_r (s : string) : s +:+ "" = s.
Proof.
  induction s as [|c s IH]; [reflexivity|].
  change (String c (s +:+ "") = String c s). now rewrite IH.
Qed.

Lemma append_assoc (s1 s2 s3 : string) :
  (s1 +:+ s2) +:+ s3 = s1 +:+ (s2 +:+ s3).
Proof.
  induction s1 as [|c s1 IH]; [reflexivity|].
  change (String c ((s1 +:+ s2) +:+ s3) = String c (s1 +:+ (s2 +:+ s3))).
  now rewrite IH.
Qed.

Lemma append_length (s t : string) :
  String.length (s +:+ t) = (String.length s + String.length t)%nat.
Proof.
  induction s as [|c s IH]; [reflexivity|].
  change (S (String.length (s +:+ t)) = S (String.length s + String.length t)).
  now rewrite IH.
Qed.

Lemma append_cancel_l (s t u : string) : s +:+ t = s +:+ u -> t = u.
Proof. induction s as [|c s IH]; [auto|]. intros H. apply IH. now injection H. Qed.

Lemma append_cancel_r (t : string) :
  forall s u : string, s +:+ t = u +:+ t -> s = u.
Proof.
  induction s as [|c s IH]; intros [|d u] H.
  - reflexivity.
  - exfalso. apply (f_equal String.length) in H.
    change (String.length t = S (String.length (u +:+ t))) in H.
    rewrite append_length in H. lia.
  - exfalso. apply (f_equal String.length) in H.
    change (S (String.length (s +:+ t)) = String.length t) in H.
    rewrite append_length in H. lia.
  - change (String c (s +:+ t) = String d (u +:+ t)) in H.
    injection H as -> H. f_equal. now apply IH.
Qed.

Lemma hex_byte_roundtrip (c : ascii) :
  ascii_of_nat (16 * Go.hex_value (Go.hex_digit (nat_of_ascii c / 16)) +
                Go.hex_value (Go.hex_digit (nat_of_ascii c mod 16))) = c.
Proof. destruct c as [[] [] [] [] [] [] [] []]; vm_compute; reflexivity. Qed.

(** Decoding undoes encoding, so the hexadecimal keys are as different as
    the digests they spell. *)
Lemma hex_roundtrip (s : string) :
  Go.hex_DecodeString (Go.hex_EncodeToString s) = s.
Proof.
  induction s as [|c s IH]; [reflexivity|].
  simpl. rewrite IH. f_equal. apply hex_byte_roundtrip.
Qed.

Lemma hex_inj (s t : string) :
  Go.hex_EncodeToString s = Go.hex_EncodeToString t -> s = t.
Proof.
  intros H. rewrite <- (hex_roundtrip s), <- (hex_roundtrip t). now rewrite H.
Qed.

Lemma fold_left_glue {A} (f : A -> string) (l : list A) (acc : string) :
  fold_left (fun acc x => acc +:+ f x) l acc = acc +:+ Go.glue f l.
Proof.
  revert acc. induction l as [|x l IH]; intros acc; simpl.
  - now rewrite append_nil_r.
  - now rewrite IH, append_assoc.
Qed.

Lemma glue_app {A} (f : A -> string) (l1 l2 : list A) :
  Go.glue f (l1 ++ l2) = Go.glue f l1 +:+ Go.glue f l2.
Proof.
  induction l1 as [|x l1 IH]; simpl; [reflexivity|].
  now rewrite IH, append_assoc.
Qed.

Lemma glue_agree {A} (f g : A -> string) (l : list A) :
  (forall x : A, In x l -> f x = g x) -> Go.glue f l = Go.glue g l.
Proof.
  induction l as [|x l IH]; intros H; simpl; [reflexivity|].
  rewrite (H x) by now left. f_equal. apply IH. intros y Hy. apply H. now right.
Qed.

End StringFacts.

Section KeyProperties.
Import Http Go Rod Handler.

Variable sha256_Sum md5_Sum : string -> string.
Variable URL_String : URL -> string.

(** *** The handler file's key *)

Lemma key_material_glue (h : HeadlessProxy) (r : Request) :
  key_material h r =
  (Method r +:+ URL_Path (Url r) +:+ RawQuery (Url r)) +:+
  glue (forwarded_header r) (ForwardHeaders h) +:+
  (if ForwardCookies h then glue cookie_pair (Cookies r) else "").
Proof.
  unfold key_material. destruct (ForwardCookies h).
  - now rewrite !fold_left_glue, !append_assoc.
  - now rewrite !fold_left_glue, append_nil_r.
Qed.

Lemma glue_cookie_pairs (r1 r2 : Request) :
  cookie_pairs r1 = cookie_pairs r2 ->
  glue cookie_pair (Cookies r1) = glue cookie_pair (Cookies r2).
Proof.
  unfold cookie_pairs. generalize (Cookies r1) (Cookies r2).
  induction l as [|c l IH]; intros [|d l'] H; simpl in *; try discriminate.
  - reflexivity.
  - injection H as Hn Hv Hrest. unfold cookie_pair at 1 3.
    now rewrite Hn, Hv, (IH l' Hrest).
Qed.

Lemma forwarded_header_differs (r1 r2 : Request) (hd : string) :
  Header_Get (Header_ r1) hd <> Header_Get (Header_ r2) hd ->
  forwarded_header r1 hd <> forwarded_header r2 hd.
Proof.
  unfold forwarded_header. intros Hne.
  destruct (String.eqb_spec (Header_Get (Header_ r1) hd) "") as [E1|E1],
           (String.eqb_spec (Header_Get (Header_ r2) hd) "") as [E2|E2].
  - congruence.
  - intros H. symmetry in H. apply (f_equal String.length) in H.
    rewrite append_length in H. simpl in H.
    destruct hd; simpl in H; [|lia].
    destruct (Header_Get (Header_ r2) ""); [congruence|discriminate].
  - intros H. apply (f_equal String.length) in H.
    rewrite append_length in H. simpl in H.
    destruct hd; simpl in H; [|lia].
    destruct (Header_Get (Header_ r1) ""); [congruence|discriminate].
  - intros H. apply append_cancel_l in H. apply (append_cancel_l ":") in H.
    congruence.
Qed.

Lemma key_material_agree (h : HeadlessProxy) (r1 r2 : Request) :
  Method r1 = Method r2 ->
  URL_Path (Url r1) = URL_Path (Url r2) ->
  RawQuery (Url r1) = RawQuery (Url r2) ->
  (ForwardCookies h = true -> cookie_pairs r1 = cookie_pairs r2) ->
  (forall header : string,
     In header (ForwardHeaders h) ->
     Header_Get (Header_ r1) header = Header_Get (Header_ r2) header) ->
  key_material h r1 = key_material h r2.
Proof.
  intros Hm Hp Hq Hc Hh. rewrite !key_material_glue, Hm, Hp, Hq.
  rewrite (glue_agree (forwarded_header r1) (forwarded_header r2)).
  2: { intros x Hx. unfold forwarded_header. now rewrite (Hh x Hx). }
  destruct (ForwardCookies h); [|reflexivity].
  now rewrite (glue_cookie_pairs r1 r2 (Hc eq_refl)).
Qed.

Lemma key_material_one_header (h : HeadlessProxy) (r1 r2 : Request)
    (pre post : list string) (hd : string) :
  Method r1 = Method r2 ->
  URL_Path (Url r1) = URL_Path (Url r2) ->
  RawQuery (Url r1) = RawQuery (Url r2) ->
  (ForwardCookies h = true -> cookie_pairs r1 = cookie_pairs r2) ->
  ForwardHeaders h = pre ++ hd :: post ->
  (forall header : string,
     In header (pre ++ post) ->
     Header_Get (Header_ r1) header = Header_Get (Header_ r2) header) ->
  Header_Get (Header_ r1) hd <> Header_Get (Header_ r2) hd ->
  key_material h r1 <> key_material h r2.
Proof.
  intros Hm Hp Hq Hc Hl Hothers Hhd.
  rewrite !key_material_glue, Hl, !glue_app, Hm, Hp, Hq. simpl.
  assert (Hpre : glue (forwarded_header r1) pre = glue (forwarded_header r2) pre).
  { apply glue_agree. intros x Hx. unfold forwarded_header.
    rewrite (Hothers x); [reflexivity|]. apply in_or_app. now left. }
  assert (Hpost : glue (forwarded_header r1) post = glue (forwarded_header r2) post).
  { apply glue_agree. intros x Hx. unfold forwarded_header.
    rewrite (Hothers x); [reflexivity|]. apply in_or_app. now right. }
  assert (Hcookies :
    (if ForwardCookies h then glue cookie_pair (Cookies r1) else "") =
    (if ForwardCookies h then glue cookie_pair (Cookies r2) else "")).
  { destruct (ForwardCookies h); [|reflexivity]. now apply glue_cookie_pairs, Hc. }
  rewrite Hpre, Hpost, Hcookies. intros H.
  rewrite !append_assoc in H.
  do 4 apply append_cancel_l in H.
  rewrite <- !append_assoc in H.
  apply append_cancel_r in H. apply append_cancel_r in H.
  now apply (forwarded_header_differs r1 r2 hd).
Qed.

(** The key is the digest in hexadecimal: two keys are equal exactly when
    the digests of the hashed bytes are. *)
Lemma getCacheKey_follows_digest (h : HeadlessProxy) (r1 r2 : Request) :
  Handler.getCacheKey sha256_Sum h r1 = Handler.getCacheKey sha256_Sum h r2 <->
  sha256_Sum (key_material h r1) = sha256_Sum (key_material h r2).
Proof.
  unfold Handler.getCacheKey. split; [apply hex_inj|intros ->; reflexivity].
Qed.

(** *** The cache file's key *)

Lemma fold_left_header_parts (r : Request) (l : list string) (acc : string) :
  fold_left
    (fun key headerKey =>
       let value := Header_Get (Header_ r) headerKey in
       if String.eqb value "" then key
       else key +:+ "|" +:+ headerKey +:+ ":" +:+ value)
    l acc = acc +:+ glue (CacheFile.header_part r) l.
Proof.
  revert acc. induction l as [|x l IH]; intros acc; simpl.
  - now rewrite append_nil_r.
  - rewrite IH. unfold CacheFile.header_part at 2.
    destruct (String.eqb (Header_Get (Header_ r) x) ""); simpl.
    + reflexivity.
    + now rewrite append_assoc.
Qed.

Lemma key_string_glue (h : HeadlessProxy) (r : Request) :
  CacheFile.key_string URL_String h r =
  URL_String (Url r) +:+ glue (CacheFile.header_part r) CacheFile.headerKeys +:+
  CacheFile.cookies_part h r.
Proof.
  unfold CacheFile.key_string, CacheFile.cookies_part.
  rewrite fold_left_header_parts.
  destruct (ForwardCookies h).
  - destruct (0 <? _)%Z.
    + now rewrite append_assoc.
    + now rewrite append_nil_r.
  - now rewrite append_nil_r.
Qed.

Lemma header_part_differs (r1 r2 : Request) (hd : string) :
  Header_Get (Header_ r1) hd <> Header_Get (Header_ r2) hd ->
  CacheFile.header_part r1 hd <> CacheFile.header_part r2 hd.
Proof.
  unfold CacheFile.header_part. intros Hne.
  destruct (String.eqb_spec (Header_Get (Header_ r1) hd) "") as [E1|E1],
           (String.eqb_spec (Header_Get (Header_ r2) hd) "") as [E2|E2].
  - congruence.
  - discriminate.
  - discriminate.
  - intros H. apply (append_cancel_l "|") in H. apply append_cancel_l in H.
    apply (append_cancel_l ":") in H. congruence.
Qed.

Lemma cookies_part_agree (h : HeadlessProxy) (r1 r2 : Request) :
  (ForwardCookies h = true -> cookie_pairs r1 = cookie_pairs r2) ->
  CacheFile.cookies_part h r1 = CacheFile.cookies_part h r2.
Proof.
  intros Hc. unfold CacheFile.cookies_part.
  destruct (ForwardCookies h); [|reflexivity].
  specialize (Hc eq_refl). unfold cookie_pairs in Hc.
  assert (Hsame :
    List.map (fun c => Name c +:+ "=" +:+ Value c) (Cookies r1) =
    List.map (fun c => Name c +:+ "=" +:+ Value c) (Cookies r2)).
  { revert Hc. generalize (Cookies r1) (Cookies r2).
    induction l as [|c l IH]; intros [|d l'] H; simpl in *; try discriminate.
    - reflexivity.
    - injection H as Hn Hv Hrest. now rewrite Hn, Hv, (IH l' Hrest). }
  now rewrite Hsame.
Qed.

Lemma key_string_agree (h : HeadlessProxy) (r1 r2 : Request) :
  URL_String (Url r1) = URL_String (Url r2) ->
  (ForwardCookies h = true -> cookie_pairs r1 = cookie_pairs r2) ->
  (forall header : string,
     In header CacheFile.headerKeys ->
     Header_Get (Header_ r1) header = Header_Get (Header_ r2) header) ->
  CacheFile.key_string URL_String h r1 = CacheFile.key_string URL_String h r2.
Proof.
  intros Hu Hc Hh. rewrite !key_string_glue, Hu.
  rewrite (glue_agree (CacheFile.header_part r1) (CacheFile.header_part r2)).
  2: { intros x Hx. unfold CacheFile.header_part. now rewrite (Hh x Hx). }
  now rewrite (cookies_part_agree h r1 r2 Hc).
Qed.

Lemma key_string_one_header (h : HeadlessProxy) (r1 r2 : Request)
    (pre post : list string) (hd : string) :
  URL_String (Url r1) = URL_String (Url r2) ->
  (ForwardCookies h = true -> cookie_pairs r1 = cookie_pairs r2) ->
  CacheFile.headerKeys = pre ++ hd :: post ->
  (forall header : string,
     In header (pre ++ post) ->
     Header_Get (Header_ r1) header = Header_Get (Header_ r2) header) ->
  Header_Get (Header_ r1) hd <> Header_Get (Header_ r2) hd ->
  CacheFile.key_string URL_String h r1 <> CacheFile.key_string URL_String h r2.
Proof.
  intros Hu Hc Hl Hothers Hhd.
  rewrite !key_string_glue, Hl, !glue_app, Hu. simpl.
  assert (Hpre : glue (CacheFile.header_part r1) pre =
                 glue (CacheFile.header_part r2) pre).
  { apply glue_agree. intros x Hx. unfold CacheFile.header_part.
    rewrite (Hothers x); [reflexivity|]. apply in_or_app. now left. }
  assert (Hpost : glue (CacheFile.header_part r1) post =
                  glue (CacheFile.header_part r2) post).
  { apply glue_agree. intros x Hx. unfold CacheFile.header_part.
    rewrite (Hothers x); [reflexivity|]. apply in_or_app. now right. }
  rewrite Hpre, Hpost, (cookies_part_agree h r1 r2 Hc). intros H.
  rewrite !append_assoc in H.
  do 2 apply append_cancel_l in H.
  rewrite <- !append_assoc in H.
  apply append_cancel_r in H. apply append_cancel_r in H.
  now apply (header_part_differs r1 r2 hd).
Qed.

(** C6 (amended): getCacheKey is a function of what it hashes.  For two
    requests with the same method, path and query and, when cookies are
    forwarded, the same cookie name/value pairs in the same order:
    with the same values of the allow-listed headers they get the same
    key, from the handler file's getCacheKey and, when [r.URL.String()]
    agrees too, from the cache file's; with different values of one
    allow-listed header and the same values of the others, other bytes
    are hashed, so the keys differ unless the digest collides.  Nothing
    is said of cookies in another order or of requests that differ in
    several allow-listed headers. *)
Theorem getCacheKey_deterministic (h : HeadlessProxy) (r1 r2 : Request) :
  Method r1 = Method r2 ->
  URL_Path (Url r1) = URL_Path (Url r2) ->
  RawQuery (Url r1) = RawQuery (Url r2) ->
  (ForwardCookies h = true -> cookie_pairs r1 = cookie_pairs r2) ->
  ((forall header : string,
      In header (ForwardHeaders h) ->
      Header_Get (Header_ r1) header = Header_Get (Header_ r2) header) ->
   Handler.getCacheKey sha256_Sum h r1 = Handler.getCacheKey sha256_Sum h r2) /\
  ((forall header : string,
      In header CacheFile.headerKeys ->
      Header_Get (Header_ r1) header = Header_Get (Header_ r2) header) ->
   URL_String (Url r1) = URL_String (Url r2) ->
   CacheFile.getCacheKey md5_Sum URL_String h r1 =
   CacheFile.getCacheKey md5_Sum URL_String h r2) /\
  (forall (pre post : list string) (hd : string),
     ForwardHeaders h = pre ++ hd :: post ->
     (forall header : string,
        In header (pre ++ post) ->
        Header_Get (Header_ r1) header = Header_Get (Header_ r2) header) ->
     Header_Get (Header_ r1) hd <> Header_Get (Header_ r2) hd ->
     key_material h r1 <> key_material h r2) /\
  (forall (pre post : list string) (hd : string),
     CacheFile.headerKeys = pre ++ hd :: post ->
     (forall header : string,
        In header (pre ++ post) ->
        Header_Get (Header_ r1) header = Header_Get (Header_ r2) header) ->
     Header_Get (Header_ r1) hd <> Header_Get (Header_ r2) hd ->
     URL_String (Url r1) = URL_String (Url r2) ->
     CacheFile.key_string URL_String h r1 <> CacheFile.key_string URL_String h r2).
Proof.
  intros Hm Hp Hq Hc. split; [|split; [|split]].
  - intros Hh. unfold Handler.getCacheKey. do 2 f_equal.
    now apply key_material_agree.
  - intros Hh Hu. unfold CacheFile.getCacheKey. rewrite Hm.
    destruct (negb _); [reflexivity|]. do 2 f_equal.
    now apply key_string_agree.
  - intros pre post hd Hl Hothers Hhd.
    now apply (key_material_one_header h r1 r2 pre post hd).
  - intros pre post hd Hl Hothers Hhd Hu.
    now apply (key_string_one_header h r1 r2 pre post hd).
Qed.

End KeyProperties.

Section KeyExamples.
Import Http Go Rod Handler Samples.

(** C6 (amended), on two visits that differ in the Accept header and in
    a cookie's domain only. *)
Lemma getCacheKey_deterministic_witness :
  ((forall header : string,
      In header (ForwardHeaders forwarding_proxy) ->
      Header_Get (Header_ first_visit) header =
      Header_Get (Header_ second_visit) header) ->
   Handler.getCacheKey plain_digest forwarding_proxy first_visit =
   Handler.getCacheKey plain_digest forwarding_proxy second_visit) /\
  ((forall header : string,
      In header CacheFile.headerKeys ->
      Header_Get (Header_ first_visit) header =
      Header_Get (Header_ second_visit) header) ->
   url_text (Url first_visit) = url_text (Url second_visit) ->
   CacheFile.getCacheKey plain_digest url_text forwarding_proxy first_visit =
   CacheFile.getCacheKey plain_digest url_text forwarding_proxy second_visit) /\
  (forall (pre post : list string) (hd : string),
     ForwardHeaders forwarding_proxy = pre ++ hd :: post ->
     (forall header : string,
        In header (pre ++ post) ->
        Header_Get (Header_ first_visit) header =
        Header_Get (Header_ second_visit) header) ->
     Header_Get (Header_ first_visit) hd <> Header_Get (Header_ second_visit) hd ->
     key_material forwarding_proxy first_visit <>
     key_material forwarding_proxy second_visit) /\
  (forall (pre post : list string) (hd : string),
     CacheFile.headerKeys = pre ++ hd :: post ->
     (forall header : string,
        In header (pre ++ post) ->
        Header_Get (Header_ first_visit) header =
        Header_Get (Header_ second_visit) header) ->
     Header_Get (Header_ first_visit) hd <> Header_Get (Header_ second_visit) hd ->
     url_text (Url first_visit) = url_text (Url second_visit) ->
     CacheFile.key_string url_text forwarding_proxy first_visit <>
     CacheFile.key_string url_text forwarding_proxy second_visit).
Proof.
  apply (getCacheKey_deterministic plain_digest plain_digest url_text
           forwarding_proxy first_visit second_visit).
  - reflexivity.
  - reflexivity.
  - reflexivity.
  - intros _. reflexivity.
Defined.

(** The two visits do get the same key from both declarations. *)
Lemma two_visits_same_key :
  Handler.getCacheKey plain_digest forwarding_proxy first_visit =
  Handler.getCacheKey plain_digest forwarding_proxy second_visit /\
  CacheFile.getCacheKey plain_digest url_text forwarding_proxy first_visit =
  CacheFile.getCacheKey plain_digest url_text forwarding_proxy second_visit.
Proof. split; vm_compute; reflexivity. Qed.

(** Two requests that spread the same bytes over the two forwarded
    headers differently hash the same bytes. *)
Lemma glued_header_material :
  key_material forwarding_proxy glued_header =
  key_material forwarding_proxy split_headers.
Proof. vm_compute. reflexivity. Qed.

(** The same cookies in another order hash other bytes. *)
Lemma cookie_order_changes_material :
  key_material forwarding_proxy (request_with ∅ [cookie_a; cookie_b]) <>
  key_material forwarding_proxy (request_with ∅ [cookie_b; cookie_a]) /\
  CacheFile.key_string url_text forwarding_proxy (request_with ∅ [cookie_a; cookie_b]) <>
  CacheFile.key_string url_text forwarding_proxy (request_with ∅ [cookie_b; cookie_a]).
Proof. split; vm_compute; discriminate. Qed.

(** C6 as stated fails: requests that differ in the value of an
    allow-listed header can get the same key, under every digest, from
    the handler file's getCacheKey and from the cache file's. *)
Lemma distinct_header_values_same_key :
  In "X-A" (ForwardHeaders forwarding_proxy) /\
  Header_Get (Header_ glued_header) "X-A" <>
    Header_Get (Header_ split_headers) "X-A" /\
  (forall sha256_Sum : string -> string,
     Handler.getCacheKey sha256_Sum forwarding_proxy glued_header =
     Handler.getCacheKey sha256_Sum forwarding_proxy split_headers) /\
  In "Accept-Language" CacheFile.headerKeys /\
  Header_Get (Header_ glued_language) "Accept-Language" <>
    Header_Get (Header_ language_and_agent) "Accept-Language" /\
  (forall (md5_Sum : string -> string) (URL_String : URL -> string),
     CacheFile.getCacheKey md5_Sum URL_String forwarding_proxy glued_language =
     CacheFile.getCacheKey md5_Sum URL_String forwarding_proxy language_and_agent).
Proof.
  split; [now left|]. split; [vm_compute; discriminate|].
  split; [intros sha; unfold Handler.getCacheKey; now rewrite glued_header_material|].
  split; [now left|]. split; [vm_compute; discriminate|].
  intros md5 url. unfold CacheFile.getCacheKey. simpl. do 2 f_equal.
  unfold CacheFile.key_string.
  change (Url language_and_agent) with (Url glued_language).
  generalize (url (Url glued_language)). intros u.
  symmetry. exact (append_assoc u "|Accept-Language:en" "|User-Agent:x").
Qed.

End KeyExamples.

(** ** The health check *)

Section HealthProperties.
Import Http Go Rod Handler Health.

Variable probe : Browser -> bool.
Variable relaunch : nat -> launch_outcome.

Lemma check_one_length (i : nat) (b : Browser) (s : Sweep) :
  length (pool (check_one probe relaunch i b s).1) = length (pool s).
Proof.
  unfold check_one. destruct (isBrowserHealthy probe b); [reflexivity|].
  destruct (Inc _); simpl; [|reflexivity].
  destruct (createBrowser (relaunch i)) as [[nb|]|msg]; simpl; try reflexivity.
  destruct (Inc _); simpl; apply length_insert.
Qed.

Lemma check_from_length (snapshot : list Browser) (i : nat) (s : Sweep) :
  length (pool (check_from probe relaunch i snapshot s).1) = length (pool s).
Proof.
  revert i s. induction snapshot as [|b rest IH]; intros i s; simpl.
  - reflexivity.
  - pose proof (check_one_length i b s) as H.
    destruct (check_one probe relaunch i b s) as [s' [[]|msg]]; simpl in *.
    + now rewrite IH.
    + exact H.
Qed.

(** X18: checkBrowsersHealth never changes the number of browsers in
    the pool, also when a launch panics in the middle of the loop. *)
Lemma checkBrowsersHealth_size (h : HeadlessProxy) (m : Metrics) :
  length (browserPool (checkBrowsersHealth probe relaunch h m).1.1) =
  length (browserPool h).
Proof.
  unfold checkBrowsersHealth.
  pose proof (check_from_length (browserPool h) 0
                {| pool := browserPool h; healthyCount := 0;
                   unhealthyCount := 0; closed := []; created := [];
                   counters := m |}) as H.
  destruct (check_from _ _ _ _ _) as [s r]. simpl in *. exact H.
Qed.

(** With every counter registered, an iteration whose launch does not
    panic runs to its end and leaves the counters registered. *)
Lemma check_one_registered (i : nat) (b : Browser) (s : Sweep) :
  registered (counters s) = true ->
  relaunch i <> MustLaunch_panics ->
  exists s' : Sweep,
    check_one probe relaunch i b s = (s', Done tt) /\
    registered (counters s') = true /\
    pool s' = (if probe b then pool s
               else match relaunch i with
                    | Connected nb => <[i := nb]> (pool s)
                    | _ => pool s
                    end) /\
    closed s' = closed s ++ (if probe b then [] else [b]).
Proof.
  intros Hreg Hlaunch. unfold check_one, isBrowserHealthy.
  destruct s as [p hc uc cl cr [ch cm cc clo]]. unfold registered in Hreg.
  simpl in *.
  destruct ch, cm, cc, clo; try discriminate.
  destruct (probe b).
  - eexists. split; [reflexivity|]. simpl. now rewrite app_nil_r.
  - destruct (relaunch i) as [| |nb]; [contradiction| |]; simpl;
      eexists; (split; [reflexivity|]); simpl; auto.
Qed.

Lemma check_from_slots (snapshot : list Browser) :
  (forall i : nat, relaunch i <> MustLaunch_panics) ->
  forall (before : list Browser) (s : Sweep),
    registered (counters s) = true ->
    pool s = before ++ snapshot ->
    pool (check_from probe relaunch (length before) snapshot s).1 =
      before ++ imap (fun k => slot_after probe relaunch (length before + k)) snapshot /\
    closed (check_from probe relaunch (length before) snapshot s).1 =
      closed s ++ filter (fun b => probe b = false) snapshot /\
    (check_from probe relaunch (length before) snapshot s).2 = Done tt /\
    registered (counters (check_from probe relaunch (length before) snapshot s).1) = true.
Proof.
  intros Hlaunch. induction snapshot as [|b rest IH]; intros before s Hreg Hpool; simpl.
  - rewrite Hpool, !app_nil_r. auto.
  - destruct (check_one_registered (length before) b s Hreg (Hlaunch _))
      as (s' & E & Hreg' & Hp & Hc).
    rewrite E.
    assert (Hp' : pool s' =
              (before ++ [slot_after probe relaunch (length before) b]) ++ rest).
    { rewrite Hp, Hpool. unfold slot_after, isBrowserHealthy.
      rewrite <- app_assoc. simpl.
      destruct (probe b); [reflexivity|].
      destruct (relaunch (length before)) as [| |nb]; try reflexivity.
      rewrite insert_app_r_alt by lia. now rewrite Nat.sub_diag. }
    assert (Hc' : closed s' = closed s ++ filter (fun b => probe b = false) [b]).
    { rewrite Hc, (filter_cons (fun b => probe b = false) b []).
      destruct (probe b); destruct (decide _); try congruence; reflexivity. }
    replace (S (length before))
      with (length (before ++ [slot_after probe relaunch (length before) b]))
      by (rewrite length_app; simpl; lia).
    destruct (IH _ s' Hreg' Hp') as (H1 & H2 & H3 & H4).
    rewrite H1, H2, H3, Hc'. rewrite <- !app_assoc. simpl.
    rewrite Nat.add_0_r. split; [|split; [|split; [reflexivity|exact H4]]].
    + f_equal. f_equal. apply imap_ext. intros k x _.
      rewrite length_app. simpl. f_equal. lia.
    + f_equal. change (b :: rest) with ([b] ++ rest). now rewrite filter_app.
Qed.

(** When the counters are registered and no launch panics, the check
    returns, every slot holds [slot_after] of what it held, the browsers
    that failed the probe are the ones closed, and the counters are
    still registered. *)
Lemma checkBrowsersHealth_slots (h : HeadlessProxy) (m : Metrics) :
  registered m = true ->
  (forall i : nat, relaunch i <> MustLaunch_panics) ->
  browserPool (checkBrowsersHealth probe relaunch h m).1.1 =
    imap (slot_after probe relaunch) (browserPool h) /\
  closed (checkBrowsersHealth probe relaunch h m).1.2 =
    filter (fun b => probe b = false) (browserPool h) /\
  (exists counts : Z * Z,
     (checkBrowsersHealth probe relaunch h m).2 = Done counts) /\
  registered (counters (checkBrowsersHealth probe relaunch h m).1.2) = true.
Proof.
  intros Hreg Hlaunch. unfold checkBrowsersHealth.
  pose proof (check_from_slots (browserPool h) Hlaunch []
                {| pool := browserPool h; healthyCount := 0;
                   unhealthyCount := 0; closed := []; created := [];
                   counters := m |}
                Hreg eq_refl) as (H1 & H2 & H3 & H4).
  simpl in H1, H2, H3, H4.
  destruct (check_from _ _ _ _ _) as [s r]. simpl in *. subst r.
  rewrite H1, H2. eauto.
Qed.

(** X19: when the counters are registered and no launch panics, a
    browser that fails the probe and whose replacement cannot be
    connected to is closed and still sits in its slot afterwards. *)
Lemma closed_browser_stays (h : HeadlessProxy) (m : Metrics) (i : nat)
    (b : Browser) :
  registered m = true ->
  (forall k : nat, relaunch k <> MustLaunch_panics) ->
  browserPool h !! i = Some b ->
  probe b = false ->
  relaunch i = Connect_fails ->
  browserPool (checkBrowsersHealth probe relaunch h m).1.1 !! i = Some b /\
  In b (closed (checkBrowsersHealth probe relaunch h m).1.2).
Proof.
  intros Hreg Hlaunch Hi Hp Hr.
  destruct (checkBrowsersHealth_slots h m Hreg Hlaunch) as (-> & -> & _). split.
  - rewrite list_lookup_imap, Hi. simpl.
    unfold slot_after, isBrowserHealthy. now rewrite Hp, Hr.
  - apply list_elem_of_In, list_elem_of_filter. split; [assumption|].
    now apply list_elem_of_lookup_2 in Hi.
Qed.

End HealthProperties.

Section HealthExamples.
Import Http Go Rod Handler Health Samples.

(** The pool of three browsers is one the package reaches: Provision
    whose warm-up browser cannot be connected to, then three requests in
    flight at once. *)
Lemma three_browsers_reached :
  Provision (set_cache roomy_proxy None) Connect_fails = Done roomy_proxy /\
  three_browsers = set_browserPool roomy_proxy [1%nat; 2%nat; 3%nat] /\
  (pool_size three_browsers <= MaxBrowsers three_browsers)%Z.
Proof.
  split; [reflexivity|]. split; [reflexivity|]. vm_compute. discriminate.
Qed.

(** C7: the health check on a pool of three browsers of which the second
    and the third fail the probe; a replacement can be launched for the
    second slot only.  With the counters registered both are closed, the
    second slot gets the new browser 8, and the closed browser 3 is
    still the third member of the pool.  With the counters nil, as the
    zero value of the struct has them, the call panics once browser 2
    is closed: no replacement is launched and the closed browser 2 is
    still the second member of the pool. *)
Theorem failed_replacement_keeps_closed_browser :
  checkBrowsersHealth probe_23_down relaunch_slot_1_only three_browsers
    fresh_counters =
  (set_browserPool roomy_proxy [1%nat; 8%nat; 3%nat],
   {| pool := [1%nat; 8%nat; 3%nat]; healthyCount := 1; unhealthyCount := 2;
      closed := [2%nat; 3%nat]; created := [8%nat];
      counters := {| cacheHits := Some 0%float; cacheMisses := Some 0%float;
                     browserCreatedTotal := Some 1%float;
                     browserClosedTotal := Some 2%float |} |},
   Done (1%Z, 2%Z)) /\
  checkBrowsersHealth probe_23_down relaunch_slot_1_only three_browsers
    no_counters =
  (set_browserPool roomy_proxy [1%nat; 2%nat; 3%nat],
   {| pool := [1%nat; 2%nat; 3%nat]; healthyCount := 1; unhealthyCount := 1;
      closed := [2%nat]; created := []; counters := no_counters |},
   Panic nil_dereference).
Proof. split; vm_compute; reflexivity. Qed.

End HealthExamples.

(** ** detectContentType *)

Section DetectProperties.
Import Go Utils.

Variable DetectContentType : string -> string.

Lemma slice_to_in_range (c : ByteSlice) (high : nat) :
  (high <= cap c)%nat ->
  slice_to c high = Done {| array := array c; len := high |}.
Proof.
  intros H. unfold slice_to.
  destruct (high <=? cap c)%nat eqn:E; [reflexivity|].
  apply Nat.leb_gt in E. lia.
Qed.

Lemma slice_to_out_of_range (c : ByteSlice) (high : nat) :
  (cap c < high)%nat ->
  slice_to c high = Panic "slice bounds out of range".
Proof.
  intros H. unfold slice_to.
  destruct (high <=? cap c)%nat eqn:E; [|reflexivity].
  apply Nat.leb_le in E. lia.
Qed.

(** Past the JSON test, a plain-text input is classified through the
    slice expression [content[:100]]. *)
Lemma detect_through_slice (c : ByteSlice) :
  DetectContentType (bytes c) = text_plain ->
  first_is c "{" = false ->
  first_is c "[" = false ->
  (forall msg : string,
     slice_to c 100 = Panic msg ->
     detectContentType DetectContentType c = Panic msg) /\
  (forall head : ByteSlice,
     slice_to c 100 = Done head ->
     exists ct : string, detectContentType DetectContentType c = Done ct).
Proof.
  intros Hplain Hbrace Hbracket. unfold detectContentType.
  rewrite Hplain, Hbrace, Hbracket. simpl. rewrite andb_false_r.
  split.
  - intros msg ->. now destruct (_ && _).
  - intros head ->.
    destruct (_ && _); repeat (case_match; eauto).
Qed.

(** C10 (amended): detectContentType is not total.  For a slice shorter
    than 100 bytes that sniffs as plain text and does not start with a
    brace or a bracket, it evaluates [content[:100]]: when the capacity is
    below 100 as well, that expression is out of range and the call
    panics; when the capacity is at least 100 it is in range and the call
    returns a content type.  For a slice of at least 100 bytes the call
    always returns a content type. *)
Theorem detectContentType_partial (c : ByteSlice) :
  well_formed c ->
  ((len c < 100)%nat ->
   DetectContentType (bytes c) = text_plain ->
   first_is c "{" = false ->
   first_is c "[" = false ->
   ((cap c < 100)%nat ->
      detectContentType DetectContentType c = Panic "slice bounds out of range") /\
   ((100 <= cap c)%nat ->
      exists ct : string, detectContentType DetectContentType c = Done ct)) /\
  ((100 <= len c)%nat ->
   exists ct : string, detectContentType DetectContentType c = Done ct).
Proof.
  intros Hwf. split.
  - intros _ Hplain Hbrace Hbracket.
    destruct (detect_through_slice c Hplain Hbrace Hbracket) as [Hpanic Hdone].
    split; intros Hcap.
    + apply Hpanic. now apply slice_to_out_of_range.
    + eapply Hdone. now apply slice_to_in_range.
  - intros Hlen. unfold well_formed in Hwf.
    unfold detectContentType.
    rewrite (slice_to_in_range c 100) by lia.
    repeat (case_match; eauto).
Qed.

End DetectProperties.

Section DetectExamples.
Import Go Utils Samples.

(** C10 (amended), on three bytes with no spare capacity. *)
Lemma detectContentType_partial_witness :
  ((len abc_exact < 100)%nat ->
   sniff_plain (bytes abc_exact) = text_plain ->
   first_is abc_exact "{" = false ->
   first_is abc_exact "[" = false ->
   ((cap abc_exact < 100)%nat ->
      detectContentType sniff_plain abc_exact = Panic "slice bounds out of range") /\
   ((100 <= cap abc_exact)%nat ->
      exists ct : string, detectContentType sniff_plain abc_exact = Done ct)) /\
  ((100 <= len abc_exact)%nat ->
   exists ct : string, detectContentType sniff_plain abc_exact = Done ct).
Proof.
  apply (detectContentType_partial sniff_plain abc_exact).
  unfold well_formed. vm_compute. reflexivity.
Defined.

(** Three bytes with no spare capacity: the call panics. *)
Lemma abc_exact_panics :
  detectContentType sniff_plain abc_exact = Panic "slice bounds out of range".
Proof. vm_compute. reflexivity. Qed.

(** The same three bytes in a 512-byte buffer: the call returns. *)
Lemma abc_in_buffer_returns :
  detectContentType sniff_plain abc_in_buffer = Done text_plain.
Proof. vm_compute. reflexivity. Qed.

(** C10 as stated fails: not every short plain-text slice makes the call
    panic; the three bytes cut from a 512-byte buffer are classified. *)
Lemma short_slice_with_room_is_classified :
  ~ (forall (DetectContentType : string -> string) (c : ByteSlice),
       well_formed c ->
       (len c < 100)%nat ->
       DetectContentType (bytes c) = text_plain ->
       first_is c "{" = false ->
       first_is c "[" = false ->
       exists msg : string,
         detectContentType DetectContentType c = Panic msg).
Proof.
  intros claim.
  destruct (claim sniff_plain abc_in_buffer) as [msg Hmsg].
  - unfold well_formed. vm_compute. apply Nat.leb_le. reflexivity.
  - vm_compute. apply Nat.leb_le. reflexivity.
  - reflexivity.
  - reflexivity.
  - reflexivity.
  - rewrite abc_in_buffer_returns in Hmsg. discriminate Hmsg.
Qed.

End DetectExamples.

(** * Further properties of the code *)

(** ** The life of the pool *)

Section PoolLifeCycle.
Import Http Go Rod Handler.

Lemma Provision_result (h : HeadlessProxy) (o : launch_outcome) (h' : HeadlessProxy) :
  Provision h o = Done h' ->
  (1 <= MaxBrowsers h')%Z /\
  (pool_size h' <= 1)%Z /\
  ((0 < CacheTTL h)%Z -> cache h' = Some ∅) /\
  CacheTTL h' = CacheTTL h.
Proof.
  unfold Provision, initBrowserPool, pool_size.
  destruct (createBrowser o) as [[b|]|msg]; intros [= <-]; simpl;
    (split; [destruct (MaxBrowsers h <=? 0)%Z eqn:E; [lia|apply Z.leb_gt in E; lia]|]);
    (split; [lia|]); (split; [|reflexivity]);
    intros Httl; destruct (0 <? CacheTTL h)%Z eqn:E; try reflexivity;
    apply Z.ltb_ge in E; lia.
Qed.

(** X1: whatever the configuration, a handler that Provision has set up
    has room for at least one browser and holds at most one, and after any
    sequence of getBrowser and returnBrowser calls its pool holds between
    0 and MaxBrowsers browsers. *)
Theorem provisioned_pool_stays_bounded (h : HeadlessProxy) (o : launch_outcome)
    (h' : HeadlessProxy) (ops : list PoolOp) :
  Provision h o = Done h' ->
  (1 <= MaxBrowsers h')%Z /\
  (pool_size h' <= 1)%Z /\
  (0 <= pool_size (pool_run h' ops) <= MaxBrowsers h')%Z.
Proof.
  intros HP. destruct (Provision_result h o h' HP) as (Hmax & Hsize & _).
  split; [assumption|]. split; [assumption|].
  destruct (pool_run_bound ops h') as [Hle Heq]; [lia|].
  split; [unfold pool_size; lia|lia].
Qed.

(** X1, on the handler with one warm browser and through [busy_hour]. *)
Lemma provisioned_pool_stays_bounded_witness :
  (1 <= MaxBrowsers Samples.caching_proxy)%Z /\
  (pool_size Samples.caching_proxy <= 1)%Z /\
  (0 <= pool_size (pool_run Samples.caching_proxy Samples.busy_hour)
     <= MaxBrowsers Samples.caching_proxy)%Z.
Proof.
  apply (provisioned_pool_stays_bounded Samples.caching_proxy (Connected 1%nat)).
  reflexivity.
Defined.

(** X2: taking a browser from a non-empty pool that is within MaxBrowsers
    and returning it puts the handler back exactly as it was: getBrowser
    hands out the last browser of the pool and returnBrowser appends it
    again, closing nothing. *)
Theorem acquire_then_release_restores (h : HeadlessProxy) (o : launch_outcome) :
  browserPool h <> [] ->
  (pool_size h <= MaxBrowsers h)%Z ->
  exists b : Browser,
    last (browserPool h) = Some b /\
    (getBrowser h o).2 = Done (Some b) /\
    returnBrowser (getBrowser h o).1 b = (h, None).
Proof.
  intros Hne Hb.
  destruct (browserPool h) as [|x l] eqn:Hp using rev_ind; [congruence|].
  clear IHl. exists x.
  rewrite (getBrowser_snoc h l x o Hp). simpl. split; [apply last_snoc|].
  split; [reflexivity|].
  rewrite returnBrowser_room.
  - rewrite set_browserPool_twice.
    change (browserPool (set_browserPool h l)) with l.
    now rewrite <- Hp, set_browserPool_same.
  - unfold pool_size in *. simpl. rewrite Hp, length_app in Hb. simpl in Hb. lia.
Qed.

(** X2, on the handler with one warm browser. *)
Lemma acquire_then_release_restores_witness :
  exists b : Browser,
    last (browserPool Samples.caching_proxy) = Some b /\
    (getBrowser Samples.caching_proxy Connect_fails).2 = Done (Some b) /\
    returnBrowser (getBrowser Samples.caching_proxy Connect_fails).1 b =
      (Samples.caching_proxy, None).
Proof.
  apply (acquire_then_release_restores Samples.caching_proxy Connect_fails).
  - discriminate.
  - vm_compute. discriminate.
Defined.

(** X3: Cleanup closes exactly the browsers that sit in the pool and
    leaves the pool empty, so the next getBrowser launches a browser.  It
    does not stop the pool from being used: a browser that was checked
    out when Cleanup ran is appended to the emptied pool by returnBrowser,
    not closed, as long as MaxBrowsers is positive. *)
Theorem cleanup_forgets_checked_out_browsers (h : HeadlessProxy) (b : Browser)
    (o : launch_outcome) :
  (Cleanup h).2 = browserPool h /\
  browserPool (Cleanup h).1 = [] /\
  getBrowser (Cleanup h).1 o = ((Cleanup h).1, createBrowser o) /\
  ((0 < MaxBrowsers h)%Z ->
   returnBrowser (Cleanup h).1 b = (set_browserPool h [b], None)) /\
  ((MaxBrowsers h <= 0)%Z ->
   returnBrowser (Cleanup h).1 b = ((Cleanup h).1, Some b)).
Proof.
  unfold Cleanup. simpl. split; [reflexivity|]. split; [reflexivity|].
  split; [|split].
  - now apply getBrowser_empty.
  - intros Hm. rewrite returnBrowser_room; [reflexivity|]. unfold pool_size. simpl. lia.
  - intros Hm. apply returnBrowser_full. unfold pool_size. simpl. lia.
Qed.

End PoolLifeCycle.

(** ** The life of a cache entry *)

Section CacheLifeCycle.
Import Http Go Rod Handler.

Variable sha256_Sum md5_Sum : string -> string.
Variable URL_String : URL -> string.

Lemma seconds_in_range (n : Z) :
  (0 < n <= 9223372036)%Z -> seconds n = (n * 1000000000)%Z.
Proof.
  intros H. unfold seconds, wrap64, Second.
  rewrite (Z.mod_small (n + 2 ^ 63)) by lia.
  replace (n + 2 ^ 63 - 2 ^ 63)%Z with n by lia.
  rewrite Z.mod_small by lia. lia.
Qed.

(** What a store does when caching is on and the map exists: the sweep,
    if the map holds more than 1000 entries, and then the assignment. *)
Lemma handler_store_succeeds (h : HeadlessProxy) (g : gmap string cacheEntry)
    (now_sweep now : Z) (r : Request) (content : string) (headers : Header)
    (statusCode : Z) :
  (0 < CacheTTL h)%Z ->
  cache h = Some g ->
  Handler.setCachedResponse sha256_Sum h now_sweep now r content headers statusCode =
  Done (set_cache h
          (Some (<[Handler.getCacheKey sha256_Sum h r :=
                     {| Content := content; Headers := headers;
                        StatusCode := statusCode;
                        Expiration := Time_Add now (seconds (CacheTTL h)) |}]>
                   (if (1000 <? Z.of_nat (size g))%Z
                    then filter (fun kv : string * cacheEntry =>
                                   Time_After now_sweep (Expiration kv.2) = false) g
                    else g)))).
Proof.
  intros Httl Hg. unfold Handler.setCachedResponse.
  destruct (CacheTTL h <=? 0)%Z eqn:E; [apply Z.leb_le in E; lia|].
  rewrite Hg. simpl. now destruct (1000 <? _)%Z.
Qed.

(** X4: with a TTL between 1 and 9223372036 seconds (so that the
    duration does not wrap) and the cache map in place, the handler
    file's setCachedResponse returns, and getCachedResponse then answers
    the same request with the stored content, headers and status at every
    instant before the time of storing plus the TTL; from that instant on
    it answers a miss and deletes the entry, leaving the others alone. *)
Theorem handler_cache_serves_until_expiry (h : HeadlessProxy)
    (g : gmap string cacheEntry) (now_sweep stored : Z) (r : Request)
    (content : string) (headers : Header) (statusCode : Z) :
  (0 < CacheTTL h <= 9223372036)%Z ->
  cache h = Some g ->
  exists h' : HeadlessProxy,
    Handler.setCachedResponse sha256_Sum h now_sweep stored r content headers
      statusCode = Done h' /\
    (forall now : Z,
       (now < stored + CacheTTL h * 1000000000)%Z ->
       Handler.getCachedResponse sha256_Sum h' now r =
         (h', Some (content, headers, statusCode))) /\
    (forall now : Z,
       (stored + CacheTTL h * 1000000000 <= now)%Z ->
       (Handler.getCachedResponse sha256_Sum h' now r).2 = None /\
       forall k : string,
         map_get (cache (Handler.getCachedResponse sha256_Sum h' now r).1) k =
         if String.eqb k (Handler.getCacheKey sha256_Sum h r) then None
         else map_get (cache h') k).
Proof.
  intros Httl Hg.
  rewrite (handler_store_succeeds h g now_sweep stored r content headers statusCode)
    by (assumption || lia).
  set (g' := if (1000 <? Z.of_nat (size g))%Z then _ else g).
  eexists. split; [reflexivity|].
  assert (Hget : forall now : Z,
            Handler.getCachedResponse sha256_Sum
              (set_cache h (Some (<[Handler.getCacheKey sha256_Sum h r :=
                  {| Content := content; Headers := headers; StatusCode := statusCode;
                     Expiration := Time_Add stored (seconds (CacheTTL h)) |}]> g')))
              now r =
            if (now <? stored + CacheTTL h * 1000000000)%Z
            then (set_cache h (Some (<[Handler.getCacheKey sha256_Sum h r :=
                  {| Content := content; Headers := headers; StatusCode := statusCode;
                     Expiration := Time_Add stored (seconds (CacheTTL h)) |}]> g')),
                  Some (content, headers, statusCode))
            else (set_cache h
                    (Some (delete (Handler.getCacheKey sha256_Sum h r)
                             (<[Handler.getCacheKey sha256_Sum h r :=
                  {| Content := content; Headers := headers; StatusCode := statusCode;
                     Expiration := Time_Add stored (seconds (CacheTTL h)) |}]> g'))),
                  None)).
  { intros now. unfold Handler.getCachedResponse. simpl.
    destruct (CacheTTL h <=? 0)%Z eqn:E; [apply Z.leb_le in E; lia|].
    change (Handler.getCacheKey sha256_Sum (set_cache h _) r)
      with (Handler.getCacheKey sha256_Sum h r).
    rewrite lookup_insert_eq. simpl.
    unfold Time_Before, Time_Add. rewrite (seconds_in_range _ Httl).
    now destruct (now <? _)%Z. }
  split; intros now Hnow; rewrite Hget.
  - destruct (now <? _)%Z eqn:E2; [reflexivity|apply Z.ltb_ge in E2; lia].
  - destruct (now <? _)%Z eqn:E2; [apply Z.ltb_lt in E2; lia|]. simpl.
    split; [reflexivity|]. intros k.
    destruct (String.eqb k _) eqn:Ek.
    + apply String.eqb_eq in Ek. subst k. apply lookup_delete_eq.
    + apply String.eqb_neq in Ek. rewrite lookup_delete_ne by congruence. reflexivity.
Qed.

(** X5: the handler file's setCachedResponse panics exactly when caching
    is on and the cache map is nil, on the assignment; a nil map is only
    read by getCachedResponse, which answers a miss.  Provision makes the
    map whenever CacheTTL is positive, so on a handler it has set up the
    store returns. *)
Theorem handler_store_needs_the_map (h : HeadlessProxy) (now_sweep now : Z)
    (r : Request) (content : string) (headers : Header) (statusCode : Z) :
  (Handler.setCachedResponse sha256_Sum h now_sweep now r content headers statusCode
     = Panic "assignment to entry in nil map" <->
   (0 < CacheTTL h)%Z /\ cache h = None) /\
  (forall msg : string,
     Handler.setCachedResponse sha256_Sum h now_sweep now r content headers
       statusCode = Panic msg ->
     msg = "assignment to entry in nil map") /\
  (cache h = None -> Handler.getCachedResponse sha256_Sum h now r = (h, None)) /\
  (forall (h0 : HeadlessProxy) (o : launch_outcome),
     Provision h0 o = Done h ->
     exists h' : HeadlessProxy,
       Handler.setCachedResponse sha256_Sum h now_sweep now r content headers
         statusCode = Done h').
Proof.
  assert (Hiff : Handler.setCachedResponse sha256_Sum h now_sweep now r content
                   headers statusCode = Panic "assignment to entry in nil map" <->
                 (0 < CacheTTL h)%Z /\ cache h = None).
  { unfold Handler.setCachedResponse.
    destruct (CacheTTL h <=? 0)%Z eqn:E.
    - apply Z.leb_le in E. split; [discriminate|]. intros [H _]. lia.
    - apply Z.leb_gt in E. destruct (cache h) as [g|]; simpl.
      + split; [|intros [_ H]; discriminate].
        destruct (1000 <? _)%Z; discriminate.
      + destruct (1000 <? 0)%Z; simpl; split; auto. }
  assert (Hmsg : forall msg : string,
            Handler.setCachedResponse sha256_Sum h now_sweep now r content headers
              statusCode = Panic msg ->
            msg = "assignment to entry in nil map").
  { intros msg. unfold Handler.setCachedResponse.
    destruct (CacheTTL h <=? 0)%Z; [discriminate|].
    destruct (map_assign _ _ _) as [c|m] eqn:E2; [discriminate|].
    intros [= <-]. revert E2. unfold map_assign.
    destruct (if (1000 <? map_len (cache h))%Z then _ else _); [discriminate|].
    now intros [= <-]. }
  split; [exact Hiff|]. split; [exact Hmsg|]. split.
  - intros Hc. unfold Handler.getCachedResponse. rewrite Hc. simpl.
    now destruct (CacheTTL h <=? 0)%Z.
  - intros h0 o HP.
    destruct (Handler.setCachedResponse sha256_Sum h now_sweep now r content
                headers statusCode) as [h'|msg] eqn:E; [now exists h'|].
    exfalso. rewrite (Hmsg msg eq_refl) in Hiff.
    destruct (proj1 Hiff eq_refl) as [Httl Hnil].
    destruct (Provision_result h0 o h HP) as (_ & _ & Hmap & Hsame).
    rewrite Hmap in Hnil by lia. discriminate.
Qed.

(** X6: the handler file's setCachedResponse never drops an entry that
    has not expired.  An entry under another key is still there after the
    store if the map held at most 1000 entries or the entry's expiry is
    not before the instant the sweep reads; it is gone if the map held
    more than 1000 entries and the entry had expired. *)
Theorem handler_store_keeps_live_entries (h : HeadlessProxy)
    (g : gmap string cacheEntry) (now_sweep now : Z) (r : Request)
    (content : string) (headers : Header) (statusCode : Z)
    (k : string) (e : cacheEntry) :
  (0 < CacheTTL h)%Z ->
  cache h = Some g ->
  g !! k = Some e ->
  k <> Handler.getCacheKey sha256_Sum h r ->
  exists h' : HeadlessProxy,
    Handler.setCachedResponse sha256_Sum h now_sweep now r content headers
      statusCode = Done h' /\
    ((Z.of_nat (size g) <= 1000)%Z \/ (now_sweep <= Expiration e)%Z ->
     map_get (cache h') k = Some e) /\
    ((1000 < Z.of_nat (size g))%Z -> (Expiration e < now_sweep)%Z ->
     map_get (cache h') k = None).
Proof.
  intros Httl Hg Hk Hne.
  rewrite (handler_store_succeeds h g now_sweep now r content headers statusCode
             Httl Hg).
  eexists. split; [reflexivity|]. simpl. rewrite lookup_insert_ne by congruence.
  destruct (1000 <? Z.of_nat (size g))%Z eqn:E.
  - apply Z.ltb_lt in E. split.
    + intros [H|H]; [lia|].
      apply map_lookup_filter_Some. split; [assumption|]. simpl.
      unfold Time_After. apply Z.ltb_ge. lia.
    + intros _ H. apply map_lookup_filter_None. right. intros x Hx. simpl.
      rewrite Hk in Hx. injection Hx as <-. unfold Time_After.
      intros Hf. apply Z.ltb_ge in Hf. lia.
  - apply Z.ltb_ge in E. split; [auto|]. intros H. lia.
Qed.

Lemma map_fold_copy (hd : Header) :
  map_fold (fun k v (acc : Header) => <[k := v]> acc) ∅ hd = hd.
Proof.
  apply (map_fold_weak_ind (fun (b m : Header) => b = m)); [reflexivity|].
  intros i x m r _ ->. reflexivity.
Qed.

Lemma hex_nonempty (s : string) : s <> "" -> hex_EncodeToString s <> "".
Proof. destruct s; [congruence|discriminate]. Qed.

(** X7: the cache file's helpers, for a GET request whose response has a
    status from 200 to 299 and no no-store or no-cache in Cache-Control,
    with a TTL between 1 and 9223372036 seconds, the map in place, a
    digest that is not empty and a sweep that reads the clock no later
    than the new entry's expiry: setCachedResponse returns, and
    getCachedResponse then answers the same request with the stored
    content, a copy of the headers and the status at every instant up to
    and including the expiry, and a miss after it; it never changes the
    handler. *)
Theorem cache_file_serves_through_expiry (h : HeadlessProxy)
    (g : gmap string cacheEntry) (now_sweep stored : Z) (r : Request)
    (content : string) (headers : Header) (statusCode : Z) :
  (0 < CacheTTL h <= 9223372036)%Z ->
  cache h = Some g ->
  Method r = MethodGet ->
  (200 <= statusCode < 300)%Z ->
  Contains (Header_Get headers "Cache-Control") "no-store" = false ->
  Contains (Header_Get headers "Cache-Control") "no-cache" = false ->
  md5_Sum (CacheFile.key_string URL_String h r) <> "" ->
  (now_sweep <= stored + CacheTTL h * 1000000000)%Z ->
  exists h' : HeadlessProxy,
    CacheFile.setCachedResponse md5_Sum URL_String h now_sweep stored r content
      headers statusCode = Done h' /\
    forall now : Z,
      CacheFile.getCachedResponse md5_Sum URL_String h' now r =
        (h', if (now <=? stored + CacheTTL h * 1000000000)%Z
             then Some (content, headers, statusCode) else None).
Proof.
  intros Httl Hg Hm Hst Hns Hnc Hmd Hsweep.
  assert (Hkey : String.eqb (CacheFile.getCacheKey md5_Sum URL_String h r) "" = false).
  { apply String.eqb_neq. unfold CacheFile.getCacheKey. rewrite Hm. simpl.
    now apply hex_nonempty. }
  unfold CacheFile.setCachedResponse.
  destruct (CacheTTL h <=? 0)%Z eqn:E1; [apply Z.leb_le in E1; lia|].
  destruct (statusCode <? 200)%Z eqn:E2; [apply Z.ltb_lt in E2; lia|].
  destruct (300 <=? statusCode)%Z eqn:E3; [apply Z.leb_le in E3; lia|].
  simpl. rewrite Hm. simpl. rewrite Hkey, Hns, Hnc. simpl. rewrite andb_false_r.
  rewrite map_fold_copy, Hg. simpl.
  set (key := CacheFile.getCacheKey md5_Sum URL_String h r) in *.
  set (entry := {| Content := content; Headers := headers; StatusCode := statusCode;
                   Expiration := Time_Add stored (seconds (CacheTTL h)) |}).
  assert (Hlook : forall (g' : gmap string cacheEntry) (now : Z),
            g' !! key = Some entry ->
            CacheFile.getCachedResponse md5_Sum URL_String (set_cache h (Some g')) now r =
            (set_cache h (Some g'),
             if (now <=? stored + CacheTTL h * 1000000000)%Z
             then Some (content, headers, statusCode) else None)).
  { intros g' now Hg'. unfold CacheFile.getCachedResponse. simpl. rewrite E1.
    change (CacheFile.getCacheKey md5_Sum URL_String (set_cache h (Some g')) r) with key.
    rewrite Hkey, Hg'. unfold CacheFile.Expires, Time_After, entry, Time_Add. simpl.
    rewrite (seconds_in_range _ Httl).
    destruct (now <=? _)%Z eqn:E4.
    - apply Z.leb_le in E4.
      destruct (_ <? now)%Z eqn:E5; [apply Z.ltb_lt in E5; lia|reflexivity].
    - apply Z.leb_gt in E4.
      destruct (_ <? now)%Z eqn:E5; [reflexivity|apply Z.ltb_ge in E5; lia]. }
  destruct (1000 <? _)%Z; (eexists; split; [reflexivity|]); intros now; apply Hlook.
  - apply map_lookup_filter_Some. split; [apply lookup_insert_eq|].
    simpl. unfold CacheFile.Expires, Time_After, Time_Add. simpl.
    rewrite (seconds_in_range _ Httl). apply Z.ltb_ge. lia.
  - apply lookup_insert_eq.
Qed.

End CacheLifeCycle.

Section CacheLifeCycleExamples.
Import Http Go Rod Handler Samples.

(** X4, on the handler that caches for a minute. *)
Lemma handler_cache_serves_until_expiry_witness :
  exists h' : HeadlessProxy,
    Handler.setCachedResponse plain_digest caching_proxy 0 0 get_request
      "<html></html>" ∅ 200 = Done h' /\
    (forall now : Z,
       (now < 0 + CacheTTL caching_proxy * 1000000000)%Z ->
       Handler.getCachedResponse plain_digest h' now get_request =
         (h', Some ("<html></html>", ∅, 200%Z))) /\
    (forall now : Z,
       (0 + CacheTTL caching_proxy * 1000000000 <= now)%Z ->
       (Handler.getCachedResponse plain_digest h' now get_request).2 = None /\
       forall k : string,
         map_get (cache (Handler.getCachedResponse plain_digest h' now get_request).1) k =
         if String.eqb k (Handler.getCacheKey plain_digest caching_proxy get_request)
         then None else map_get (cache h') k).
Proof.
  apply (handler_cache_serves_until_expiry plain_digest caching_proxy ∅ 0 0
           get_request "<html></html>" ∅ 200).
  - simpl. lia.
  - reflexivity.
Defined.

(** X6, on a cache that holds one entry. *)
Lemma handler_store_keeps_live_entries_witness :
  exists h' : HeadlessProxy,
    Handler.setCachedResponse plain_digest stocked_proxy 0 0 get_request
      "<html></html>" ∅ 200 = Done h' /\
    ((Z.of_nat (size ({[ "k" := kept_entry ]} : gmap string cacheEntry)) <= 1000)%Z \/
     (0 <= Expiration kept_entry)%Z ->
     map_get (cache h') "k" = Some kept_entry) /\
    ((1000 < Z.of_nat (size ({[ "k" := kept_entry ]} : gmap string cacheEntry)))%Z ->
     (Expiration kept_entry < 0)%Z ->
     map_get (cache h') "k" = None).
Proof.
  apply (handler_store_keeps_live_entries plain_digest stocked_proxy
           {[ "k" := kept_entry ]} 0 0 get_request "<html></html>" ∅ 200
           "k" kept_entry).
  - simpl. lia.
  - reflexivity.
  - apply lookup_singleton_eq.
  - vm_compute. discriminate.
Defined.

(** X7, on the handler that caches for a minute. *)
Lemma cache_file_serves_through_expiry_witness :
  exists h' : HeadlessProxy,
    CacheFile.setCachedResponse plain_digest url_text caching_proxy 0 0 get_request
      "<html></html>" ∅ 200 = Done h' /\
    forall now : Z,
      CacheFile.getCachedResponse plain_digest url_text h' now get_request =
        (h', if (now <=? 0 + CacheTTL caching_proxy * 1000000000)%Z
             then Some ("<html></html>", ∅, 200%Z) else None).
Proof.
  apply (cache_file_serves_through_expiry plain_digest url_text caching_proxy ∅
           0 0 get_request "<html></html>" ∅ 200).
  - simpl. lia.
  - reflexivity.
  - reflexivity.
  - lia.
  - reflexivity.
  - reflexivity.
  - vm_compute. discriminate.
  - simpl. lia.
Defined.

(** X8, on a 500 response that forbids storing. *)
Lemma cache_file_store_guard_witness :
  CacheFile.setCachedResponse plain_digest url_text caching_proxy 0 0 get_request
    "oops" no_store_headers 500 = Done caching_proxy.
Proof.
  apply (cache_file_store_guard plain_digest url_text caching_proxy 0 0 get_request
           "oops" no_store_headers 500).
  right. right. right. left. lia.
Defined.

(** X9, on a POST. *)
Lemma cache_file_excludes_writes_witness :
  CacheFile.getCachedResponse plain_digest url_text caching_proxy 1 post_request =
    (caching_proxy, None) /\
  CacheFile.setCachedResponse plain_digest url_text caching_proxy 0 0 post_request
    "created" ∅ 201 = Done caching_proxy.
Proof.
  apply (cache_file_excludes_writes plain_digest url_text caching_proxy 0 1
           post_request "created" ∅ 201).
  left. reflexivity.
Defined.

End CacheLifeCycleExamples.

(** ** ServeHTTP: what a call leaves behind *)

Section ServeOutcomes.
Import Http Go Rod Handler Server.

Variable sha256_Sum md5_Sum : string -> string.
Variable URL_String : URL -> string.
Variable format_RFC1123 : Z -> string.

Abbreviation Serve := (ServeHTTP sha256_Sum md5_Sum URL_String format_RFC1123).
Abbreviation Lookup := (lookup sha256_Sum md5_Sum URL_String).
Abbreviation Store := (store sha256_Sum md5_Sum URL_String).
Abbreviation Session := (session sha256_Sum md5_Sum URL_String format_RFC1123).

#[local] Arguments getBrowser : simpl never.
#[local] Arguments returnBrowser : simpl never.
#[local] Arguments Http.Write : simpl never.
#[local] Arguments WriteHeader : simpl never.
#[local] Arguments send_status : simpl never.
#[local] Arguments copy_headers : simpl never.
#[local] Arguments store : simpl never.
#[local] Arguments target_url : simpl never.
#[local] Arguments Header_Set : simpl never.
#[local] Arguments Header_Add : simpl never.
#[local] Arguments cookie_line : simpl never.
#[local] Arguments fetch_headers : simpl never.

(** *** Steps that leave the writer and the cache alone *)

Lemma polite_bind {A B} (m : M A) (k : A -> M B) :
  polite m -> (forall a, polite (k a)) -> polite (m ≫= k).
Proof.
  intros Hm Hk s. unfold mbind, M_bind. specialize (Hm s).
  destruct (m s) as [s' [a|e]]; simpl in *.
  - specialize (Hk a s'). destruct Hm as [Hw Hc].
    destruct (k a s') as [s'' [b|[[msg|]|msg]]]; simpl in *; try exact I;
      destruct Hk; split; congruence.
  - exact Hm.
Qed.

Lemma polite_ret {A} (a : A) : polite (mret a).
Proof. intros s. simpl. auto. Qed.

Lemma polite_leave {A} (e : Exit) : polite (@leave A e).
Proof. intros s. simpl. destruct e as [[msg|]|msg]; auto. Qed.

Lemma polite_emit_all (evs : list Event) : polite (emit_all evs).
Proof. intros s. simpl. auto. Qed.

Lemma polite_emit (ev : Event) : polite (emit ev).
Proof. intros s. simpl. auto. Qed.

Lemma polite_defer (d : Deferred) : polite (defer d).
Proof. intros s. simpl. auto. Qed.

Lemma polite_check (ok : bool) (msg : string) : polite (check ok msg).
Proof. destruct ok; [apply polite_ret|apply polite_leave]. Qed.

Lemma polite_when (b : bool) (m : M unit) : polite m -> polite (when b m).
Proof. destruct b; [auto|intros _; apply polite_ret]. Qed.

Lemma closing_polite {A} (m : M A) : closing m -> polite m.
Proof. intros H s. destruct (H s) as [-> | [msg ->]]; exact I. Qed.

Lemma closing_after {A B} (m : M A) (k : A -> M B) :
  (forall s, match (m s).2 with
             | inr (Return (Some _)) => False
             | _ => True
             end) ->
  (forall a, closing (k a)) -> closing (m ≫= k).
Proof.
  intros Hm Hk s. unfold mbind, M_bind. specialize (Hm s).
  destruct (m s) as [s' [a|[[msg|]|msg]]]; simpl in *; eauto.
  - apply Hk.
  - contradiction.
Qed.

Lemma closing_respond {A} (code : Z) (data err : string) :
  @closing A (write_header code;; sent ← write true data;
              return_ (if sent : bool then None else Some err)).
Proof.
  intros s. unfold mbind, M_bind, write_header, write, Http.Write.
  destruct (WriteHeader code (rw s)); simpl; eauto.
Qed.


Lemma polite_serve_get h url a : polite (serve_get h url a).
Proof.
  unfold serve_get.
  repeat first
    [ apply polite_emit | apply polite_defer | apply polite_check
    | apply polite_when; apply polite_emit
    | apply polite_bind; [|intros ?] ].
  destruct (html a); [apply polite_ret|apply polite_leave].
Qed.

Lemma polite_serve_fetch h r url a :
  write_ok a = true -> polite (serve_fetch h r url a).
Proof.
  intros Hw. unfold serve_fetch.
  destruct (Body r); [|apply polite_leave].
  apply polite_bind; [apply polite_emit|intros _].
  destruct (fetch a) as [result|]; [|apply polite_leave].
  destruct (fr_error result); [|apply polite_ret].
  rewrite Hw. apply closing_polite, closing_respond.
Qed.

Lemma polite_serve_method h r url a :
  write_ok a = true -> polite (serve_method h r url a).
Proof.
  intros Hw. unfold serve_method.
  destruct (String.eqb _ _); [apply polite_serve_get|].
  destruct (is_fetch_method _); [now apply polite_serve_fetch|].
  unfold serve_other. rewrite Hw. apply closing_polite, closing_respond.
Qed.

Lemma polite_sync_cookies h a hd : polite (sync_cookies format_RFC1123 h a hd).
Proof.
  unfold sync_cookies. destruct (ForwardCookies h); [|apply polite_ret].
  apply polite_bind; [apply polite_emit|intros _].
  destruct (page_cookies a); apply polite_ret.
Qed.

Lemma closing_store_and_respond decl ns n r content hd st msg :
  closing (cache_store sha256_Sum md5_Sum URL_String decl ns n r content hd st;;
           on_writer (copy_headers hd);;
           write_header st;;
           sent ← write true content;
           if sent : bool then return_ None
           else @return_ unit (Some msg)).
Proof.
  intros s. unfold mbind, M_bind, cache_store, on_writer, write_header, write, Http.Write.
  destruct (store _ _ _ _ _ _ _ _ _ _ _); simpl; eauto.
  destruct (WriteHeader _ _); simpl; eauto.
Qed.

Lemma polite_session decl b r clk a :
  write_ok a = true ->
  polite (session sha256_Sum md5_Sum URL_String format_RFC1123 decl b r clk a).
Proof.
  intros Hw. unfold session.
  apply polite_bind; [intros s; simpl; auto|intros h].
  apply polite_bind; [apply polite_emit|intros _].
  apply polite_bind; [apply polite_check|intros _].
  apply polite_bind; [apply polite_defer|intros _].
  apply polite_bind; [apply polite_emit|intros _].
  apply polite_bind; [apply polite_check|intros _].
  apply polite_bind; [|intros _].
  { apply polite_when.
    apply polite_bind; [apply polite_emit|intros _; apply polite_check]. }
  apply polite_bind; [apply polite_when, polite_emit_all|intros _].
  apply polite_bind; [now apply polite_serve_method|intros [[st hd] content]].
  apply polite_bind; [apply polite_sync_cookies|intros hd'].
  rewrite Hw. apply closing_polite, closing_store_and_respond.
Qed.

Lemma run_deferred_keeps (d : Deferred) (s : Frame) :
  rw (run_deferred d s) = rw s /\ cache (hp (run_deferred d s)) = cache (hp s).
Proof.
  destruct d; simpl; auto.
  destruct (returnBrowser_cases (hp s) b) as [-> | ->]; simpl; auto.
Qed.

Lemma run_defers_keeps (s : Frame) :
  rw (run_defers s) = rw s /\ cache (hp (run_defers s)) = cache (hp s).
Proof.
  unfold run_defers. simpl. generalize (defers s) as ds. intros ds. revert s.
  induction ds as [|d ds IH]; intros s; simpl; [auto|].
  destruct (IH (run_deferred d s)) as [-> ->]. apply run_deferred_keeps.
Qed.

Lemma getBrowser_cache (h : HeadlessProxy) (o : launch_outcome) :
  cache (getBrowser h o).1 = cache h.
Proof. destruct (getBrowser_settings h o) as [p ->]. reflexivity. Qed.

Lemma returnBrowser_cache (h : HeadlessProxy) (b : Browser) :
  cache (returnBrowser h b).1 = cache h.
Proof. destruct (returnBrowser_cases h b) as [-> | ->]; reflexivity. Qed.

Lemma returnBrowser_settings (h : HeadlessProxy) (b : Browser) :
  exists p, (returnBrowser h b).1 = set_browserPool h p.
Proof.
  destruct (returnBrowser_cases h b) as [-> | ->]; simpl; eauto.
  exists (browserPool h). now destruct h.
Qed.

(** X10: when the connection takes what is written to it and ServeHTTP
    returns an error, nothing has reached the response writer, neither a
    header nor a status nor a byte of the body, and nothing was stored:
    the cache is as the lookup left it.  This holds for either
    declaration of the cache helpers and whatever the engine answers. *)
Theorem error_leaves_response_untouched (decl : Declaration) (h : HeadlessProxy)
    (w : ResponseWriter) (r : Request) (clk : Clock) (a : Answers)
    (s : Frame) (msg : string) :
  write_ok a = true ->
  Serve decl h w r clk a = (s, Return (Some msg)) ->
  rw s = w /\ cache (hp s) = cache (Lookup decl h (t_lookup clk) r).1.
Proof.
  intros Hw. unfold ServeHTTP.
  set (s0 := {| hp := h; rw := w; trace := []; defers := [] |}).
  assert (Hbody : match (body sha256_Sum md5_Sum URL_String format_RFC1123 decl r clk a s0).2 with
                  | inr (Return (Some _)) =>
                      rw (body sha256_Sum md5_Sum URL_String format_RFC1123 decl r clk a s0).1 = w /\
                      cache (hp (body sha256_Sum md5_Sum URL_String format_RFC1123 decl r clk a s0).1) =
                        cache (Lookup decl h (t_lookup clk) r).1
                  | _ => True
                  end).
  { destruct (Lookup decl h (t_lookup clk) r) as [h1 [[[c hd] st]|]] eqn:HL.
    - unfold body, cache_lookup, mbind, M_bind. simpl. rewrite HL. simpl.
      rewrite Hw.
      pose proof (closing_respond (A:=unit) st c "write"
                    {| hp := h1; rw := copy_headers hd w;
                       trace := [EvCacheLookup]; defers := [] |}) as Hc.
      unfold mbind, M_bind in Hc. simpl in *.
      destruct Hc as [-> | [m ->]]; exact I.
    - destruct (getBrowser h1 (launch a)) as [h2 [[b|]|m]] eqn:HG.
      + unfold s0.
        rewrite (body_session sha256_Sum md5_Sum URL_String format_RFC1123
                   decl h w r clk a h1 h2 b HL HG).
        pose proof (polite_session decl b r clk a Hw
                      {| hp := h2; rw := w;
                         trace := [EvCacheLookup; EvGetBrowser (Some b)];
                         defers := [D_cancel; D_returnBrowser b] |}) as Hp.
        simpl in Hp.
        destruct (session _ _ _ _ _ _ _ _ _ _) as [s1 [u|[[e|]|e]]]; simpl in *; auto.
        destruct Hp as [-> ->]. split; [reflexivity|].
        simpl. rewrite <- (getBrowser_cache h1 (launch a)), HG. reflexivity.
      + unfold body, cache_lookup, get_browser, mbind, M_bind. simpl.
        rewrite HL. simpl. rewrite HG. simpl. split; [reflexivity|].
        rewrite <- (getBrowser_cache h1 (launch a)), HG. reflexivity.
      + unfold body, cache_lookup, get_browser, mbind, M_bind. simpl.
        rewrite HL. simpl. rewrite HG. simpl. exact I. }
  destruct (body _ _ _ _ _ _ _ _ s0) as [s1 [u|e]]; simpl in *.
  - discriminate.
  - intros [= <- ->]. destruct (run_defers_keeps s1) as [-> ->]. exact Hbody.
Qed.

(** *** The pool is left as it was found *)

(** X11: a call that finds a browser in a pool within MaxBrowsers
    leaves the pool exactly as it found it, whether the request is served
    from the cache or through the browser, whatever the engine answers
    and also when the body panics. *)
Theorem serve_leaves_pool_as_found (decl : Declaration) (h : HeadlessProxy)
    (w : ResponseWriter) (r : Request) (clk : Clock) (a : Answers) :
  browserPool h <> [] ->
  (pool_size h <= MaxBrowsers h)%Z ->
  browserPool (hp (Serve decl h w r clk a).1) = browserPool h.
Proof.
  intros Hne Hb.
  destruct (lookup_settings sha256_Sum md5_Sum URL_String decl h (t_lookup clk) r)
    as [c' Hc'].
  destruct (Lookup decl h (t_lookup clk) r) as [h1 [[[c hd] st]|]] eqn:HL;
    simpl in Hc'; subst h1.
  - destruct (serve_hit_any sha256_Sum md5_Sum URL_String format_RFC1123
                decl h w r clk a _ c hd st HL) as (_ & -> & _).
    reflexivity.
  - destruct (browserPool h) as [|x l] eqn:Hp using rev_ind; [congruence|].
    clear IHl.
    pose proof (getBrowser_snoc (set_cache h c') l x (launch a) Hp) as HG.
    destruct (serve_session sha256_Sum md5_Sum URL_String format_RFC1123
                decl h w r clk a _ _ x HL HG)
      as (evs & h3 & _ & Hp3 & Hx3 & _ & _ & -> & _).
    simpl in Hp3, Hx3.
    rewrite returnBrowser_room.
    + simpl. now rewrite Hp3.
    + unfold pool_size in *. rewrite Hp3, Hx3.
      rewrite Hp, length_app in Hb. simpl in Hb. lia.
Qed.


(** *** The page is closed before the browser is released *)

Lemma bind_handler {B} (k : HeadlessProxy -> M B) (s : Frame) :
  (handler ≫= k) s = k (hp s) s.
Proof. reflexivity. Qed.

Lemma bind_emit {B} (ev : Event) (k : unit -> M B) (s : Frame) :
  (emit ev ≫= k) s =
  k tt {| hp := hp s; rw := rw s; trace := trace s ++ [ev]; defers := defers s |}.
Proof. reflexivity. Qed.

Lemma bind_check {B} (ok : bool) (msg : string) (k : unit -> M B) (s : Frame) :
  (check ok msg ≫= k) s = if ok then k tt s else (s, inr (Return (Some msg))).
Proof. now destruct ok. Qed.

Lemma bind_defer {B} (d : Deferred) (k : unit -> M B) (s : Frame) :
  (defer d ≫= k) s =
  k tt {| hp := hp s; rw := rw s; trace := trace s; defers := d :: defers s |}.
Proof. reflexivity. Qed.

Lemma session_with_page (js : bool) (decl : Declaration) (b : Browser)
    (r : Request) (clk : Clock) (a : Answers) (s0 : Frame) :
  page_ok a = true ->
  EnableJS (hp s0) = js ->
  during off_pool
    {| hp := hp s0; rw := rw s0; trace := trace s0 ++ [EvPage b];
       defers := D_pageClose :: defers s0 |}
    (Session decl b r clk a s0).1.
Proof.
  intros Hpage Hjs. unfold session.
  rewrite bind_handler, bind_emit, bind_check, Hpage, bind_defer.
  cbv beta iota. cbn [hp rw trace defers].
  match goal with
  | |- during _ ?s1 (?m ?s1).1 => assert (Hst : steady js off_pool m)
  end.
  { assert (HP : forall ev, off_pool ev -> not_js_override ev -> off_pool ev) by auto.
    apply steady_bind; [now apply steady_emit|intros _].
    apply steady_bind; [apply steady_check|intros _].
    apply steady_bind; [|intros _].
    { apply steady_when.
      apply steady_bind; [now apply steady_emit|intros _; apply steady_check]. }
    apply steady_bind; [|intros _].
    { apply steady_when, steady_emit_all.
      induction (Cookies r); simpl; constructor; [exact I|assumption]. }
    apply steady_bind; [now apply steady_serve_method|intros [[st hd] content]].
    apply steady_bind; [now apply steady_sync_cookies|intros hd'].
    apply steady_bind; [now apply steady_cache_store|intros _].
    apply steady_bind; [apply steady_on_writer|intros _].
    apply steady_bind; [apply steady_write_header|intros _].
    apply steady_bind; [apply steady_write|intros sent].
    destruct sent; apply steady_leave. }
  apply Hst. exact Hjs.
Qed.

(** X12: on a cache miss with a browser in hand, if the page was
    created, the last things the call does, on every way out and also
    when the body panics, are closing the page, cancelling the context
    and returning the browser, in this order (then the browser is closed
    if the pool is full); nothing the call does in between touches the
    pool.  If the page could not be created the call returns the error
    [failed to create page: ] followed by the text of the engine's error,
    writes nothing, closes no page and returns the browser. *)
Theorem page_closed_before_release (decl : Declaration) (h : HeadlessProxy)
    (w : ResponseWriter) (r : Request) (clk : Clock) (a : Answers)
    (h1 h2 : HeadlessProxy) (b : Browser) :
  Lookup decl h (t_lookup clk) r = (h1, None) ->
  getBrowser h1 (launch a) = (h2, Done (Some b)) ->
  (page_ok a = true ->
   exists (evs : list Event) (h3 : HeadlessProxy),
     Forall off_pool evs /\
     trace (Serve decl h w r clk a).1 =
       [EvCacheLookup; EvGetBrowser (Some b); EvPage b] ++ evs ++
       [EvPageClose; EvCancel; EvReturnBrowser b] ++
       match (returnBrowser h3 b).2 with
       | Some c => [EvBrowserClose c]
       | None => []
       end) /\
  (page_ok a = false ->
   Serve decl h w r clk a =
     ({| hp := (returnBrowser h2 b).1; rw := w;
         trace := [EvCacheLookup; EvGetBrowser (Some b); EvPage b;
                   EvCancel; EvReturnBrowser b] ++
                  match (returnBrowser h2 b).2 with
                  | Some c => [EvBrowserClose c]
                  | None => []
                  end;
         defers := [] |},
      Return (Some (Errorf "failed to create page" (error_text a))))).
Proof.
  intros HL HG.
  set (s0 := {| hp := h2; rw := w; trace := [EvCacheLookup; EvGetBrowser (Some b)];
                defers := [D_cancel; D_returnBrowser b] |}).
  split; intros Hpage.
  - pose proof (session_with_page (EnableJS h2) decl b r clk a s0 Hpage eq_refl) as Hd.
    unfold ServeHTTP.
    rewrite (body_session sha256_Sum md5_Sum URL_String format_RFC1123
               decl h w r clk a h1 h2 b HL HG).
    fold s0.
    destruct (Session decl b r clk a s0) as [s1 res]. simpl in Hd.
    destruct Hd as ([evs [Ht Hev]] & [ds [Hds Hm]] & _).
    assert (Hrun : exists evs2,
              Forall off_pool evs2 /\
              trace (run_defers s1) =
                trace s1 ++ evs2 ++ [EvPageClose; EvCancel; EvReturnBrowser b] ++
                match (returnBrowser (hp s1) b).2 with
                | Some c => [EvBrowserClose c]
                | None => []
                end).
    { unfold run_defers. rewrite Hds. simpl. rewrite fold_left_app.
      destruct (run_minor ds Hm s1) as (Hh & _ & evs2 & Ht2 & Hc2).
      set (s2 := fold_left _ ds s1) in *. simpl.
      rewrite Hh. destruct (returnBrowser (hp s1) b) as [h4 cl]. simpl.
      exists evs2. split.
      - eapply Forall_impl; [exact Hc2|]. now intros ev [Hoff _].
      - rewrite Ht2. rewrite <- !app_assoc. reflexivity. }
    destruct Hrun as (evs2 & Hev2 & Hrun).
    exists (evs ++ evs2), (hp s1). split; [now apply Forall_app|].
    assert (Hgoal : trace (run_defers s1) =
                    [EvCacheLookup; EvGetBrowser (Some b); EvPage b] ++ (evs ++ evs2) ++
                    [EvPageClose; EvCancel; EvReturnBrowser b] ++
                    match (returnBrowser (hp s1) b).2 with
                    | Some c => [EvBrowserClose c]
                    | None => []
                    end).
    { rewrite Hrun, Ht. simpl. rewrite <- !app_assoc. reflexivity. }
    destruct res; exact Hgoal.
  - unfold ServeHTTP.
    rewrite (body_session sha256_Sum md5_Sum URL_String format_RFC1123
               decl h w r clk a h1 h2 b HL HG).
    unfold session. rewrite bind_handler, bind_emit, bind_check, Hpage.
    unfold run_defers. simpl.
    destruct (returnBrowser h2 b) as [h4 cl]. reflexivity.
Qed.


(** *** A failed fetch *)

Lemma fetch_method_not_get (m : string) :
  is_fetch_method m = true -> String.eqb m MethodGet = false.
Proof.
  intros H. destruct (String.eqb m MethodGet) eqn:E; [|reflexivity].
  apply String.eqb_eq in E. subst m. discriminate H.
Qed.

(** X13: for POST, PUT, DELETE and PATCH on a cache miss, with the
    page set up and the body read, when the fetch script reports an error
    the call answers 502 with the body [Error communicating with upstream
    server], adds no header, returns nil (or the write error) and stores
    nothing in the cache. *)
Theorem fetch_error_is_bad_gateway (decl : Declaration) (h : HeadlessProxy)
    (w : ResponseWriter) (r : Request) (clk : Clock) (a : Answers)
    (h1 h2 : HeadlessProxy) (b : Browser) (payload : string)
    (result : FetchResult) (e : string) :
  is_fetch_method (Method r) = true ->
  Lookup decl h (t_lookup clk) r = (h1, None) ->
  getBrowser h1 (launch a) = (h2, Done (Some b)) ->
  page_ok a = true ->
  set_user_agent_ok a = true ->
  (EnableJS h2 = false -> eval_on_new_document_ok a = true) ->
  Body r = Some payload ->
  fetch a = Some result ->
  fr_error result = Some e ->
  w_status w = None ->
  exists s : Frame,
    Serve decl h w r clk a =
      (s, Return (if write_ok a then None else Some "write")) /\
    w_status (rw s) = Some StatusBadGateway /\
    w_header (rw s) = w_header w /\
    w_body (rw s) =
      (if write_ok a
       then w_body w +:+ "Error communicating with upstream server"
       else w_body w) /\
    cache (hp s) = cache h1.
Proof.
  intros Hm HL HG Hpage Hua Hjs Hbody Hfetch Herr Hfresh.
  pose proof (fetch_method_not_get _ Hm) as Hget.
  unfold ServeHTTP.
  rewrite (body_session sha256_Sum md5_Sum URL_String format_RFC1123
             decl h w r clk a h1 h2 b HL HG).
  unfold session, serve_method, serve_fetch, handler,
    emit, emit_all, check, defer, when, write_header, write, return_, leave.
  unfold mbind, M_bind, mret, M_ret. simpl.
  rewrite Hget, Hm, Hpage, Hua, Hbody, Hfetch, Herr. simpl.
  assert (Hcache : cache h2 = cache h1).
  { rewrite <- (getBrowser_cache h1 (launch a)), HG. reflexivity. }
  assert (Hsent : WriteHeader StatusBadGateway w = Done (send_status StatusBadGateway w))
    by (now apply valid_code_sent).
  assert (Hw : forall ok,
            w_status (Http.Write ok "Error communicating with upstream server"
                        (send_status StatusBadGateway w)).1 = Some StatusBadGateway /\
            w_header (Http.Write ok "Error communicating with upstream server"
                        (send_status StatusBadGateway w)).1 = w_header w /\
            w_body (Http.Write ok "Error communicating with upstream server"
                        (send_status StatusBadGateway w)).1 =
              (if ok then w_body w +:+ "Error communicating with upstream server"
               else w_body w) /\
            (Http.Write ok "Error communicating with upstream server"
                        (send_status StatusBadGateway w)).2 = ok).
  { intros ok. unfold Http.Write, send_status. rewrite Hfresh. simpl.
    destruct ok; simpl; auto. }
  destruct (Hw (write_ok a)) as (H1 & H2 & H3 & H4).
  destruct (EnableJS h2) eqn:Ejs; simpl;
    [|rewrite (Hjs eq_refl)];
    destruct (ForwardCookies h2); simpl;
    rewrite Hsent; simpl;
    destruct (Http.Write _ _ _) as [w' sent]; simpl in *; subst sent;
    unfold run_defers; simpl;
    destruct (returnBrowser h2 b) as [h4 cl] eqn:ER;
    (eexists; split; [reflexivity|]); simpl;
    (split; [assumption|split; [assumption|split; [assumption|]]]);
    rewrite <- Hcache;
    change h4 with ((h4, cl).1); rewrite <- ER; apply returnBrowser_cache.
Qed.

(** *** A rendered page is served from the cache afterwards *)

(** The headers a rendered page is answered with. *)
Lemma session_renders decl b r clk a s0 content :
  Method r = MethodGet ->
  page_ok a = true ->
  set_user_agent_ok a = true ->
  (EnableJS (hp s0) = false -> eval_on_new_document_ok a = true) ->
  navigate_ok a = true ->
  wait_navigation_ok a = true ->
  html a = Some content ->
  exists (evs : list Event) (hd : Header),
    forall h' : HeadlessProxy,
      Store decl (hp s0) (t_sweep clk) (t_store clk) r content hd StatusOK = Done h' ->
      session sha256_Sum md5_Sum URL_String format_RFC1123 decl b r clk a s0 =
      ({| hp := h';
          rw := (Http.Write (write_ok a) content
                   (send_status StatusOK (copy_headers hd (rw s0)))).1;
          trace := trace s0 ++ evs;
          defers := D_routerStop :: D_pageClose :: defers s0 |},
       inr (Return (if (Http.Write (write_ok a) content
                          (send_status StatusOK (copy_headers hd (rw s0)))).2
                    then None
                    else Some (Errorf "failed to write response" (error_text a))))).
Proof.
  intros Hm Hpage Hua Hjs Hnav Hwait Hhtml.
  unfold session, serve_method, serve_get, sync_cookies, cache_store, handler,
    emit, emit_all, check, defer, when, on_writer, write_header, write, return_, leave.
  unfold mbind, M_bind, mret, M_ret. simpl.
  rewrite Hm, Hpage, Hua, Hnav, Hwait, Hhtml. simpl.
  destruct (EnableJS (hp s0)) eqn:Ejs; simpl;
    [|rewrite (Hjs eq_refl)];
    destruct (ForwardCookies (hp s0)); simpl;
    destruct (OptimizeResources (hp s0)); simpl;
    try destruct (page_cookies a); simpl;
    do 2 eexists; intros h' Hs; rewrite Hs; simpl;
    rewrite (valid_code_sent StatusOK) by reflexivity;
    destruct (Http.Write _ _ _) as [w' sent]; simpl;
    rewrite <- ?app_assoc; simpl;
    destruct sent; reflexivity.
Qed.

Lemma written_afresh (w : ResponseWriter) (hd : Header) (st : Z) (c : string) :
  w_status w = None ->
  w_status (Http.Write true c (send_status st (copy_headers hd w))).1 = Some st /\
  w_body (Http.Write true c (send_status st (copy_headers hd w))).1 = w_body w +:+ c /\
  (Http.Write true c (send_status st (copy_headers hd w))).2 = true.
Proof.
  intros Hw. unfold Http.Write, send_status, copy_headers. simpl. rewrite Hw. simpl. auto.
Qed.

(** X14: what TestHeadlessProxyCaching tries, for the handler file's
    helpers.
    A GET that misses the cache, gets a browser and is rendered without
    an engine error is answered 200 with the page's HTML, through exactly
    one browser, and is stored; the same request, made on the handler the
    call leaves behind at any instant before the time of storing plus the
    TTL, is answered 200 with the same HTML from the cache alone: the
    only event is the lookup, and the handler is left as it is. *)
Theorem rendered_page_is_served_from_cache (h : HeadlessProxy)
    (w : ResponseWriter) (r : Request) (clk : Clock) (a : Answers)
    (content : string) (g : gmap string cacheEntry) (b : Browser) :
  Method r = MethodGet ->
  (0 < CacheTTL h <= 9223372036)%Z ->
  cache h = Some g ->
  g !! Handler.getCacheKey sha256_Sum h r = None ->
  (getBrowser h (launch a)).2 = Done (Some b) ->
  page_ok a = true ->
  set_user_agent_ok a = true ->
  (EnableJS h = false -> eval_on_new_document_ok a = true) ->
  navigate_ok a = true ->
  wait_navigation_ok a = true ->
  html a = Some content ->
  write_ok a = true ->
  w_status w = None ->
  exists s : Frame,
    Serve in_handler_file h w r clk a = (s, Return None) /\
    acquired (trace s) = [b] /\
    w_status (rw s) = Some StatusOK /\
    w_body (rw s) = w_body w +:+ content /\
    forall (clk' : Clock) (w' : ResponseWriter) (a' : Answers),
      (t_lookup clk' < t_store clk + CacheTTL h * 1000000000)%Z ->
      write_ok a' = true ->
      w_status w' = None ->
      exists s' : Frame,
        Serve in_handler_file (hp s) w' r clk' a' = (s', Return None) /\
        trace s' = [EvCacheLookup] /\
        hp s' = hp s /\
        w_status (rw s') = Some StatusOK /\
        w_body (rw s') = w_body w' +:+ content.
Proof.
  intros Hm Httl Hg Hmiss Hb Hpage Hua Hjs Hnav Hwait Hhtml Hwrite Hfresh.
  assert (HL : Lookup in_handler_file h (t_lookup clk) r = (h, None)).
  { unfold lookup, Handler.getCachedResponse.
    destruct (CacheTTL h <=? 0)%Z eqn:E; [reflexivity|].
    rewrite Hg. simpl. now rewrite Hmiss. }
  destruct (getBrowser h (launch a)) as [h2 res] eqn:HG. simpl in Hb. subst res.
  destruct (getBrowser_settings h (launch a)) as [p Hp]. rewrite HG in Hp. simpl in Hp.
  set (s0 := {| hp := h2; rw := w; trace := [EvCacheLookup; EvGetBrowser (Some b)];
                defers := [D_cancel; D_returnBrowser b] |}).
  destruct (session_renders in_handler_file b r clk a s0 content Hm Hpage Hua)
    as (evs & hd & Hsession); try assumption.
  { simpl. subst h2. exact Hjs. }
  pose proof (handler_store_succeeds sha256_Sum h2 g (t_sweep clk) (t_store clk) r
                content hd StatusOK) as Hstore.
  specialize (Hstore ltac:(subst h2; simpl; lia) ltac:(subst h2; exact Hg)).
  set (g' := if (1000 <? Z.of_nat (size g))%Z then _ else g) in Hstore.
  specialize (Hsession _ Hstore).
  destruct (written_afresh w hd StatusOK content Hfresh) as (Hst & Hbody & Hsent).
  change (rw s0) with w in Hsession. rewrite Hwrite, Hsent in Hsession.
  destruct (serve_session sha256_Sum md5_Sum URL_String format_RFC1123
              in_handler_file h w r clk a h h2 b HL HG)
    as (evs' & h3 & Hev & _ & _ & _ & Htrace & _ & _).
  set (h' := set_cache h2 _) in *.
  set (s1 := {| hp := h'; rw := _; trace := _; defers := _ |}) in Hsession.
  assert (HS : Serve in_handler_file h w r clk a = (run_defers s1, Return None)).
  { unfold ServeHTTP.
    rewrite (body_session sha256_Sum md5_Sum URL_String format_RFC1123
               in_handler_file h w r clk a h h2 b HL HG).
    fold s0. rewrite Hsession. reflexivity. }
  rewrite HS in Htrace.
  change ((run_defers s1, Return None).1) with (run_defers s1) in Htrace.
  destruct (run_defers_keeps s1) as [Hrw _].
  assert (Hhp : exists q, hp (run_defers s1) = set_browserPool h' q).
  { unfold run_defers, s1. simpl.
    destruct (returnBrowser_settings h' b) as [q Hq].
    destruct (returnBrowser h' b) as [h4 cl]. simpl in *. eauto. }
  exists (run_defers s1). split; [exact HS|]. split; [|split; [|split]].
  - rewrite Htrace. destruct (settled_off_pool _ _ Hev) as (Ha & _ & _).
    unfold acquired in *. simpl. rewrite !omap_app, Ha. simpl.
    now destruct (returnBrowser h3 b).2.
  - rewrite Hrw. exact Hst.
  - rewrite Hrw. exact Hbody.
  - intros clk' w' a' Hnow Hwrite' Hfresh'.
    destruct Hhp as [q Hq].
    assert (HL' : Lookup in_handler_file (hp (run_defers s1)) (t_lookup clk') r =
                  (hp (run_defers s1), Some (content, hd, StatusOK))).
    { rewrite Hq. unfold lookup.
      apply (handler_lookup_hit sha256_Sum (set_browserPool h' q) (t_lookup clk') r
               {| Content := content; Headers := hd; StatusCode := StatusOK;
                  Expiration := Time_Add (t_store clk) (seconds (CacheTTL h2)) |}).
      - subst h' h2. simpl. lia.
      - subst h' h2. simpl. apply lookup_insert_eq.
      - subst h2. simpl. unfold Time_Add. rewrite (seconds_in_range _ Httl). lia. }
    rewrite (serve_hit sha256_Sum md5_Sum URL_String format_RFC1123 in_handler_file
               _ w' r clk' a' _ content hd StatusOK HL' eq_refl).
    rewrite Hwrite'.
    destruct (written_afresh w' hd StatusOK content Hfresh') as (Hst' & Hbody' & ->).
    eexists. split; [reflexivity|]. simpl. auto.
Qed.

End ServeOutcomes.

Section ServeOutcomesExamples.
Import Http Go Rod Handler Server Samples.

(** X10, on a GET whose navigation fails. *)
Lemma error_leaves_response_untouched_witness :
  rw (ServeHTTP plain_digest plain_digest url_text no_date in_handler_file
        caching_proxy newRecorder get_request noon lost_upstream).1 = newRecorder /\
  cache (hp (ServeHTTP plain_digest plain_digest url_text no_date in_handler_file
               caching_proxy newRecorder get_request noon lost_upstream).1) =
  cache (lookup plain_digest plain_digest url_text in_handler_file caching_proxy
           (t_lookup noon) get_request).1.
Proof.
  apply (error_leaves_response_untouched plain_digest plain_digest url_text no_date
           in_handler_file caching_proxy newRecorder get_request noon lost_upstream
           _ "failed to navigate to http://upstream.test/page: net::ERR_CONNECTION_REFUSED").
  - reflexivity.
  - vm_compute. reflexivity.
Defined.

(** X11, on a rendered GET. *)
Lemma serve_leaves_pool_as_found_witness :
  browserPool (hp (ServeHTTP plain_digest plain_digest url_text no_date
                     in_handler_file caching_proxy newRecorder get_request noon
                     all_well).1) =
  browserPool caching_proxy.
Proof.
  apply (serve_leaves_pool_as_found plain_digest plain_digest url_text no_date
           in_handler_file caching_proxy newRecorder get_request noon all_well).
  - discriminate.
  - vm_compute. discriminate.
Defined.

(** X12, on a rendered GET that starts from an empty pool, and on a
    GET for which the engine cannot open a page. *)
Lemma page_closed_before_release_witness :
  (exists (evs : list Event) (h3 : HeadlessProxy),
     Forall off_pool evs /\
     trace (ServeHTTP plain_digest plain_digest url_text no_date in_handler_file
              cold_proxy newRecorder get_request noon all_well).1 =
       [EvCacheLookup; EvGetBrowser (Some 7%nat); EvPage 7%nat] ++ evs ++
       [EvPageClose; EvCancel; EvReturnBrowser 7%nat] ++
       match (returnBrowser h3 7%nat).2 with
       | Some c => [EvBrowserClose c]
       | None => []
       end) /\
  ServeHTTP plain_digest plain_digest url_text no_date in_handler_file
    cold_proxy newRecorder get_request noon no_page =
    ({| hp := set_browserPool caching_proxy [7%nat]; rw := newRecorder;
        trace := [EvCacheLookup; EvGetBrowser (Some 7%nat); EvPage 7%nat;
                  EvCancel; EvReturnBrowser 7%nat];
        defers := [] |},
     Return (Some "failed to create page: context deadline exceeded")).
Proof.
  split.
  - apply (page_closed_before_release plain_digest plain_digest url_text no_date
             in_handler_file cold_proxy newRecorder get_request noon all_well
             cold_proxy cold_proxy 7%nat).
    + vm_compute. reflexivity.
    + reflexivity.
    + reflexivity.
  - apply (page_closed_before_release plain_digest plain_digest url_text no_date
             in_handler_file cold_proxy newRecorder get_request noon no_page
             cold_proxy cold_proxy 7%nat).
    + vm_compute. reflexivity.
    + reflexivity.
    + reflexivity.
Defined.

(** X13, on a POST whose fetch fails. *)
Lemma fetch_error_is_bad_gateway_witness :
  exists s : Frame,
    ServeHTTP plain_digest plain_digest url_text no_date in_handler_file
      caching_proxy newRecorder post_request noon failed_fetch =
      (s, Return (if write_ok failed_fetch then None else Some "write")) /\
    w_status (rw s) = Some StatusBadGateway /\
    w_header (rw s) = w_header newRecorder /\
    w_body (rw s) =
      (if write_ok failed_fetch
       then w_body newRecorder +:+ "Error communicating with upstream server"
       else w_body newRecorder) /\
    cache (hp s) = cache caching_proxy.
Proof.
  apply (fetch_error_is_bad_gateway plain_digest plain_digest url_text no_date
           in_handler_file caching_proxy newRecorder post_request noon failed_fetch
           caching_proxy cold_proxy 1%nat "{}"
           {| fr_error := Some "TypeError: Failed to fetch"; fr_headers := None;
              fr_status := Some 500%Z; fr_body := None |}
           "TypeError: Failed to fetch").
  - reflexivity.
  - vm_compute. reflexivity.
  - reflexivity.
  - reflexivity.
  - reflexivity.
  - intros _. reflexivity.
  - reflexivity.
  - reflexivity.
  - reflexivity.
  - reflexivity.
Defined.

(** X14, on the handler that caches for a minute. *)
Lemma rendered_page_is_served_from_cache_witness :
  exists s : Frame,
    ServeHTTP plain_digest plain_digest url_text no_date in_handler_file
      caching_proxy newRecorder get_request noon all_well = (s, Return None) /\
    acquired (trace s) = [1%nat] /\
    w_status (rw s) = Some StatusOK /\
    w_body (rw s) = w_body newRecorder +:+ "<html></html>" /\
    forall (clk' : Clock) (w' : ResponseWriter) (a' : Answers),
      (t_lookup clk' < t_store noon + CacheTTL caching_proxy * 1000000000)%Z ->
      write_ok a' = true ->
      w_status w' = None ->
      exists s' : Frame,
        ServeHTTP plain_digest plain_digest url_text no_date in_handler_file
          (hp s) w' get_request clk' a' = (s', Return None) /\
        trace s' = [EvCacheLookup] /\
        hp s' = hp s /\
        w_status (rw s') = Some StatusOK /\
        w_body (rw s') = w_body w' +:+ "<html></html>".
Proof.
  apply (rendered_page_is_served_from_cache plain_digest plain_digest url_text
           no_date caching_proxy newRecorder get_request noon all_well
           "<html></html>" ∅ 1%nat).
  - reflexivity.
  - simpl. lia.
  - reflexivity.
  - apply lookup_empty.
  - reflexivity.
  - reflexivity.
  - reflexivity.
  - intros _. reflexivity.
  - reflexivity.
  - reflexivity.
  - reflexivity.
  - reflexivity.
  - reflexivity.
Defined.

End ServeOutcomesExamples.

(** ** The headers handed to the fetch script *)

Section FetchHeaders.
Import Http Go Rod Handler Server.

Lemma fetch_headers_fold (r : Request) (l : list string) (m : gmap string string)
    (k : string) :
  fold_left
    (fun headers header =>
       let value := Header_Get (Header_ r) header in
       if String.eqb value "" then headers else <[header := value]> headers)
    l m !! k =
  if existsb (String.eqb k) l && negb (String.eqb (Header_Get (Header_ r) k) "")
  then Some (Header_Get (Header_ r) k) else m !! k.
Proof.
  revert m. induction l as [|x l IH]; intros m; simpl; [reflexivity|].
  rewrite IH. clear IH.
  destruct (existsb (String.eqb k) l && negb (String.eqb (Header_Get (Header_ r) k) ""))
    eqn:E.
  - apply andb_true_iff in E as [-> ->]. now rewrite orb_true_r.
  - destruct (String.eqb k x) eqn:Ek; simpl.
    + apply String.eqb_eq in Ek. subst x.
      destruct (String.eqb (Header_Get (Header_ r) k) "") eqn:Ev; simpl.
      * reflexivity.
      * now rewrite lookup_insert_eq.
    + rewrite E. apply String.eqb_neq in Ek.
      destruct (String.eqb (Header_Get (Header_ r) x) ""); [reflexivity|].
      rewrite lookup_insert_ne by congruence. reflexivity.
Qed.

Lemma existsb_eqb_In (k : string) (l : list string) :
  existsb (String.eqb k) l = true <-> In k l.
Proof.
  rewrite existsb_exists. split.
  - intros (x & Hx & E). apply String.eqb_eq in E. now subst.
  - intros H. exists k. split; [assumption|apply String.eqb_refl].
Qed.

(** X15: the headers ServeHTTP hands to the fetch script for POST, PUT,
    DELETE and PATCH: Content-Type always, with the request's value for
    it (empty when the request has none), and each header of
    ForwardHeaders for which the request has a non-empty value, with that
    value; nothing else. *)
Theorem fetch_headers_are_the_allow_list (h : HeadlessProxy) (r : Request) :
  fetch_headers h r !! "Content-Type" =
    Some (Header_Get (Header_ r) "Content-Type") /\
  (forall k : string,
     In k (ForwardHeaders h) ->
     Header_Get (Header_ r) k <> "" ->
     fetch_headers h r !! k = Some (Header_Get (Header_ r) k)) /\
  (forall k v : string,
     fetch_headers h r !! k = Some v ->
     v = Header_Get (Header_ r) k /\
     (k = "Content-Type" \/ (In k (ForwardHeaders h) /\ v <> ""))).
Proof.
  unfold fetch_headers. split; [|split].
  - rewrite fetch_headers_fold.
    destruct (_ && _); [reflexivity|apply lookup_singleton_eq].
  - intros k Hin Hv. rewrite fetch_headers_fold.
    apply existsb_eqb_In in Hin. apply String.eqb_neq in Hv.
    now rewrite Hin, Hv.
  - intros k v. rewrite fetch_headers_fold.
    destruct (existsb (String.eqb k) (ForwardHeaders h)) eqn:Ein; simpl.
    + destruct (String.eqb (Header_Get (Header_ r) k) "") eqn:Ev; simpl.
      * intros Hk. apply lookup_singleton_Some in Hk as [<- <-]. auto.
      * intros [= <-]. split; [reflexivity|]. right.
        split; [now apply existsb_eqb_In|now apply String.eqb_neq].
    + intros Hk. apply lookup_singleton_Some in Hk as [<- <-]. auto.
Qed.

End FetchHeaders.

(** ** What the health check reports *)

Section HealthReport.
Import Http Go Rod Handler Health.

Variable probe : Browser -> bool.
Variable relaunch : nat -> launch_outcome.

Lemma check_from_counts (snapshot : list Browser) (i : nat) (s : Sweep) :
  (check_from probe relaunch i snapshot s).2 = Done tt ->
  healthyCount (check_from probe relaunch i snapshot s).1 =
    (healthyCount s + Z.of_nat (length (filter (fun b => probe b = true) snapshot)))%Z /\
  unhealthyCount (check_from probe relaunch i snapshot s).1 =
    (unhealthyCount s + Z.of_nat (length (filter (fun b => probe b = false) snapshot)))%Z /\
  length (closed (check_from probe relaunch i snapshot s).1) =
    (length (closed s) + length (filter (fun b => probe b = false) snapshot))%nat /\
  (length (created (check_from probe relaunch i snapshot s).1) <=
    length (created s) + length (filter (fun b => probe b = false) snapshot))%nat.
Proof.
  revert i s. induction snapshot as [|b rest IH]; intros i s; simpl.
  - intros _. repeat split; lia.
  - unfold check_one, isBrowserHealthy.
    rewrite !(filter_cons _ b rest).
    destruct (probe b) eqn:Ep.
    + destruct (decide (true = true)); [|congruence].
      destruct (decide (true = false)); [congruence|].
      intros H. destruct (IH _ _ H) as (H1 & H2 & H3 & H4).
      rewrite H1, H2, H3. simpl in *.
      repeat split; lia.
    + destruct (decide (false = true)); [congruence|].
      destruct (decide (false = false)); [|congruence].
      simpl.
      destruct (Inc (browserClosedTotal (counters s))) as [c|msg]; simpl;
        [|discriminate].
      destruct (createBrowser (relaunch i)) as [[nb|]|msg]; simpl;
        [destruct (Inc (browserCreatedTotal (counters s))) as [c'|msg];
         simpl; [|discriminate]| |discriminate];
        intros H; destruct (IH _ _ H) as (H1 & H2 & H3 & H4);
        rewrite H1, H2, H3; simpl in *; rewrite ?length_app in *; simpl in *;
        repeat split; lia.
Qed.

Lemma filter_probe_split (l : list Browser) :
  (length (filter (fun b => probe b = true) l) +
   length (filter (fun b => probe b = false) l) = length l)%nat.
Proof.
  induction l as [|b l IH]; [reflexivity|].
  rewrite !(filter_cons _ b l).
  destruct (probe b);
    [destruct (decide (true = true)); [|congruence];
     destruct (decide (true = false)); [congruence|]
    |destruct (decide (false = true)); [congruence|];
     destruct (decide (false = false)); [|congruence]];
    simpl; lia.
Qed.

Lemma filter_probe_none (l : list Browser) :
  length (filter (fun b => probe b = false) l) = 0%nat <-> forallb probe l = true.
Proof.
  induction l as [|b l IH]; [simpl; tauto|].
  rewrite (filter_cons _ b l). simpl.
  destruct (probe b); simpl.
  - destruct (decide (true = false)); [congruence|]. exact IH.
  - destruct (decide (false = false)); [|congruence]. simpl. split; [lia|discriminate].
Qed.

Lemma filter_probe_all_fail (l : list Browser) :
  length (filter (fun b => probe b = true) l) = 0%nat <->
  forallb (fun b => negb (probe b)) l = true.
Proof.
  induction l as [|b l IH]; [simpl; tauto|].
  rewrite (filter_cons _ b l). simpl.
  destruct (probe b); simpl.
  - destruct (decide (true = true)); [|congruence]. simpl. split; [lia|discriminate].
  - destruct (decide (false = true)); [congruence|]. exact IH.
Qed.

(** The two counts of a check that returns. *)
Lemma sweep_tally (h : HeadlessProxy) (m : Metrics) (healthy unhealthy : Z) :
  (checkBrowsersHealth probe relaunch h m).2 = Done (healthy, unhealthy) ->
  healthy =
    Z.of_nat (length (filter (fun b => probe b = true) (browserPool h))) /\
  unhealthy =
    Z.of_nat (length (filter (fun b => probe b = false) (browserPool h))).
Proof.
  unfold checkBrowsersHealth.
  pose proof (check_from_counts (browserPool h) 0
                {| pool := browserPool h; healthyCount := 0; unhealthyCount := 0;
                   closed := []; created := []; counters := m |}) as Hc.
  destruct (check_from _ _ _ _ _) as [s [[]|msg]]; simpl in *; [|discriminate].
  destruct (Hc eq_refl) as (H1 & H2 & _).
  intros [= <- <-]. split; lia.
Qed.

(** X16: when checkBrowsersHealth returns, the healthy count is the
    number of pooled browsers that pass the probe and the unhealthy count
    the number that fail it, the two add up to the size of the pool, every
    browser counted unhealthy was closed, at most as many browsers were
    created, and the pool has the size it had. *)
Theorem checkBrowsersHealth_counts (h : HeadlessProxy) (m : Metrics)
    (healthy unhealthy : Z) :
  (checkBrowsersHealth probe relaunch h m).2 = Done (healthy, unhealthy) ->
  healthy =
    Z.of_nat (length (filter (fun b => probe b = true) (browserPool h))) /\
  unhealthy =
    Z.of_nat (length (filter (fun b => probe b = false) (browserPool h))) /\
  (healthy + unhealthy)%Z = pool_size h /\
  Z.of_nat (length (closed (checkBrowsersHealth probe relaunch h m).1.2)) = unhealthy /\
  (Z.of_nat (length (created (checkBrowsersHealth probe relaunch h m).1.2)) <= unhealthy)%Z /\
  pool_size (checkBrowsersHealth probe relaunch h m).1.1 = pool_size h.
Proof.
  pose proof (check_from_length probe relaunch (browserPool h) 0
                {| pool := browserPool h; healthyCount := 0; unhealthyCount := 0;
                   closed := []; created := []; counters := m |}) as Hsize.
  revert Hsize. unfold checkBrowsersHealth, pool_size.
  pose proof (check_from_counts (browserPool h) 0
                {| pool := browserPool h; healthyCount := 0; unhealthyCount := 0;
                   closed := []; created := []; counters := m |}) as Hc.
  destruct (check_from _ _ _ _ _) as [s [[]|msg]]; simpl in *; [|discriminate].
  destruct (Hc eq_refl) as (H1 & H2 & H3 & H4).
  intros Hsize [= <- <-].
  pose proof (filter_probe_split (browserPool h)) as Hsplit.
  repeat split; lia.
Qed.

Variable encode : HealthStatus -> string.
Variable encode_ok : bool.

Lemma overall_status_healthy (healthy unhealthy : Z) :
  (0 <= unhealthy)%Z ->
  String.eqb (overall_status healthy unhealthy) "healthy" = (unhealthy =? 0)%Z.
Proof.
  intros H. unfold overall_status.
  destruct (0 <? unhealthy)%Z eqn:E1.
  - apply Z.ltb_lt in E1. destruct (healthy =? 0)%Z; simpl;
      symmetry; apply Z.eqb_neq; lia.
  - apply Z.ltb_ge in E1. simpl. symmetry. apply Z.eqb_eq. lia.
Qed.

Lemma hit_rate_registered (m : Metrics) :
  registered m = true -> exists rate : float, hit_rate m = Done rate.
Proof.
  unfold registered, hit_rate.
  destruct (cacheHits m), (cacheMisses m); try discriminate.
  intros _. simpl. eauto.
Qed.

(** X17: when every counter is registered and no launch panics,
    getHealthStatus reports [healthy] if every pooled browser passes the
    probe (so also for an empty pool), [unhealthy] if there are browsers
    and all fail it, [degraded] otherwise; on a fresh writer
    handleHealthCheck answers 200 in the first case and 503 in the other
    two, with Content-Type application/json. *)
Theorem health_endpoint_reports_failed_probes (h : HeadlessProxy)
    (m : Metrics) (w : ResponseWriter) :
  registered m = true ->
  (forall i : nat, relaunch i <> MustLaunch_panics) ->
  w_status w = None ->
  exists (h' : HeadlessProxy) (m' : Metrics) (w' : ResponseWriter)
         (status : HealthStatus),
    getHealthStatus probe relaunch h m = (h', m', Done status) /\
    handleHealthCheck probe relaunch encode encode_ok h m w = (h', m', Done w') /\
    Status status =
      (if forallb probe (browserPool h) then "healthy"
       else if forallb (fun b => negb (probe b)) (browserPool h) then "unhealthy"
       else "degraded") /\
    w_status w' =
      Some (if forallb probe (browserPool h) then StatusOK
            else StatusServiceUnavailable) /\
    Header_Get (w_header w') "Content-Type" = "application/json".
Proof.
  intros Hreg Hlaunch Hfresh.
  unfold handleHealthCheck, getHealthStatus.
  pose proof (sweep_tally h m) as Hcounts.
  destruct (checkBrowsersHealth_slots probe relaunch h m Hreg Hlaunch)
    as (_ & _ & [[hc uc] Hdone] & Hreg').
  destruct (Hcounts hc uc Hdone) as (H1 & H2).
  destruct (checkBrowsersHealth probe relaunch h m) as [[h' s] res].
  simpl in Hdone, Hreg'. subst res. clear Hcounts.
  destruct (hit_rate_registered _ Hreg') as [rate ->]. simpl.
  assert (Hstatus : overall_status hc uc =
            if forallb probe (browserPool h) then "healthy"
            else if forallb (fun b => negb (probe b)) (browserPool h) then "unhealthy"
            else "degraded").
  { unfold overall_status.
    pose proof (filter_probe_none (browserPool h)) as Hnone.
    pose proof (filter_probe_all_fail (browserPool h)) as Hall.
    destruct (forallb probe (browserPool h)).
    - assert (uc = 0%Z) as -> by (destruct Hnone as [_ Hn]; rewrite (Hn eq_refl) in H2; lia).
      reflexivity.
    - assert (0 < uc)%Z.
      { destruct (length (filter (fun b => probe b = false) (browserPool h))) eqn:E.
        - destruct Hnone as [Hn _]. discriminate (Hn eq_refl).
        - lia. }
      destruct (0 <? uc)%Z eqn:E1; [|apply Z.ltb_ge in E1; lia]. simpl.
      destruct (forallb (fun b => negb (probe b)) (browserPool h)).
      + assert (hc = 0%Z) as -> by (destruct Hall as [_ Hn]; rewrite (Hn eq_refl) in H1; lia).
        reflexivity.
      + destruct (hc =? 0)%Z eqn:E2; [|reflexivity].
        apply Z.eqb_eq in E2. destruct Hall as [Hn _].
        assert (length (filter (fun b => probe b = true) (browserPool h)) = 0%nat) as E by lia.
        discriminate (Hn E). }
  rewrite Hstatus.
  assert (Hct : forall hd : Header,
            Header_Get (Header_Set hd "Content-Type" "application/json") "Content-Type"
            = "application/json").
  { intros hd. unfold Header_Get, Header_Set. now rewrite lookup_insert_eq. }
  destruct (forallb probe (browserPool h)); simpl.
  - do 4 eexists. split; [reflexivity|]. split; [reflexivity|].
    split; [reflexivity|].
    unfold Write, send_status. simpl. rewrite Hfresh.
    destruct encode_ok; simpl; auto.
  - assert (Hne : forall b : bool,
              ((if b then "unhealthy" else "degraded") =? "healthy") = false)
      by (intros []; reflexivity).
    rewrite Hne. simpl. unfold WriteHeader. simpl. rewrite Hfresh. simpl.
    do 4 eexists. split; [reflexivity|]. split; [reflexivity|].
    split; [reflexivity|].
    unfold Write, send_status. simpl.
    destruct encode_ok; simpl; auto.
Qed.

End HealthReport.

Section HealthReportExamples.
Import Http Go Rod Handler Health Samples.

(** X16, on the pool of three browsers of which two fail the probe. *)
Lemma checkBrowsersHealth_counts_witness :
  1%Z = Z.of_nat (length (filter (fun b => probe_23_down b = true)
                            (browserPool three_browsers))) /\
  2%Z = Z.of_nat (length (filter (fun b => probe_23_down b = false)
                            (browserPool three_browsers))) /\
  (1 + 2)%Z = pool_size three_browsers /\
  Z.of_nat (length (closed (checkBrowsersHealth probe_23_down relaunch_slot_1_only
                              three_browsers fresh_counters).1.2)) = 2%Z /\
  (Z.of_nat (length (created (checkBrowsersHealth probe_23_down relaunch_slot_1_only
                                three_browsers fresh_counters).1.2)) <= 2)%Z /\
  pool_size (checkBrowsersHealth probe_23_down relaunch_slot_1_only
               three_browsers fresh_counters).1.1 = pool_size three_browsers.
Proof.
  apply (checkBrowsersHealth_counts probe_23_down relaunch_slot_1_only three_browsers
           fresh_counters 1 2).
  vm_compute. reflexivity.
Defined.

Lemma relaunch_slot_1_only_returns (i : nat) :
  relaunch_slot_1_only i <> MustLaunch_panics.
Proof. unfold relaunch_slot_1_only. now destruct (Nat.eqb i 1). Defined.

(** X17, on the same pool. *)
Lemma health_endpoint_reports_failed_probes_witness :
  exists (h' : HeadlessProxy) (m' : Metrics) (w' : ResponseWriter)
         (status : HealthStatus),
    getHealthStatus probe_23_down relaunch_slot_1_only three_browsers
      fresh_counters = (h', m', Done status) /\
    handleHealthCheck probe_23_down relaunch_slot_1_only status_word true
      three_browsers fresh_counters newRecorder = (h', m', Done w') /\
    Status status =
      (if forallb probe_23_down (browserPool three_browsers) then "healthy"
       else if forallb (fun b => negb (probe_23_down b)) (browserPool three_browsers)
            then "unhealthy"
       else "degraded") /\
    w_status w' =
      Some (if forallb probe_23_down (browserPool three_browsers) then StatusOK
            else StatusServiceUnavailable) /\
    Header_Get (w_header w') "Content-Type" = "application/json".
Proof.
  apply (health_endpoint_reports_failed_probes probe_23_down relaunch_slot_1_only
           status_word true three_browsers fresh_counters newRecorder).
  - reflexivity.
  - exact relaunch_slot_1_only_returns.
  - reflexivity.
Defined.

(** X19, on the third browser of that pool. *)
Lemma closed_browser_stays_witness :
  browserPool (checkBrowsersHealth probe_23_down relaunch_slot_1_only
                 three_browsers fresh_counters).1.1 !! 2%nat = Some 3%nat /\
  In 3%nat (closed (checkBrowsersHealth probe_23_down relaunch_slot_1_only
                      three_browsers fresh_counters).1.2).
Proof.
  apply (closed_browser_stays probe_23_down relaunch_slot_1_only three_browsers
           fresh_counters 2%nat 3%nat).
  - reflexivity.
  - exact relaunch_slot_1_only_returns.
  - reflexivity.
  - reflexivity.
  - reflexivity.
Defined.

End HealthReportExamples.

(** ** The health check while the counters are nil *)

Section NilCounters.
Import Http Go Rod Handler Health.

Variable probe : Browser -> bool.
Variable relaunch : nat -> launch_outcome.

Lemma check_from_healthy_prefix (before rest : list Browser) (i : nat)
    (s : Sweep) :
  forallb probe before = true ->
  check_from probe relaunch i (before ++ rest) s =
  check_from probe relaunch (i + length before) rest
    {| pool := pool s;
       healthyCount := healthyCount s + Z.of_nat (length before);
       unhealthyCount := unhealthyCount s;
       closed := closed s; created := created s; counters := counters s |}.
Proof.
  revert i s. induction before as [|b before IH]; intros i s Hall.
  - destruct s. simpl. now rewrite Nat.add_0_r, Z.add_0_r.
  - simpl in Hall. apply andb_true_iff in Hall as [Hb Hall].
    simpl. unfold check_one, isBrowserHealthy. rewrite Hb.
    rewrite (IH (S i) _ Hall). simpl.
    replace (S (i + length before)) with (i + S (length before))%nat by lia.
    replace (healthyCount s + 1 + Z.of_nat (length before))%Z
      with (healthyCount s + Z.pos (Pos.of_succ_nat (length before)))%Z by lia.
    reflexivity.
Qed.

Lemma check_one_keeps_cache_counters (i : nat) (b : Browser) (s : Sweep) :
  cacheHits (counters (check_one probe relaunch i b s).1) =
  cacheHits (counters s).
Proof.
  unfold check_one. destruct (isBrowserHealthy probe b); [reflexivity|].
  simpl. destruct (Inc (browserClosedTotal (counters s))); simpl; [|reflexivity].
  destruct (createBrowser (relaunch i)) as [[nb|]|msg]; simpl; try reflexivity.
  destruct (Inc (browserCreatedTotal (counters s))); reflexivity.
Qed.

Lemma check_from_keeps_cache_counters (snapshot : list Browser) (i : nat)
    (s : Sweep) :
  cacheHits (counters (check_from probe relaunch i snapshot s).1) =
  cacheHits (counters s).
Proof.
  revert i s. induction snapshot as [|b rest IH]; intros i s; simpl.
  - reflexivity.
  - pose proof (check_one_keeps_cache_counters i b s) as H.
    destruct (check_one probe relaunch i b s) as [s' [[]|msg]]; simpl in *.
    + now rewrite IH.
    + exact H.
Qed.

(** X27: while the counter of closed browsers is nil, the check panics
    at the first pooled browser that fails the probe, right after closing
    it: no replacement is launched, the browsers after it are not probed,
    and the handler, with the closed browser still in its slot, and the
    counters are as they were. *)
Theorem nil_counter_stops_the_check (h : HeadlessProxy) (m : Metrics)
    (before rest : list Browser) (b : Browser) :
  browserClosedTotal m = None ->
  browserPool h = before ++ b :: rest ->
  forallb probe before = true ->
  probe b = false ->
  checkBrowsersHealth probe relaunch h m =
  (h,
   {| pool := browserPool h; healthyCount := Z.of_nat (length before);
      unhealthyCount := 1; closed := [b]; created := []; counters := m |},
   Panic nil_dereference).
Proof.
  intros Hnil Hpool Hbefore Hb. unfold checkBrowsersHealth.
  rewrite Hpool at 1. rewrite (check_from_healthy_prefix before (b :: rest) 0 _ Hbefore).
  simpl. unfold check_one, isBrowserHealthy. rewrite Hb. simpl.
  rewrite Hnil. simpl. now rewrite set_browserPool_same.
Qed.

Variable encode : HealthStatus -> string.
Variable encode_ok : bool.

(** X28: while the counter of cache hits is nil, getHealthStatus never
    returns a status, whatever the pool holds: the check of the browsers
    panics, or reading the hit rate does; handleHealthCheck panics with
    it. *)
Theorem nil_counter_fails_the_health_endpoint (h : HeadlessProxy)
    (m : Metrics) (w : ResponseWriter) :
  cacheHits m = None ->
  exists (h' : HeadlessProxy) (m' : Metrics) (msg : string),
    getHealthStatus probe relaunch h m = (h', m', Panic msg) /\
    handleHealthCheck probe relaunch encode encode_ok h m w = (h', m', Panic msg).
Proof.
  intros Hnil. unfold handleHealthCheck, getHealthStatus.
  assert (Hkeep : cacheHits (counters (checkBrowsersHealth probe relaunch h m).1.2)
                  = None).
  { unfold checkBrowsersHealth.
    pose proof (check_from_keeps_cache_counters (browserPool h) 0
                  {| pool := browserPool h; healthyCount := 0; unhealthyCount := 0;
                     closed := []; created := []; counters := m |}) as H.
    destruct (check_from _ _ _ _ _) as [s r]. simpl in *. now rewrite H. }
  destruct (checkBrowsersHealth probe relaunch h m) as [[h' s] [[hc uc]|msg]];
    simpl in Hkeep.
  - unfold hit_rate. rewrite Hkeep. simpl. eauto.
  - eauto.
Qed.

End NilCounters.

Section NilCountersExamples.
Import Http Go Rod Handler Health Samples.

(** X27, on the pool of three browsers: the check stops at browser 2. *)
Lemma nil_counter_stops_the_check_witness :
  checkBrowsersHealth probe_23_down relaunch_slot_1_only three_browsers
    no_counters =
  (three_browsers,
   {| pool := browserPool three_browsers; healthyCount := Z.of_nat (length [1%nat]);
      unhealthyCount := 1; closed := [2%nat]; created := [];
      counters := no_counters |},
   Panic nil_dereference).
Proof.
  apply (nil_counter_stops_the_check probe_23_down relaunch_slot_1_only
           three_browsers no_counters [1%nat] [3%nat] 2%nat).
  - reflexivity.
  - reflexivity.
  - reflexivity.
  - reflexivity.
Defined.

(** X28, on a pool whose one browser is healthy. *)
Lemma nil_counter_fails_the_health_endpoint_witness :
  exists (h' : HeadlessProxy) (m' : Metrics) (msg : string),
    getHealthStatus probe_23_down relaunch_slot_1_only caching_proxy
      no_counters = (h', m', Panic msg) /\
    handleHealthCheck probe_23_down relaunch_slot_1_only status_word true
      caching_proxy no_counters newRecorder = (h', m', Panic msg).
Proof.
  apply (nil_counter_fails_the_health_endpoint probe_23_down relaunch_slot_1_only
           status_word true caching_proxy no_counters newRecorder).
  reflexivity.
Defined.

End NilCountersExamples.

(** ** utils.go: truncateString, formatDuration, sanitizeHeaders *)

Section UtilsProperties.
Import Go Http Text Utils.

Lemma substring_length (n : nat) (s : string) :
  (n <= String.length s)%nat -> String.length (String.substring 0 n s) = n.
Proof.
  revert s. induction n as [|n IH]; intros s H.
  - now destruct s.
  - destruct s as [|c s]; simpl in *; [lia|]. rewrite IH; [reflexivity|lia].
Qed.

Lemma wrap64_small (z : Z) :
  (- 2 ^ 63 <= z < 2 ^ 63)%Z -> wrap64 z = z.
Proof. intros H. unfold wrap64. rewrite Z.mod_small by lia. lia. Qed.

Lemma wrap64_below (z : Z) :
  (- 2 ^ 64 <= z < - 2 ^ 63)%Z -> wrap64 z = (z + 2 ^ 64)%Z.
Proof.
  intros H. unfold wrap64.
  replace (z + 2 ^ 63)%Z with ((z + 2 ^ 63 + 2 ^ 64) + (-1) * 2 ^ 64)%Z by lia.
  rewrite Z.mod_add by lia. rewrite Z.mod_small by lia. lia.
Qed.

(** X20: for a limit from 3 up (within the int range), truncateString
    returns, and what it returns is never longer than the limit: the
    string itself when it fits, else its first [maxLen-3] bytes followed
    by three dots, which is exactly [maxLen] bytes. *)
Theorem truncateString_fits (s : string) (maxLen : Z) :
  (3 <= maxLen < 2 ^ 63)%Z ->
  exists t : string,
    truncateString s maxLen = Done t /\
    (Z.of_nat (String.length t) <= maxLen)%Z /\
    ((Z.of_nat (String.length s) <= maxLen)%Z -> t = s) /\
    ((maxLen < Z.of_nat (String.length s))%Z ->
     t = String.substring 0 (Z.to_nat (maxLen - 3)) s +:+ "..." /\
     Z.of_nat (String.length t) = maxLen).
Proof.
  intros H. unfold truncateString.
  destruct (Z.of_nat (String.length s) <=? maxLen)%Z eqn:E.
  - apply Z.leb_le in E. exists s. repeat split; auto; lia.
  - apply Z.leb_gt in E. rewrite wrap64_small by lia. unfold string_to.
    destruct (0 <=? maxLen - 3)%Z eqn:E1; [|apply Z.leb_gt in E1; lia].
    destruct (maxLen - 3 <=? Z.of_nat (String.length s))%Z eqn:E2;
      [|apply Z.leb_gt in E2; lia].
    simpl. eexists. split; [reflexivity|].
    assert (Hlen : Z.of_nat (String.length
                     (String.substring 0 (Z.to_nat (maxLen - 3)) s +:+ "...")) = maxLen).
    { rewrite append_length, substring_length by lia. simpl. lia. }
    repeat split; auto; lia.
Qed.

(** X20, on a string of fourteen bytes and the limit 8. *)
Lemma truncateString_fits_witness :
  exists t : string,
    truncateString "headless proxy" 8 = Done t /\
    (Z.of_nat (String.length t) <= 8)%Z /\
    ((Z.of_nat (String.length "headless proxy") <= 8)%Z -> t = "headless proxy") /\
    ((8 < Z.of_nat (String.length "headless proxy"))%Z ->
     t = String.substring 0 (Z.to_nat (8 - 3)) "headless proxy" +:+ "..." /\
     Z.of_nat (String.length t) = 8%Z).
Proof. apply (truncateString_fits "headless proxy" 8). lia. Defined.

(** X21: truncateString is not total: for a limit below 3 and a string
    longer than the limit, [s[:maxLen-3]] has a negative bound (or, where
    the subtraction wraps, one beyond the string) and the call panics. *)
Theorem truncateString_panics_below_three (s : string) (maxLen : Z) :
  (- 2 ^ 63 <= maxLen < 3)%Z ->
  (maxLen < Z.of_nat (String.length s) < 2 ^ 63 - 3)%Z ->
  truncateString s maxLen = Panic "slice bounds out of range".
Proof.
  intros H Hs. unfold truncateString.
  destruct (Z.of_nat (String.length s) <=? maxLen)%Z eqn:E;
    [apply Z.leb_le in E; lia|].
  unfold string_to.
  destruct (Z_lt_le_dec (maxLen - 3) (- 2 ^ 63)) as [Hlow|Hok].
  - rewrite wrap64_below by lia.
    destruct (0 <=? maxLen - 3 + 2 ^ 64)%Z; simpl; [|reflexivity].
    destruct (maxLen - 3 + 2 ^ 64 <=? Z.of_nat (String.length s))%Z eqn:E2;
      [apply Z.leb_le in E2; lia|reflexivity].
  - rewrite wrap64_small by lia.
    destruct (0 <=? maxLen - 3)%Z eqn:E1; [apply Z.leb_le in E1; lia|reflexivity].
Qed.

(** X21, on three bytes and the limit 2. *)
Lemma truncateString_panics_below_three_witness :
  truncateString "abc" 2 = Panic "slice bounds out of range".
Proof. apply (truncateString_panics_below_three "abc" 2); simpl; lia. Defined.

(** X22: formatDuration loses nothing: below 60 (and so for every
    negative number) it prints the seconds alone; from 60 up to 3599 it
    prints minutes from 1 to 59 and seconds from 0 to 59 that add up to
    the input; from 3600 on it prints hours, minutes from 0 to 59 and
    seconds from 0 to 59 that add up to the input. *)
Theorem formatDuration_parts (seconds : Z) :
  ((seconds < 60)%Z -> formatDuration seconds = itoa seconds +:+ "s") /\
  ((60 <= seconds < 3600)%Z ->
   exists m s : Z,
     (1 <= m < 60)%Z /\ (0 <= s < 60)%Z /\ seconds = (60 * m + s)%Z /\
     formatDuration seconds = itoa m +:+ "m " +:+ itoa s +:+ "s") /\
  ((3600 <= seconds)%Z ->
   exists h m s : Z,
     (1 <= h)%Z /\ (0 <= m < 60)%Z /\ (0 <= s < 60)%Z /\
     seconds = (3600 * h + 60 * m + s)%Z /\
     formatDuration seconds =
       itoa h +:+ "h " +:+ itoa m +:+ "m " +:+ itoa s +:+ "s").
Proof.
  unfold formatDuration. split; [|split].
  - intros H. destruct (seconds <? 60)%Z eqn:E; [reflexivity|].
    apply Z.ltb_ge in E. lia.
  - intros H.
    destruct (seconds <? 60)%Z eqn:E; [apply Z.ltb_lt in E; lia|].
    destruct (seconds <? 3600)%Z eqn:E2; [|apply Z.ltb_ge in E2; lia].
    exists (Z.quot seconds 60), (Z.rem seconds 60).
    rewrite Z.quot_div_nonneg, Z.rem_mod_nonneg by lia.
    pose proof (Z.div_mod seconds 60 ltac:(lia)).
    pose proof (Z.mod_pos_bound seconds 60 ltac:(lia)).
    repeat split; try lia;
      first [apply Z.div_le_lower_bound; lia | apply Z.div_lt_upper_bound; lia].
  - intros H.
    destruct (seconds <? 60)%Z eqn:E; [apply Z.ltb_lt in E; lia|].
    destruct (seconds <? 3600)%Z eqn:E2; [apply Z.ltb_lt in E2; lia|].
    exists (Z.quot seconds 3600), (Z.quot (Z.rem seconds 3600) 60), (Z.rem seconds 60).
    pose proof (Z.mod_pos_bound seconds 3600 ltac:(lia)).
    rewrite (Z.quot_div_nonneg seconds), (Z.rem_mod_nonneg seconds 3600),
      (Z.rem_mod_nonneg seconds 60) by lia.
    rewrite Z.quot_div_nonneg by lia.
    pose proof (Z.div_mod seconds 3600 ltac:(lia)).
    pose proof (Z.div_mod (seconds mod 3600) 60 ltac:(lia)).
    pose proof (Z.mod_pos_bound (seconds mod 3600) 60 ltac:(lia)).
    pose proof (Z.mod_pos_bound seconds 60 ltac:(lia)).
    assert (Hmod : ((seconds mod 3600) mod 60 = seconds mod 60)%Z).
    { replace 3600%Z with (60 * 60)%Z by lia.
      rewrite Z.rem_mul_r by lia.
      rewrite Z.mul_comm, Z.mod_add by lia. apply Z.mod_mod. lia. }
    repeat split; try lia;
      first [apply Z.div_le_lower_bound; lia | apply Z.div_pos; lia
            | apply Z.div_lt_upper_bound; lia].
Qed.

Variable unicode_EqualFold : string -> string -> bool.

Lemma fold_step_table :
  forallb
    (fun i =>
       forallb
         (fun j =>
            Bool.eqb (fold_step (ascii_of_nat i) (ascii_of_nat j))
              (Ascii.eqb (to_lower (ascii_of_nat i)) (to_lower (ascii_of_nat j))))
         (seq 0 128))
    (seq 0 128) = true.
Proof. vm_compute. reflexivity. Qed.

Lemma fold_step_lower (sr tr : ascii) :
  is_ascii_byte sr = true -> is_ascii_byte tr = true ->
  fold_step sr tr = Ascii.eqb (to_lower sr) (to_lower tr).
Proof.
  unfold is_ascii_byte. intros Hs Ht.
  apply Nat.ltb_lt in Hs, Ht.
  pose proof fold_step_table as T.
  rewrite forallb_forall in T.
  specialize (T (nat_of_ascii sr)).
  rewrite forallb_forall in T.
  specialize (T ltac:(apply in_seq; lia) (nat_of_ascii tr) ltac:(apply in_seq; lia)).
  rewrite !ascii_nat_embedding in T. now apply Bool.eqb_prop in T.
Qed.

Lemma EqualFold_ascii (s t : string) :
  is_ascii s = true -> is_ascii t = true ->
  EqualFold unicode_EqualFold s t =
  String.eqb (map_bytes to_lower s) (map_bytes to_lower t).
Proof.
  revert t. induction s as [|sr s IH]; intros [|tr t]; simpl; try reflexivity.
  unfold is_ascii. simpl. intros Hs Ht.
  apply andb_true_iff in Hs as [Hsr Hs]. apply andb_true_iff in Ht as [Htr Ht].
  rewrite Hsr, Htr. simpl.
  rewrite (fold_step_lower sr tr Hsr Htr).
  destruct (Ascii.eqb (to_lower sr) (to_lower tr)); [now apply IH|reflexivity].
Qed.

Lemma sensitive_ascii (k : string) :
  is_ascii k = true ->
  sensitive unicode_EqualFold k =
  existsb (String.eqb (map_bytes to_lower k)) ["authorization"; "cookie"; "set-cookie"].
Proof.
  intros Hk. unfold sensitive.
  rewrite !EqualFold_ascii by (assumption || reflexivity).
  simpl. now rewrite orb_false_r, orb_assoc.
Qed.

(** X23: sanitizeHeaders drops the credentials and nothing else.  For a
    key made of ASCII bytes, the result has no entry under it if its
    lower-case form is authorization, cookie or set-cookie, and the entry
    of the input otherwise; so Get finds nothing under Authorization,
    Cookie and Set-Cookie in the result, and sanitizing twice is the same
    as sanitizing once. *)
Theorem sanitizeHeaders_drops_credentials (headers : Header) (k : string) :
  is_ascii k = true ->
  sanitizeHeaders unicode_EqualFold headers !! k =
    (if existsb (String.eqb (map_bytes to_lower k))
          ["authorization"; "cookie"; "set-cookie"]
     then None else headers !! k) /\
  Header_Get (sanitizeHeaders unicode_EqualFold headers) "Authorization" = "" /\
  Header_Get (sanitizeHeaders unicode_EqualFold headers) "Cookie" = "" /\
  Header_Get (sanitizeHeaders unicode_EqualFold headers) "Set-Cookie" = "" /\
  sanitizeHeaders unicode_EqualFold (sanitizeHeaders unicode_EqualFold headers) =
    sanitizeHeaders unicode_EqualFold headers.
Proof.
  intros Hk.
  assert (Hlook : forall k',
            sanitizeHeaders unicode_EqualFold headers !! k' =
            if sensitive unicode_EqualFold k' then None else headers !! k').
  { intros k'. unfold sanitizeHeaders.
    destruct (sensitive unicode_EqualFold k') eqn:E.
    - apply map_lookup_filter_None. right. intros x _. simpl. congruence.
    - destruct (headers !! k') as [v|] eqn:Ev.
      + apply map_lookup_filter_Some. auto.
      + apply map_lookup_filter_None. now left. }
  split; [|split; [|split; [|split]]].
  - now rewrite Hlook, sensitive_ascii.
  - unfold Header_Get.
    change (CanonicalMIMEHeaderKey "Authorization") with "Authorization".
    rewrite Hlook, sensitive_ascii by reflexivity. reflexivity.
  - unfold Header_Get. change (CanonicalMIMEHeaderKey "Cookie") with "Cookie".
    rewrite Hlook, sensitive_ascii by reflexivity. reflexivity.
  - unfold Header_Get. change (CanonicalMIMEHeaderKey "Set-Cookie") with "Set-Cookie".
    rewrite Hlook, sensitive_ascii by reflexivity. reflexivity.
  - apply map_eq. intros k'. unfold sanitizeHeaders at 1.
    destruct (sanitizeHeaders unicode_EqualFold headers !! k') as [v|] eqn:Ev.
    + apply map_lookup_filter_Some. split; [assumption|]. simpl.
      rewrite Hlook in Ev. now destruct (sensitive unicode_EqualFold k').
    + apply map_lookup_filter_None. now left.
Qed.

End UtilsProperties.

Section UtilsExamples.
Import Go Http Text Utils Samples.

(** X23, on headers that carry a bearer token under an upper-case key. *)
Lemma sanitizeHeaders_drops_credentials_witness :
  sanitizeHeaders no_rune_folds with_credentials !! "AUTHORIZATION" =
    (if existsb (String.eqb (map_bytes to_lower "AUTHORIZATION"))
          ["authorization"; "cookie"; "set-cookie"]
     then None else with_credentials !! "AUTHORIZATION") /\
  Header_Get (sanitizeHeaders no_rune_folds with_credentials) "Authorization" = "" /\
  Header_Get (sanitizeHeaders no_rune_folds with_credentials) "Cookie" = "" /\
  Header_Get (sanitizeHeaders no_rune_folds with_credentials) "Set-Cookie" = "" /\
  sanitizeHeaders no_rune_folds (sanitizeHeaders no_rune_folds with_credentials) =
    sanitizeHeaders no_rune_folds with_credentials.
Proof.
  apply (sanitizeHeaders_drops_credentials no_rune_folds with_credentials
           "AUTHORIZATION").
  reflexivity.
Defined.

End UtilsExamples.

(** ** The headers written to the client *)

Section HeaderCopy.
Import Http Go.

Lemma add_all_lookup (key : string) (values : list string) (hd : Header)
    (k : string) :
  CanonicalMIMEHeaderKey key = key ->
  add_all key values hd !! k =
  if decide (k = key) then
    match values with
    | [] => hd !! k
    | _ :: _ => Some (default [] (hd !! key) ++ values)
    end
  else hd !! k.
Proof.
  intros Hkey. unfold add_all. revert hd.
  induction values as [|v vs IH]; intros hd; simpl.
  - now destruct (decide (k = key)).
  - rewrite IH. unfold Header_Add. rewrite Hkey.
    destruct (decide (k = key)) as [->|Hne].
    + rewrite lookup_insert_eq. simpl.
      destruct vs; [reflexivity|]. now rewrite <- app_assoc.
    + now rewrite lookup_insert_ne by congruence.
Qed.

(** X24: the loop with which ServeHTTP copies response headers to the
    writer adds to what the writer holds and replaces nothing.  For
    headers under canonical keys (as Set and Add make them), the writer
    afterwards holds, under each key with values, its own earlier values
    followed by those values in order, and is unchanged under every other
    key; status and body are not touched. *)
Theorem copied_headers_are_appended (src : Header) (w : ResponseWriter) :
  (forall (k : string) (vs : list string),
     src !! k = Some vs -> CanonicalMIMEHeaderKey k = k) ->
  w_status (copy_headers src w) = w_status w /\
  w_body (copy_headers src w) = w_body w /\
  forall k : string,
    w_header (copy_headers src w) !! k =
    match src !! k with
    | Some (v :: vs) => Some (default [] (w_header w !! k) ++ v :: vs)
    | _ => w_header w !! k
    end.
Proof.
  intros Hcanon. split; [reflexivity|]. split; [reflexivity|].
  unfold copy_headers. simpl. revert Hcanon.
  apply (map_fold_weak_ind
           (fun (r m : Header) =>
              (forall (k : string) (vs : list string),
                 m !! k = Some vs -> CanonicalMIMEHeaderKey k = k) ->
              forall k : string,
                r !! k =
                match m !! k with
                | Some (v :: vs) => Some (default [] (w_header w !! k) ++ v :: vs)
                | _ => w_header w !! k
                end)).
  - intros _ k. now rewrite lookup_empty.
  - intros i x m r Hi IH Hcanon k.
    assert (Hm : forall (k : string) (vs : list string),
              m !! k = Some vs -> CanonicalMIMEHeaderKey k = k).
    { intros k' vs Hk'. apply (Hcanon k' vs).
      rewrite lookup_insert_ne; [assumption|]. intros ->. congruence. }
    rewrite add_all_lookup by (apply (Hcanon i x), lookup_insert_eq).
    destruct (decide (k = i)) as [->|Hne].
    + rewrite lookup_insert_eq, (IH Hm i), Hi. now destruct x.
    + rewrite lookup_insert_ne by congruence. now apply IH.
Qed.

End HeaderCopy.

Section HeaderCopyExamples.
Import Http Go Samples.

(** X24, on a writer that holds a Content-Type already. *)
Lemma copied_headers_are_appended_witness :
  w_status (copy_headers {[ "Content-Type" := ["text/html; charset=utf-8"] ]}
              typed_writer) = w_status typed_writer /\
  w_body (copy_headers {[ "Content-Type" := ["text/html; charset=utf-8"] ]}
            typed_writer) = w_body typed_writer /\
  forall k : string,
    w_header (copy_headers {[ "Content-Type" := ["text/html; charset=utf-8"] ]}
                typed_writer) !! k =
    match ({[ "Content-Type" := ["text/html; charset=utf-8"] ]} : Header) !! k with
    | Some (v :: vs) => Some (default [] (w_header typed_writer !! k) ++ v :: vs)
    | _ => w_header typed_writer !! k
    end.
Proof.
  apply (copied_headers_are_appended
           {[ "Content-Type" := ["text/html; charset=utf-8"] ]} typed_writer).
  intros k vs Hk. apply lookup_singleton_Some in Hk as [<- _]. reflexivity.
Defined.

End HeaderCopyExamples.

(** ** Cookies stay out when they are not forwarded *)

Section CookiesOff.
Import Http Go Rod Handler Server.

Variable sha256_Sum md5_Sum : string -> string.
Variable URL_String : URL -> string.
Variable format_RFC1123 : Z -> string.

Abbreviation Serve := (ServeHTTP sha256_Sum md5_Sum URL_String format_RFC1123).
Abbreviation Lookup := (lookup sha256_Sum md5_Sum URL_String).
Abbreviation Session := (session sha256_Sum md5_Sum URL_String format_RFC1123).

#[local] Arguments getBrowser : simpl never.
#[local] Arguments returnBrowser : simpl never.

Lemma cookie_free_serve_method (js : bool) (h : HeadlessProxy) (r : Request)
    (url : string) (a : Answers) :
  steady js cookie_free (serve_method h r url a).
Proof.
  unfold serve_method, serve_get, serve_fetch, serve_other.
  destruct (String.eqb _ _).
  - repeat first
      [ apply steady_check | apply steady_emit; exact I | apply steady_defer; exact I
      | apply steady_when; apply steady_emit; exact I
      | apply steady_bind; [|intros _] ].
    destruct (html a); [apply steady_ret|apply steady_leave].
  - destruct (is_fetch_method _).
    + destruct (Body r); [|apply steady_leave].
      apply steady_bind; [apply steady_emit; exact I|intros _].
      destruct (fetch a) as [result|]; [|apply steady_leave].
      destruct (fr_error result); [|apply steady_ret].
      apply steady_bind; [apply steady_write_header|intros _].
      apply steady_bind; [apply steady_write|intros sent]. apply steady_leave.
    + apply steady_bind; [apply steady_write_header|intros _].
      apply steady_bind; [apply steady_write|intros sent]. apply steady_leave.
Qed.

Lemma cookie_free_session (decl : Declaration) (b : Browser) (r : Request)
    (clk : Clock) (a : Answers) (s0 : Frame) :
  ForwardCookies (hp s0) = false ->
  during cookie_free s0 (Session decl b r clk a s0).1.
Proof.
  intros Hfc. unfold session. rewrite bind_handler. unfold sync_cookies.
  rewrite Hfc.
  match goal with
  | |- during _ ?s1 (?m ?s1).1 => assert (Hst : steady (EnableJS (hp s0)) cookie_free m)
  end.
  { apply steady_bind; [apply steady_emit; exact I|intros _].
    apply steady_bind; [apply steady_check|intros _].
    apply steady_bind; [apply steady_defer; exact I|intros _].
    apply steady_bind; [apply steady_emit; exact I|intros _].
    apply steady_bind; [apply steady_check|intros _].
    apply steady_bind; [|intros _].
    { apply steady_when.
      apply steady_bind; [apply steady_emit; exact I|intros _; apply steady_check]. }
    apply steady_bind; [apply steady_ret|intros _].
    apply steady_bind; [apply cookie_free_serve_method|intros [[st hd] content]].
    apply steady_bind; [apply steady_ret|intros hd'].
    apply steady_bind; [apply steady_cache_store; exact I|intros _].
    apply steady_bind; [apply steady_on_writer|intros _].
    apply steady_bind; [apply steady_write_header|intros _].
    apply steady_bind; [apply steady_write|intros sent].
    destruct sent; apply steady_leave. }
  now apply Hst.
Qed.

Lemma cookie_free_defers (ds : list Deferred) (s : Frame) :
  exists evs : list Event,
    trace (fold_left (fun acc d => run_deferred d acc) ds s) = trace s ++ evs /\
    Forall cookie_free evs.
Proof.
  revert s. induction ds as [|d ds IH]; intros s; simpl.
  - exists []. now rewrite app_nil_r.
  - destruct (IH (run_deferred d s)) as (evs & -> & Hev).
    destruct d; simpl.
    + destruct (returnBrowser (hp s) b) as [h' [c|]]; simpl;
        eexists; rewrite <- !app_assoc; (split; [reflexivity|]);
        simpl; repeat constructor; assumption.
    + eexists. rewrite <- !app_assoc. split; [reflexivity|].
      simpl. repeat constructor; assumption.
    + eexists. rewrite <- !app_assoc. split; [reflexivity|].
      simpl. repeat constructor; assumption.
    + eexists. rewrite <- !app_assoc. split; [reflexivity|].
      simpl. repeat constructor; assumption.
Qed.

(** X25: with ForwardCookies off, ServeHTTP never sets a cookie on the
    page and never reads the page's cookies, whatever the request
    carries, whichever cache declaration is meant, whatever the engine
    answers and on every way out. *)
Theorem cookies_stay_out_when_not_forwarded (decl : Declaration)
    (h : HeadlessProxy) (w : ResponseWriter) (r : Request) (clk : Clock)
    (a : Answers) :
  ForwardCookies h = false ->
  Forall cookie_free (trace (Serve decl h w r clk a).1).
Proof.
  intros Hfc.
  destruct (lookup_settings sha256_Sum md5_Sum URL_String decl h (t_lookup clk) r)
    as [c' Hc'].
  destruct (Lookup decl h (t_lookup clk) r) as [h1 [[[c hd] st]|]] eqn:HL;
    simpl in Hc'; subst h1.
  - destruct (serve_hit_any sha256_Sum md5_Sum URL_String format_RFC1123
                decl h w r clk a _ c hd st HL) as (-> & _ & _).
    repeat constructor.
  - destruct (getBrowser_settings (set_cache h c') (launch a)) as [p Hp].
    destruct (getBrowser (set_cache h c') (launch a)) as [h2 [[b|]|m]] eqn:HG;
      simpl in Hp; subst h2.
    + unfold ServeHTTP.
      rewrite (body_session sha256_Sum md5_Sum URL_String format_RFC1123
                 decl h w r clk a _ _ b HL HG).
      set (s0 := {| hp := _; rw := w; trace := _; defers := _ |}).
      pose proof (cookie_free_session decl b r clk a s0 Hfc) as Hd.
      destruct (Session decl b r clk a s0) as [s1 res]. simpl in Hd.
      destruct Hd as ([evs [Ht Hev]] & _).
      assert (Hrun : Forall cookie_free (trace (run_defers s1))).
      { unfold run_defers. simpl.
        destruct (cookie_free_defers (defers s1) s1) as (evs2 & -> & Hev2).
        rewrite Ht. simpl. repeat constructor. now apply Forall_app. }
      destruct res; exact Hrun.
    + rewrite (serve_no_browser sha256_Sum md5_Sum URL_String format_RFC1123
                 decl h w r clk a _ _ HL HG). simpl. repeat constructor.
    + rewrite (serve_launch_panic sha256_Sum md5_Sum URL_String format_RFC1123
                 decl h w r clk a _ _ m HL HG). simpl. repeat constructor.
Qed.

(** *** Where a request is sent *)

Lemma prefix_slash_append (s t : string) :
  HasPrefix s "/" = true -> HasPrefix (s +:+ t) "/" = true.
Proof.
  unfold HasPrefix. destruct s as [|c s]; [discriminate|].
  change (String c s +:+ t) with (String c (s +:+ t)). cbn -[ascii_dec].
  match goal with |- context [ascii_dec ?x ?y] => destruct (ascii_dec x y) end;
    [intros _; now destruct (s +:+ t)|discriminate].
Qed.

(** X26: the URL a request is sent to always starts with the configured
    upstream, and the request cannot run on from the upstream's last
    label: either the upstream ends in a slash, or what follows it starts
    with one.  What follows is the path, after a slash if neither side
    has one, and the query after a question mark if there is one. *)
Theorem target_url_stays_under_upstream (h : HeadlessProxy) (r : Request) :
  exists rest : string,
    target_url h r = Upstream h +:+ rest /\
    (HasSuffix (Upstream h) "/" = true \/ HasPrefix rest "/" = true) /\
    rest =
      (if negb (HasSuffix (Upstream h) "/") && negb (HasPrefix (URL_Path (Url r)) "/")
       then "/" else "") +:+
      URL_Path (Url r) +:+
      (if String.eqb (RawQuery (Url r)) "" then "" else "?" +:+ RawQuery (Url r)).
Proof.
  unfold target_url.
  destruct (HasSuffix (Upstream h) "/") eqn:Es;
    destruct (HasPrefix (URL_Path (Url r)) "/") eqn:Ep;
    destruct (String.eqb (RawQuery (Url r)) "") eqn:Eq; simpl;
    eexists; (split; [rewrite ?append_assoc; reflexivity|]);
    (split; [|simpl; rewrite ?append_nil_r; reflexivity]);
    try (now left); right;
    rewrite ?append_nil_r; try reflexivity;
    try (now apply prefix_slash_append); assumption.
Qed.

End CookiesOff.

Section CookiesOffExamples.
Import Http Go Rod Handler Server Samples.

(** X25, on a request that carries a cookie. *)
Lemma cookies_stay_out_when_not_forwarded_witness :
  Forall cookie_free
    (trace (ServeHTTP plain_digest plain_digest url_text no_date in_handler_file
              caching_proxy newRecorder (request_with ∅ [cookie_a]) noon
              all_well).1).
Proof.
  apply (cookies_stay_out_when_not_forwarded plain_digest plain_digest url_text
           no_date in_handler_file caching_proxy newRecorder
           (request_with ∅ [cookie_a]) noon all_well).
  reflexivity.
Defined.

End CookiesOffExamples.
